(** * A chat-driven C program executor: model and verified properties

    The development embeds the four Python modules of the repository:

    - [chat_handler.py]   : [ChatHandler] (sessions, intent routing),
    - [code_executor.py]  : [CodeExecutor] (compile and run under gcc),
    - [code_generator.py] : [CodeGenerator] (the calls to the model and the
                            clean-up of its replies),
    - [main.py]           : [ConnectionManager], the websocket endpoint and
                            the chat endpoint.

    Python [str] values are modelled by [string]; a character is a code
    point below 256 (Latin-1), for which [str.lower], [str.isspace] and the
    [re] class [\s] are given in full.  The operating system, the clock, the
    uuid source, the compiler, the compiled programs, the websockets and the
    generation service are an explicit [World] of oracles; every effect of
    the code on them is appended to a trace. *)

From Stdlib Require Import ZArith QArith Ascii String DecimalString.
From Stdlib Require Import List Bool Lia.
From stdpp Require Import base option list gmap strings relations.

Open Scope Z_scope.

(* ===================================================================== *)
(** * Python strings *)
(* ===================================================================== *)

Module PyStr.

Definition code (a : ascii) : N := N_of_ascii a.

(** The line feed, [\n]. *)
Definition LF : ascii := ascii_of_N 10.
Definition nl : string := String LF EmptyString.

(** [str.isspace] on one character, which is also what [\s] matches in a
    [str] pattern: U+0009..U+000D, U+001C..U+0020, U+0085, U+00A0. *)
Definition isspace (a : ascii) : bool :=
  let n := code a in
  ((9 <=? n) && (n <=? 13))%N || ((28 <=? n) && (n <=? 32))%N
  || (n =? 133)%N || (n =? 160)%N.

(** [str.lower] on one character: A..Z and the Latin-1 capitals
    U+00C0..U+00DE except the multiplication sign U+00D7. *)
Definition lower_char (a : ascii) : ascii :=
  let n := code a in
  if (((65 <=? n) && (n <=? 90))
      || ((192 <=? n) && (n <=? 222) && negb (n =? 215)))%N
  then ascii_of_N (n + 32) else a.

Fixpoint lower (s : string) : string :=
  match s with
  | EmptyString => EmptyString
  | String a s' => String (lower_char a) (lower s')
  end.

Fixpoint lstrip (s : string) : string :=
  match s with
  | EmptyString => EmptyString
  | String a s' => if isspace a then lstrip s' else s
  end.

Fixpoint rstrip (s : string) : string :=
  match s with
  | EmptyString => EmptyString
  | String a s' =>
      match rstrip s' with
      | EmptyString => if isspace a then EmptyString else String a EmptyString
      | r => String a r
      end
  end.

(** [s.strip()] *)
Definition strip (s : string) : string := rstrip (lstrip s).

(** [sub in s] *)
Fixpoint contains (sub s : string) : bool :=
  String.prefix sub s ||
  match s with
  | EmptyString => false
  | String _ s' => contains sub s'
  end.

(** Truth value of a [str]: only the empty string is false. *)
Definition truthy (s : string) : bool :=
  match s with EmptyString => false | _ => true end.

(** Truth value of an [Optional[str]]: [None] and [""] are false. *)
Definition truthy_opt (o : option string) : bool :=
  match o with None => false | Some s => truthy s end.

(** [x in xs] for a list of strings. *)
Definition mem (x : string) (xs : list string) : bool :=
  existsb (String.eqb x) xs.

End PyStr.

(* ===================================================================== *)
(** * The fenced-block pattern of [_extract_code] *)
(* ===================================================================== *)

(** [pattern = r"```(?:c|C)\s*\n([\s\S]+?)\n```"], used with
    [re.IGNORECASE].  The matcher below follows the backtracking order of
    [re]: the greedy [\s*] first tries to take one more character, the lazy
    group first tries to stop. *)
Module Fence.
Import PyStr.

Definition backtick : ascii := ascii_of_N 96.
Definition fence : string :=
  String backtick (String backtick (String backtick EmptyString)).
(** The closing [\n```]. *)
Definition closing : string := String LF fence.

Fixpoint drop_prefix (p s : string) : option string :=
  match p, s with
  | EmptyString, _ => Some s
  | String a p', String b s' =>
      if Ascii.eqb a b then drop_prefix p' s' else None
  | String _ _, EmptyString => None
  end.

(** [([\s\S]+?)\n```] once its first character is taken: returns the rest
    of the group and what follows the match. *)
Fixpoint lazy_group (s : string) : option (string * string) :=
  match drop_prefix closing s with
  | Some rest => Some (EmptyString, rest)
  | None =>
      match s with
      | EmptyString => None
      | String a s' =>
          match lazy_group s' with
          | Some (g, rest) => Some (String a g, rest)
          | None => None
          end
      end
  end.

(** [([\s\S]+?)\n```] *)
Definition group_then_closing (s : string) : option (string * string) :=
  match s with
  | EmptyString => None
  | String a s' =>
      match lazy_group s' with
      | Some (g, rest) => Some (String a g, rest)
      | None => None
      end
  end.

(** [\s*\n([\s\S]+?)\n```] *)
Fixpoint spaces_then_group (s : string) : option (string * string) :=
  match s with
  | EmptyString => None
  | String a s' =>
      match (if isspace a then spaces_then_group s' else None) with
      | Some r => Some r
      | None =>
          if Ascii.eqb a LF then group_then_closing s' else None
      end
  end.

(** [(?:c|C)] under [re.IGNORECASE]. *)
Definition is_c (a : ascii) : bool :=
  Ascii.eqb (lower_char a) (ascii_of_N 99).

(** The whole pattern anchored at the head of [s]. *)
Definition match_here (s : string) : option (string * string) :=
  match drop_prefix fence s with
  | Some (String a s') => if is_c a then spaces_then_group s' else None
  | _ => None
  end.

(** [re.findall(pattern, s, re.IGNORECASE)]: the groups of the successive
    non-overlapping matches, left to right.  A match consumes at least one
    character, so [length s] rounds are enough. *)
Fixpoint findall_fuel (fuel : nat) (s : string) : list string :=
  match fuel with
  | O => []
  | S fuel' =>
      match match_here s with
      | Some (g, rest) => g :: findall_fuel fuel' rest
      | None =>
          match s with
          | EmptyString => []
          | String _ s' => findall_fuel fuel' s'
          end
      end
  end.

Definition findall (s : string) : list string :=
  findall_fuel (S (String.length s)) s.

End Fence.

(* ===================================================================== *)
(** * [ChatHandler] helpers *)
(* ===================================================================== *)

(** [ChatHandler._extract_code] *)
Definition _extract_code (message : string) : option (string * string) :=
  match Fence.findall message with
  | m :: _ => Some ("c", PyStr.strip m)
  | [] => None
  end.

Definition run_commands : list string :=
  [ "run it"; "execute it"; "run this"; "execute this";
    "run the code"; "execute the code"; "run that code";
    "run the program"; "execute the program" ].

(** [ChatHandler._is_run_previous_code_request] *)
Definition _is_run_previous_code_request (message : string) : bool :=
  let message_lower := PyStr.lower message in
  existsb (fun cmd => PyStr.contains cmd message_lower) run_commands.

(* ===================================================================== *)
(** * Exceptions, outcomes and external processes *)
(* ===================================================================== *)

(** The exception classes the code tells apart.  [TimeoutExpired] and
    [CalledProcessError] are the subclasses of [subprocess.SubprocessError];
    [FileNotFoundError] is a subclass of [OSError]; all are [Exception]s. *)
Inductive ExcClass :=
| TimeoutExpired | CalledProcessError | FileNotFoundError | OSError
| OtherException.

Record PyExc := { exc_class : ExcClass; exc_str : string (* str(e) *) }.

Definition is_SubprocessError (e : PyExc) : bool :=
  match exc_class e with
  | TimeoutExpired | CalledProcessError => true
  | _ => false
  end.

Definition is_FileNotFoundError (e : PyExc) : bool :=
  match exc_class e with FileNotFoundError => true | _ => false end.

Definition is_TimeoutExpired (e : PyExc) : bool :=
  match exc_class e with TimeoutExpired => true | _ => false end.

(** How a call ends: it returns, it raises, or it never comes back. *)
Inductive Outcome (A : Type) :=
| Ret (a : A)
| Raise (e : PyExc)
| Hang.
Arguments Ret {A} a.
Arguments Raise {A} e.
Arguments Hang {A}.

Definition returns {A} (o : Outcome A) : bool :=
  match o with Ret _ => true | _ => false end.

(** What a call of [subprocess.run] sees of a child process: how it ends
    and what it wrote, as texts when the call is in text mode; the child
    itself is a [Child] below. *)
Inductive ProcBehaviour :=
| Exits (elapsed : Q) (stdout stderr : string) (returncode : Z)
| NeverExits
| Fails (e : PyExc).

Record CompletedProcess :=
  { returncode : Z; stdout : string; stderr : string }.

(** [subprocess.run(args, capture_output=True, text=True, timeout=..,
    check=..)] on a child as the call sees it: waits for the child; with a
    timeout the child is killed and [TimeoutExpired] raised once the timeout
    has passed; without one the call waits for ever on a child that never
    exits.  The texts of [Exits] are handed back as they are: what text
    mode does to the bytes of the child is [subprocess_run_text] and
    [in_text_mode] below. *)
Definition subprocess_run (b : ProcBehaviour) (timeout : option Q)
    (check : bool) : Outcome CompletedProcess :=
  match b with
  | Fails e => Raise e
  | NeverExits =>
      match timeout with
      | Some _ =>
          Raise {| exc_class := TimeoutExpired; exc_str := "timed out" |}
      | None => Hang
      end
  | Exits elapsed out err rc =>
      let finished :=
        if check && negb (rc =? 0)
        then Raise {| exc_class := CalledProcessError;
                      exc_str := "returned non-zero exit status" |}
        else Ret {| returncode := rc; stdout := out; stderr := err |} in
      match timeout with
      | Some t =>
          if Qle_bool elapsed t then finished
          else Raise {| exc_class := TimeoutExpired; exc_str := "timed out" |}
      | None => finished
      end
  end.

(** What a child process does left to itself: the bytes it writes to its
    standard output and standard error and its exit code, or no end, or no
    start. *)
Inductive Child :=
| Finishes (elapsed : Q) (stdout stderr : list Byte.byte) (returncode : Z)
| RunsForEver
| CannotStart (e : PyExc).

(** [data.decode(encoding, errors)] of [subprocess], with the encoding of
    the locale and [errors] strict: the text, or the message of the
    [UnicodeDecodeError]. *)
Definition Decoder : Type := list Byte.byte -> string + string.

Definition UnicodeDecodeError (msg : string) : PyExc :=
  {| exc_class := OtherException; exc_str := msg |}.

Definition CR : ascii := ascii_of_N 13.

(** [data.replace("\r\n", "\n")] *)
Fixpoint replace_crlf (s : string) : string :=
  match s with
  | EmptyString => EmptyString
  | String a s' =>
      match s' with
      | String b s'' =>
          if Ascii.eqb a CR && Ascii.eqb b PyStr.LF
          then String PyStr.LF (replace_crlf s'')
          else String a (replace_crlf s')
      | EmptyString => String a EmptyString
      end
  end.

(** [data.replace("\r", "\n")] *)
Fixpoint replace_cr (s : string) : string :=
  match s with
  | EmptyString => EmptyString
  | String a s' =>
      String (if Ascii.eqb a CR then PyStr.LF else a) (replace_cr s')
  end.

(** [Popen._translate_newlines], after the decoding. *)
Definition translate_newlines (s : string) : string :=
  replace_cr (replace_crlf s).

(** Whether the child is over when the timeout, if there is one, is. *)
Definition within (timeout : option Q) (elapsed : Q) : bool :=
  match timeout with
  | Some t => Qle_bool elapsed t
  | None => true
  end.

(** [subprocess.run(args, capture_output=True, text=True, timeout=..,
    check=..)] on a child: what the child wrote is decoded and its line
    ends are translated once the child is over; a child that is not over
    in time is killed and nothing is decoded. *)
Definition subprocess_run_text (decode : Decoder) (c : Child)
    (timeout : option Q) (check : bool) : Outcome CompletedProcess :=
  match c with
  | CannotStart e => Raise e
  | RunsForEver =>
      match timeout with
      | Some _ =>
          Raise {| exc_class := TimeoutExpired; exc_str := "timed out" |}
      | None => Hang
      end
  | Finishes elapsed out err rc =>
      if within timeout elapsed then
        match decode out with
        | inl msg => Raise (UnicodeDecodeError msg)
        | inr out_text =>
            match decode err with
            | inl msg => Raise (UnicodeDecodeError msg)
            | inr err_text =>
                if check && negb (rc =? 0)
                then Raise {| exc_class := CalledProcessError;
                              exc_str := "returned non-zero exit status" |}
                else Ret {| returncode := rc;
                            stdout := translate_newlines out_text;
                            stderr := translate_newlines err_text |}
            end
        end
      else Raise {| exc_class := TimeoutExpired; exc_str := "timed out" |}
  end.

(** The child as a call in text mode with that timeout sees it: the texts
    of [Exits] are the decoded ones, a child whose output cannot be decoded
    is a call that fails, and a child that is not over in time is one that
    never exits. *)
Definition in_text_mode (decode : Decoder) (timeout : option Q) (c : Child)
    : ProcBehaviour :=
  match c with
  | CannotStart e => Fails e
  | RunsForEver => NeverExits
  | Finishes elapsed out err rc =>
      if within timeout elapsed then
        match decode out with
        | inl msg => Fails (UnicodeDecodeError msg)
        | inr out_text =>
            match decode err with
            | inl msg => Fails (UnicodeDecodeError msg)
            | inr err_text =>
                Exits elapsed (translate_newlines out_text)
                  (translate_newlines err_text) rc
            end
        end
      else NeverExits
  end.

(* ===================================================================== *)
(** * Data model *)
(* ===================================================================== *)

(** The result dictionary of [execute_c_code]. *)
Record ExecResult := {
  output : string;
  error : string;
  status_code : Z;
  execution_time : Q
}.

Definition set_output (v : string) (r : ExecResult) : ExecResult :=
  {| output := v; error := error r; status_code := status_code r;
     execution_time := execution_time r |}.
Definition set_error (v : string) (r : ExecResult) : ExecResult :=
  {| output := output r; error := v; status_code := status_code r;
     execution_time := execution_time r |}.
Definition set_status_code (v : Z) (r : ExecResult) : ExecResult :=
  {| output := output r; error := error r; status_code := v;
     execution_time := execution_time r |}.
Definition set_execution_time (v : Q) (r : ExecResult) : ExecResult :=
  {| output := output r; error := error r; status_code := status_code r;
     execution_time := v |}.

(** The ["status"] strings of the websocket messages. *)
Inductive Status :=
| starting | compiling | running | compile_error | error_status | completed.

(** The JSON messages handed to [json.dumps]:
    [{"status": st}], [{"status": st, "error": msg}] and
    [{"status": "completed", "result": result}]. *)
Inductive Message :=
| MsgStatus (st : Status)
| MsgError (st : Status) (msg : string)
| MsgResult (result : ExecResult).

Definition message_status (m : Message) : Status :=
  match m with
  | MsgStatus st => st
  | MsgError st _ => st
  | MsgResult _ => completed
  end.

(** A websocket, by object identity. *)
Definition WebSocket := nat.

Inductive Role := user | assistant.
Record Turn := { role : Role; content : string }.

(** One entry of [ChatHandler.sessions]. *)
Record Session := {
  last_generated_code : option string;
  language : string;
  history : list Turn
}.

(** Everything the code does to its surroundings, in order. *)
Inductive Effect :=
| FsMkdtemp (dir : string)
| FsWrite (path text : string)
| FsRmtree (dir : string)
| Spawn (argv : list string) (stdin : option string) (timeout : option Q)
| Broadcast (execution_id : string) (m : Message)
| Accepted (ws : WebSocket)
| SendText (ws : WebSocket) (m : Message).

(** The surroundings, as oracles. *)
Record World := {
  uuid4 : nat -> string;
  time_time : nat -> Q;
  mkdtemp : nat -> PyExc + string;
  write_file : string -> string -> option PyExc;
  gcc_version : ProcBehaviour;
  gcc : string -> ProcBehaviour;
  run_program : string -> option string -> ProcBehaviour;
  accept_raises : WebSocket -> option PyExc;
  send_text_raises : WebSocket -> option PyExc;
  classify_request : string -> PyExc + bool;
  generate_code : string -> PyExc + string;
  generate_chat_response : list Turn -> PyExc + string
}.

(** The objects of [main.py]: [chat_handler.sessions], the fields of
    [code_executor], [manager.active_connections]; the number of draws made
    from each oracle; the trace. *)
Record State := {
  sessions : gmap string Session;
  gcc_available : bool;
  execution_results : gmap string ExecResult;
  active_connections : gmap string (list WebSocket);
  uuid_draws : nat;
  clock_reads : nat;
  mkdtemp_calls : nat;
  trace : list Effect
}.

Definition set_sessions (v : gmap string Session) (s : State) : State :=
  {| sessions := v; gcc_available := gcc_available s;
     execution_results := execution_results s;
     active_connections := active_connections s;
     uuid_draws := uuid_draws s; clock_reads := clock_reads s;
     mkdtemp_calls := mkdtemp_calls s; trace := trace s |}.
Definition set_execution_results (v : gmap string ExecResult) (s : State)
    : State :=
  {| sessions := sessions s; gcc_available := gcc_available s;
     execution_results := v;
     active_connections := active_connections s;
     uuid_draws := uuid_draws s; clock_reads := clock_reads s;
     mkdtemp_calls := mkdtemp_calls s; trace := trace s |}.
Definition set_active_connections (v : gmap string (list WebSocket))
    (s : State) : State :=
  {| sessions := sessions s; gcc_available := gcc_available s;
     execution_results := execution_results s;
     active_connections := v;
     uuid_draws := uuid_draws s; clock_reads := clock_reads s;
     mkdtemp_calls := mkdtemp_calls s; trace := trace s |}.
Definition set_uuid_draws (v : nat) (s : State) : State :=
  {| sessions := sessions s; gcc_available := gcc_available s;
     execution_results := execution_results s;
     active_connections := active_connections s;
     uuid_draws := v; clock_reads := clock_reads s;
     mkdtemp_calls := mkdtemp_calls s; trace := trace s |}.
Definition set_clock_reads (v : nat) (s : State) : State :=
  {| sessions := sessions s; gcc_available := gcc_available s;
     execution_results := execution_results s;
     active_connections := active_connections s;
     uuid_draws := uuid_draws s; clock_reads := v;
     mkdtemp_calls := mkdtemp_calls s; trace := trace s |}.
Definition set_mkdtemp_calls (v : nat) (s : State) : State :=
  {| sessions := sessions s; gcc_available := gcc_available s;
     execution_results := execution_results s;
     active_connections := active_connections s;
     uuid_draws := uuid_draws s; clock_reads := clock_reads s;
     mkdtemp_calls := v; trace := trace s |}.
Definition set_trace (v : list Effect) (s : State) : State :=
  {| sessions := sessions s; gcc_available := gcc_available s;
     execution_results := execution_results s;
     active_connections := active_connections s;
     uuid_draws := uuid_draws s; clock_reads := clock_reads s;
     mkdtemp_calls := mkdtemp_calls s; trace := v |}.

Definition log (e : Effect) (s : State) : State :=
  set_trace (trace s ++ [e]) s.

(** [os.path.join(a, b)] for a relative [b]. *)
Fixpoint ends_with_slash (a : string) : bool :=
  match a with
  | EmptyString => false
  | String c EmptyString => Ascii.eqb c (ascii_of_N 47)
  | String _ a' => ends_with_slash a'
  end.

Definition os_path_join (a b : string) : string :=
  if PyStr.truthy a && negb (ends_with_slash a) then a +:+ "/" +:+ b
  else a +:+ b.

Section Program.

Variable w : World.

(* ------------------------------------------------------------------- *)
(** ** Library calls *)
(* ------------------------------------------------------------------- *)

(** [str(uuid.uuid4())] *)
Definition draw_uuid4 (s : State) : string * State :=
  (uuid4 w (uuid_draws s), set_uuid_draws (S (uuid_draws s)) s).

(** [time.time()] *)
Definition read_time (s : State) : Q * State :=
  (time_time w (clock_reads s), set_clock_reads (S (clock_reads s)) s).

(** [tempfile.mkdtemp()] *)
Definition tempfile_mkdtemp (s : State) : Outcome string * State :=
  let s' := set_mkdtemp_calls (S (mkdtemp_calls s)) s in
  match mkdtemp w (mkdtemp_calls s) with
  | inl e => (Raise e, s')
  | inr dir => (Ret dir, log (FsMkdtemp dir) s')
  end.

(** [with open(path, 'w') as f: f.write(text)] *)
Definition write_text (path text : string) (s : State)
    : Outcome unit * State :=
  match write_file w path text with
  | Some e => (Raise e, s)
  | None => (Ret tt, log (FsWrite path text) s)
  end.

(** [shutil.rmtree(dir, ignore_errors=True)] *)
Definition shutil_rmtree (dir : string) (s : State) : State :=
  log (FsRmtree dir) s.

(** [await websocket.send_text(json.dumps(m))] *)
Definition send_text (ws : WebSocket) (m : Message) (s : State)
    : Outcome unit * State :=
  match send_text_raises w ws with
  | Some e => (Raise e, s)
  | None => (Ret tt, log (SendText ws m) s)
  end.

(* ------------------------------------------------------------------- *)
(** ** [ConnectionManager] *)
(* ------------------------------------------------------------------- *)

(** [ws in conns] *)
Definition ws_in (ws : WebSocket) (conns : list WebSocket) : bool :=
  existsb (Nat.eqb ws) conns.

(** [conns.remove(ws)], for a [ws] that occurs in [conns]. *)
Fixpoint list_remove (ws : WebSocket) (conns : list WebSocket)
    : list WebSocket :=
  match conns with
  | [] => []
  | c :: rest => if Nat.eqb ws c then rest else c :: list_remove ws rest
  end.

(** [ConnectionManager.connect] *)
Definition connect (websocket : WebSocket) (execution_id : string)
    (s : State) : Outcome unit * State :=
  match accept_raises w websocket with
  | Some e => (Raise e, s)
  | None =>
      let s := log (Accepted websocket) s in
      let conns :=
        match active_connections s !! execution_id with
        | Some conns => conns
        | None => []
        end in
      (Ret tt,
       set_active_connections
         (<[execution_id := conns ++ [websocket]]> (active_connections s)) s)
  end.

(** [ConnectionManager.disconnect] *)
Definition disconnect (websocket : WebSocket) (execution_id : string)
    (s : State) : State :=
  match active_connections s !! execution_id with
  | Some conns =>
      let conns :=
        if ws_in websocket conns then list_remove websocket conns
        else conns in
      match conns with
      | [] =>
          set_active_connections
            (delete execution_id (active_connections s)) s
      | _ =>
          set_active_connections
            (<[execution_id := conns]> (active_connections s)) s
      end
  | None => s
  end.

(** The [for connection in ...] loop of [broadcast]: returns
    [disconnected_websockets]. *)
Fixpoint send_to_all (conns : list WebSocket) (m : Message)
    (disconnected_websockets : list WebSocket) (s : State)
    : list WebSocket * State :=
  match conns with
  | [] => (disconnected_websockets, s)
  | connection :: rest =>
      match send_text connection m s with
      | (Ret _, s') => send_to_all rest m disconnected_websockets s'
      | (_, s') =>
          send_to_all rest m (disconnected_websockets ++ [connection]) s'
      end
  end.

(** [ConnectionManager.broadcast] *)
Definition broadcast (m : Message) (execution_id : string) (s : State)
    : State :=
  let s := log (Broadcast execution_id m) s in
  match active_connections s !! execution_id with
  | Some conns =>
      let '(disconnected_websockets, s) := send_to_all conns m [] s in
      fold_left (fun s ws => disconnect ws execution_id s)
        disconnected_websockets s
  | None => s
  end.

(** [if websocket_manager: await websocket_manager.broadcast(..)];
    [websocket_manager] is [None] or the one [manager] of [main.py]. *)
Definition notify (websocket_manager : bool) (m : Message)
    (execution_id : string) (s : State) : State :=
  if websocket_manager then broadcast m execution_id s else s.

(* ------------------------------------------------------------------- *)
(** ** [CodeExecutor] *)
(* ------------------------------------------------------------------- *)

Definition empty_state (gcc_ok : bool) (tr : list Effect) : State :=
  {| sessions := ∅; gcc_available := gcc_ok; execution_results := ∅;
     active_connections := ∅; uuid_draws := 0; clock_reads := 0;
     mkdtemp_calls := 0; trace := tr |}.

(** [CodeExecutor.__init__], with the empty [ChatHandler] and
    [ConnectionManager] that [main.py] builds next to it. *)
Definition CodeExecutor_init : Outcome State :=
  let tr := [Spawn ["gcc"; "--version"] None None] in
  match subprocess_run (gcc_version w) None true with
  | Ret _ => Ret (empty_state true tr)
  | Raise e =>
      if is_SubprocessError e || is_FileNotFoundError e
      then Ret (empty_state false tr)
      else Raise e
  | Hang => Hang
  end.

Definition store_result (execution_id : string) (result : ExecResult)
    (s : State) : State :=
  set_execution_results (<[execution_id := result]> (execution_results s)) s.

Definition gcc_unavailable_message : string :=
  "GCC compiler is not available. Please install GCC.".
Definition timeout_message : string :=
  "Execution timed out after 10 seconds".

(** The inner [try] of [execute_c_code]: input file, then the run. *)
Definition run_step (code : string) (input_data : option string)
    (temp_dir executable_path : string) (s : State)
    : Outcome CompletedProcess * State :=
  if PyStr.truthy_opt input_data then
    let input_file_path := os_path_join temp_dir "input.txt" in
    let text := match input_data with Some t => t | None => "" end in
    match write_text input_file_path text s with
    | (Ret _, s) =>
        let s := log (Spawn [executable_path] (Some input_file_path)
                        (Some 10%Q)) s in
        (subprocess_run (run_program w code (Some text)) (Some 10%Q) false,
         s)
    | (Raise e, s) => (Raise e, s)
    | (Hang, s) => (Hang, s)
    end
  else
    let s := log (Spawn [executable_path] None (Some 10%Q)) s in
    (subprocess_run (run_program w code None) (Some 10%Q) false, s).

(** The body of the outer [try]: how it is left, and the [result]
    dictionary as it stands then. *)
Definition try_body (code : string) (input_data : option string)
    (execution_id : string) (websocket_manager : bool)
    (temp_dir : string) (result : ExecResult) (s : State)
    : Outcome unit * ExecResult * State :=
  let file_path := os_path_join temp_dir "program.c" in
  let executable_path := os_path_join temp_dir "program" in
  let s := notify websocket_manager (MsgStatus starting) execution_id s in
  match write_text file_path code s with
  | (Raise e, s) => (Raise e, result, s)
  | (Hang, s) => (Hang, result, s)
  | (Ret _, s) =>
      let s :=
        notify websocket_manager (MsgStatus compiling) execution_id s in
      let s := log (Spawn ["gcc"; "-o"; executable_path; file_path]
                      None None) s in
      match subprocess_run (gcc w code) None false with
      | Raise e => (Raise e, result, s)
      | Hang => (Hang, result, s)
      | Ret compile_process =>
          if negb (returncode compile_process =? 0) then
            let result := set_error (stderr compile_process) result in
            let result :=
              set_status_code (returncode compile_process) result in
            let s :=
              notify websocket_manager
                (MsgError compile_error (stderr compile_process))
                execution_id s in
            (Ret tt, result, s)
          else
            let s :=
              notify websocket_manager (MsgStatus running) execution_id s in
            match run_step code input_data temp_dir executable_path s with
            | (Ret run_process, s) =>
                let result := set_output (stdout run_process) result in
                let result :=
                  if PyStr.truthy (stderr run_process)
                  then set_error (stderr run_process) result
                  else result in
                let result :=
                  set_status_code (returncode run_process) result in
                (Ret tt, result, s)
            | (Raise e, s) =>
                if is_TimeoutExpired e then
                  (Ret tt,
                   set_status_code 1 (set_error timeout_message result), s)
                else
                  (Ret tt,
                   set_status_code 1
                     (set_error ("Execution error: " +:+ exc_str e) result),
                   s)
            | (Hang, s) => (Hang, result, s)
            end
      end
  end.

(** [CodeExecutor.execute_c_code] *)
Definition execute_c_code (code : string) (input_data : option string)
    (execution_id : option string) (websocket_manager : bool) (s : State)
    : Outcome (string * ExecResult) * State :=
  let '(execution_id, s) :=
    match execution_id with
    | None => draw_uuid4 s
    | Some i => (i, s)
    end in
  let '(start_time, s) := read_time s in
  let result :=
    {| output := ""; error := ""; status_code := 0; execution_time := 0 |} in
  if negb (gcc_available s) then
    let error_message := gcc_unavailable_message in
    let result := set_status_code 1 (set_error error_message result) in
    let s := store_result execution_id result s in
    let s :=
      notify websocket_manager (MsgError error_status error_message)
        execution_id s in
    (Ret (execution_id, result), s)
  else
    match tempfile_mkdtemp s with
    | (Raise e, s) => (Raise e, s)
    | (Hang, s) => (Hang, s)
    | (Ret temp_dir, s) =>
        let '(exit, result, s) :=
          try_body code input_data execution_id websocket_manager
            temp_dir result s in
        match exit with
        | Hang => (Hang, s)
        | _ =>
            (* except Exception as e *)
            let '(result, s) :=
              match exit with
              | Raise e =>
                  (set_status_code 1
                     (set_error ("Unexpected error: " +:+ exc_str e) result),
                   notify websocket_manager
                     (MsgError error_status (exc_str e)) execution_id s)
              | _ => (result, s)
              end in
            (* finally *)
            let s := shutil_rmtree temp_dir s in
            let '(end_time, s) := read_time s in
            let result :=
              set_execution_time (end_time - start_time)%Q result in
            let s := store_result execution_id result s in
            let s :=
              notify websocket_manager (MsgResult result) execution_id s in
            (Ret (execution_id, result), s)
        end
    end.

(** [get_execution_results] of [main.py]: [None] stands for the 404. *)
Definition get_execution_results (execution_id : string) (s : State)
    : option ExecResult :=
  execution_results s !! execution_id.

(* ------------------------------------------------------------------- *)
(** ** The websocket endpoint of [main.py] *)
(* ------------------------------------------------------------------- *)

(** Where [websocket_endpoint] stands once it has subscribed: in its
    [receive_text] loop, or finished because the replay could not be
    sent. *)
Inductive EndpointPhase := Listening | Closed.

(** [websocket_endpoint] up to its [while True] loop. *)
Definition websocket_endpoint (websocket : WebSocket)
    (execution_id : string) (s : State) : Outcome EndpointPhase * State :=
  match connect websocket execution_id s with
  | (Raise e, s) => (Raise e, s)
  | (Hang, s) => (Hang, s)
  | (Ret _, s) =>
      match execution_results s !! execution_id with
      | Some result =>
          match send_text websocket (MsgResult result) s with
          | (Ret _, s) => (Ret Listening, s)
          | (_, s) => (Ret Closed, disconnect websocket execution_id s)
          end
      | None => (Ret Listening, s)
      end
  end.

(** The [except] handlers that end the loop of [websocket_endpoint]. *)
Definition websocket_endpoint_closed (websocket : WebSocket)
    (execution_id : string) (s : State) : State :=
  disconnect websocket execution_id s.

(* ------------------------------------------------------------------- *)
(** ** [ChatHandler] *)
(* ------------------------------------------------------------------- *)

(** The dictionaries returned by [process_message], by their ["type"]. *)
Inductive Response :=
| code_execution (content code status : string) (execution_time : Q)
    (execution_id : string)
| code_generation (content message : string)
| text (content : string).

Definition new_session : Session :=
  {| last_generated_code := None; language := "c"; history := [] |}.

(** [self.sessions[session_id]], for a session that exists. *)
Definition session_of (session_id : string) (s : State) : Session :=
  match sessions s !! session_id with
  | Some session => session
  | None => new_session
  end.

Definition update_session (session_id : string) (f : Session -> Session)
    (s : State) : State :=
  set_sessions (<[session_id := f (session_of session_id s)]> (sessions s))
    s.

(** [session["history"].append({"role": r, "content": c})] *)
Definition history_append (session_id : string) (r : Role) (c : string)
    : State -> State :=
  update_session session_id (fun session =>
    {| last_generated_code := last_generated_code session;
       language := language session;
       history := history session ++ [{| role := r; content := c |}] |}).

(** [session["last_generated_code"] = code; session["language"] = lang] *)
Definition remember_code (session_id : string) (code lang : string)
    : State -> State :=
  update_session session_id (fun session =>
    {| last_generated_code := Some code;
       language := lang;
       history := history session |}).

(** The ["code_execution"] dictionary built from a result. *)
Definition execution_response (code execution_id : string)
    (result : ExecResult) : Response :=
  code_execution
    (if status_code result =? 0 then output result else error result)
    code
    (if status_code result =? 0 then "success" else "error")
    (execution_time result)
    execution_id.

(** The [if language.lower() in ["c", ""]] block shared by the two run
    branches; [refusal] is the text of the [else]. *)
Definition run_code (code language : string) (input_data : option string)
    (refusal : string) (s : State) : Outcome Response * State :=
  if PyStr.mem (PyStr.lower language) ["c"; ""] then
    let '(execution_id, s) := draw_uuid4 s in
    match execute_c_code code input_data (Some execution_id) false s with
    | (Ret (execution_id, result), s) =>
        (Ret (execution_response code execution_id result), s)
    | (Raise e, s) => (Raise e, s)
    | (Hang, s) => (Hang, s)
    end
  else (Ret (text refusal), s).

(** [ChatHandler.process_message] *)
Definition process_message (message : string) (input_data : option string)
    (session_id : string) (s : State) : Outcome Response * State :=
  let s :=
    match sessions s !! session_id with
    | None => set_sessions (<[session_id := new_session]> (sessions s)) s
    | Some _ => s
    end in
  let s := history_append session_id user message s in
  let session := session_of session_id s in
  if _is_run_previous_code_request message
     && PyStr.truthy_opt (last_generated_code session)
  then
    let code :=
      match last_generated_code session with Some c => c | None => "" end in
    let language := language session in
    let s :=
      history_append session_id assistant
        "Executing previously generated code." s in
    run_code code language input_data
      ("Sorry, I can only execute C code right now. "
       +:+ "The generated code is in " +:+ language +:+ ".") s
  else
    match _extract_code message with
    | Some (language, code) =>
        let s := remember_code session_id code language s in
        let s :=
          history_append session_id assistant "Received code to execute." s
        in
        run_code code language input_data
          ("Sorry, I can only execute C code right now. "
           +:+ "You provided " +:+ language +:+ " code.") s
    | None =>
        let is_code_request :=
          match classify_request w message with
          | inr b => b
          | inl _ => false
          end in
        if is_code_request then
          match generate_code w message with
          | inr code =>
              let s := remember_code session_id code "c" s in
              let s := history_append session_id assistant code s in
              (Ret (code_generation code
                      "Here's the generated C code based on your request:"),
               s)
          | inl e =>
              (Ret (text ("Failed to generate code: " +:+ exc_str e)), s)
          end
        else
          match generate_chat_response w
                  (history (session_of session_id s)) with
          | inr chat_response =>
              let s :=
                history_append session_id assistant chat_response s in
              (Ret (text chat_response), s)
          | inl e => (Ret (text ("Chat error: " +:+ exc_str e)), s)
          end
    end.

(** Messages of one session handled one after the other, each call ending
    before the next starts; a call that hangs is never followed by
    another, hence the [option]. *)
Fixpoint process_messages (messages : list (string * option string))
    (session_id : string) (s : State) : option State :=
  match messages with
  | [] => Some s
  | (message, input_data) :: rest =>
      match process_message message input_data session_id s with
      | (Hang, _) => None
      | (_, s') => process_messages rest session_id s'
      end
  end.

End Program.

(* ===================================================================== *)
(** * [CodeGenerator] *)
(* ===================================================================== *)

Module CodeGenerator.
Import PyStr Fence.

(** [s.split('\n')]: never empty. *)
Fixpoint split_nl (s : string) : list string :=
  match s with
  | EmptyString => [EmptyString]
  | String a s' =>
      if Ascii.eqb a LF then EmptyString :: split_nl s'
      else
        match split_nl s' with
        | line :: lines => String a line :: lines
        | [] => [String a EmptyString]
        end
  end.

(** ['\n'.join(lines)] *)
Fixpoint join_nl (lines : list string) : string :=
  match lines with
  | [] => EmptyString
  | line :: rest =>
      match rest with
      | [] => line
      | _ :: _ => line +:+ nl +:+ join_nl rest
      end
  end.

(** Lines 34 to 39 of [generate_code]: a first line and then a last line
    that hold three backticks in a row are dropped. *)
Definition strip_fences (generated_code : string) : string :=
  let lines := split_nl generated_code in
  let lines :=
    match lines with
    | first :: rest => if contains fence first then rest else lines
    | [] => lines
    end in
  let lines :=
    match lines with
    | _ :: _ =>
        if contains fence (List.last lines EmptyString) then removelast lines
        else lines
    | [] => lines
    end in
  join_nl lines.

(** One entry of the [messages] of a chat completion: role and content. *)
Definition ChatMessage : Type := string * string.

(** [self.client.chat.completions.create(model=.., messages=..)] followed by
    [.choices[0].message.content]: the text of the reply, or the exception
    with which the method that made the call is left (raised by the call,
    or by the use of a reply that has no text). *)
Record Client := {
  create : string -> list ChatMessage -> PyExc + string
}.

Definition system_message : string :=
  "You are a skilled programmer who generates clean, efficient code. "
  +:+ "Provide only the code without explanation unless explicitly asked "
  +:+ "for comments.".

Definition generate_messages (prompt language : string) : list ChatMessage :=
  let language_prompt :=
    "Generate " +:+ language +:+ " code for the following task." in
  [ ("system", system_message);
    ("user", language_prompt +:+ nl +:+ nl +:+ prompt) ].

(** [CodeGenerator.generate_code] *)
Definition generate_code (client : Client) (prompt language model : string)
    : PyExc + string :=
  match create client model (generate_messages prompt language) with
  | inl e => inl e
  | inr generated_code => inr (strip_fences generated_code)
  end.

Definition classify_messages (message : string) : list ChatMessage :=
  let prompt :=
    "Determine if the following query is asking for a C code generation "
    +:+ "task. Answer 'yes' if it is, or 'no' if it is not." +:+ nl
    +:+ "Query: " +:+ message in
  [ ("system",
     "You are a classifier that determines if a user query is asking for "
     +:+ "C code generation.");
    ("user", prompt) ].

(** [CodeGenerator.classify_request] *)
Definition classify_request (client : Client) (message model : string)
    : PyExc + bool :=
  match create client model (classify_messages message) with
  | inl e => inl e
  | inr content => inr (String.eqb (lower (strip content)) "yes")
  end.

Definition role_name (r : Role) : string :=
  match r with user => "user" | assistant => "assistant" end.

(** [CodeGenerator.generate_chat_response] *)
Definition generate_chat_response (client : Client) (history : list Turn)
    (model : string) : PyExc + string :=
  create client model
    (map (fun t => (role_name (role t), content t)) history).

End CodeGenerator.

(** The surroundings of [main.py] when the three calls of the chat handler
    go to a [CodeGenerator] over [client], with the default model. *)
Definition with_generator (client : CodeGenerator.Client) (w : World)
    : World :=
  {| uuid4 := uuid4 w; time_time := time_time w; mkdtemp := mkdtemp w;
     write_file := write_file w; gcc_version := gcc_version w;
     gcc := gcc w; run_program := run_program w;
     accept_raises := accept_raises w;
     send_text_raises := send_text_raises w;
     classify_request :=
       fun message => CodeGenerator.classify_request client message "gpt-4o";
     generate_code :=
       fun prompt => CodeGenerator.generate_code client prompt "c" "gpt-4o";
     generate_chat_response :=
       fun history =>
         CodeGenerator.generate_chat_response client history "gpt-4o" |}.

(* ===================================================================== *)
(** * The chat endpoint of [main.py] *)
(* ===================================================================== *)

(** What an endpoint of [main.py] answers: a body, or an [HTTPException]
    with its status code and detail. *)
Inductive Reply (A : Type) :=
| Body (a : A)
| HTTPException (status : Z) (detail : string).
Arguments Body {A} a.
Arguments HTTPException {A} status detail.

(** [try: ... return response / except Exception as e: raise
    HTTPException(status_code=500, detail=str(e))] *)
Definition answer_or_500 {A} (o : Outcome A) : Outcome (Reply A) :=
  match o with
  | Ret a => Ret (Body a)
  | Raise e => Ret (HTTPException 500 (exc_str e))
  | Hang => Hang
  end.

(** [session_id = client_host or "default"] *)
Definition session_id_or_default (client_host : option string) : string :=
  match client_host with
  | Some host => if PyStr.truthy host then host else "default"
  | None => "default"
  end.

(** [process_chat_message] of [main.py] *)
Definition process_chat_message (w : World) (message : string)
    (input_data client_host : option string) (s : State)
    : Outcome (Reply Response) * State :=
  let session_id := session_id_or_default client_host in
  let '(response, s) := process_message w message input_data session_id s in
  (answer_or_500 response, s).

(* ===================================================================== *)
(** * Observations on states and traces *)
(* ===================================================================== *)

(** The channels registered for an execution id; no entry, no channel. *)
Definition subscribers (execution_id : string) (s : State) : list WebSocket :=
  match active_connections s !! execution_id with
  | Some conns => conns
  | None => []
  end.

(** The clean-up loop of [broadcast]. *)
Definition disconnect_all (i : string) (ds : list WebSocket) (s : State)
    : State :=
  fold_left (fun s ws => disconnect ws i s) ds s.

(** Whether a [send_text] to the channel goes through. *)
Definition delivers (w : World) (ws : WebSocket) : bool :=
  match send_text_raises w ws with None => true | Some _ => false end.

(** What [notify] adds to the trace. *)
Definition notify_trace (w : World) (websocket_manager : bool) (m : Message)
    (i : string) (s : State) : list Effect :=
  if websocket_manager
  then Broadcast i m ::
         map (fun c => SendText c m) (filter (delivers w) (subscribers i s))
  else [].

(** The id under which [execute_c_code] works. *)
Definition id_of_call (w : World) (execution_id : option string) (s : State)
    : string :=
  match execution_id with
  | Some i => i
  | None => uuid4 w (uuid_draws s)
  end.

(** The number of uuid draws after a call of [execute_c_code]. *)
Definition draws_after (execution_id : option string) (s : State) : nat :=
  match execution_id with
  | Some _ => uuid_draws s
  | None => S (uuid_draws s)
  end.

(** The record of an execution refused for want of a compiler. *)
Definition unavailable_record : ExecResult :=
  {| output := ""; error := gcc_unavailable_message; status_code := 1;
     execution_time := 0 |}.

(** The statuses handed to [broadcast] for one execution id. *)
Fixpoint statuses_for (execution_id : string) (tr : list Effect)
    : list Status :=
  match tr with
  | [] => []
  | Broadcast i m :: tr' =>
      if String.eqb i execution_id
      then message_status m :: statuses_for execution_id tr'
      else statuses_for execution_id tr'
  | _ :: tr' => statuses_for execution_id tr'
  end.

(** The messages that reached one channel. *)
Fixpoint received (ws : WebSocket) (tr : list Effect) : list Message :=
  match tr with
  | [] => []
  | SendText c m :: tr' =>
      if Nat.eqb c ws then m :: received ws tr' else received ws tr'
  | _ :: tr' => received ws tr'
  end.

(** Effects on the file system and on processes. *)
Definition is_os_effect (e : Effect) : bool :=
  match e with
  | FsMkdtemp _ | FsWrite _ _ | FsRmtree _ | Spawn _ _ _ => true
  | _ => false
  end.

(** What one [notify] may add to the trace: the call and its sends, and
    nothing without a manager. *)
Definition notice (websocket_manager : bool) (m : Message) (i : string)
    (d : list Effect) : Prop :=
  statuses_for i d = (if websocket_manager then [message_status m] else [])
  /\ filter is_os_effect d = []
  /\ (websocket_manager = false -> d = []).

(** What was added to the trace between two states. *)
Definition trace_since (s s' : State) : list Effect :=
  drop (length (trace s)) (trace s').

(** The standard input of the program under [execute_c_code]. *)
Definition program_stdin (input_data : option string) : option string :=
  if PyStr.truthy_opt input_data then input_data else None.

(** A step that changes the trace, by appending [d], and the registered
    channels, and nothing else. *)
Definition io_only (s s' : State) (d : list Effect) : Prop :=
  exists ac, s' = set_active_connections ac (set_trace (trace s ++ d) s).

(** The input file, when there is one to write, can be written. *)
Definition input_file_ok (w : World) (temp_dir : string)
    (input_data : option string) : Prop :=
  match program_stdin input_data with
  | Some t => write_file w (os_path_join temp_dir "input.txt") t = None
  | None => True
  end.

(** The state in which the [try] of [execute_c_code] starts: an id drawn if
    none was given, the clock read once, the directory [dir] made. *)
Definition prepared (execution_id : option string) (dir : string) (s : State)
    : State :=
  log (FsMkdtemp dir)
    (set_mkdtemp_calls (S (mkdtemp_calls s))
       (set_clock_reads (S (clock_reads s))
          (match execution_id with
           | Some _ => s
           | None => set_uuid_draws (S (uuid_draws s)) s
           end))).

(** The record with which [execute_c_code] starts. *)
Definition blank_record : ExecResult :=
  {| output := ""; error := ""; status_code := 0; execution_time := 0 |}.

(** The [except Exception] clause of the outer [try], on the record. *)
Definition after_handler (exit : Outcome unit) (result : ExecResult)
    : ExecResult :=
  match exit with
  | Raise e =>
      set_status_code 1
        (set_error ("Unexpected error: " +:+ exc_str e) result)
  | _ => result
  end.

(** The time between the two readings of the clock made by a call that
    starts in [s]. *)
Definition measured (w : World) (s : State) : Q :=
  (time_time w (S (clock_reads s)) - time_time w (clock_reads s))%Q.

(** The history of a session; empty for a session not yet made. *)
Definition history_of (session_id : string) (s : State) : list Turn :=
  history (session_of session_id s).

(** The state of [process_message] once the session exists and the user
    turn is appended. *)
Definition entered (session_id message : string) (s : State) : State :=
  history_append session_id user message
    (match sessions s !! session_id with
     | None => set_sessions (<[session_id := new_session]> (sessions s)) s
     | Some _ => s
     end).

(** What branch 2 of [process_message] does to a session: the code and the
    language are overwritten, the user turn and the marker are appended. *)
Definition provided (message code : string) (session : Session) : Session :=
  {| last_generated_code := Some code;
     language := "c";
     history :=
       history session
       ++ [ {| role := user; content := message |};
            {| role := assistant; content := "Received code to execute." |} ]
  |}.

(** What [process_message] answers from the way the execution ended. *)
Definition execution_outcome (code : string)
    (o : Outcome (string * ExecResult)) : Outcome Response :=
  match o with
  | Ret (execution_id, result) =>
      Ret (execution_response code execution_id result)
  | Raise e => Raise e
  | Hang => Hang
  end.


(** Spec 4.1, the state machine of one execution, by the way it ends:
    [Starting -> Compiling -> {CompileError | Running -> {Completed |
    Error}}], or an immediate [Error] without a toolchain. *)
Inductive Ending :=
| ToolchainUnavailable | CompileFailed | RunCompleted | RunTimedOut.

Definition spec_transitions (e : Ending) : list Status :=
  match e with
  | ToolchainUnavailable => [error_status]
  | CompileFailed => [starting; compiling; compile_error]
  | RunCompleted => [starting; compiling; running; completed]
  | RunTimedOut => [starting; compiling; running; error_status]
  end.

(** What the run step does to the file system and to processes: the input
    file is written, and given to the program, when there is input. *)
Definition run_effects (temp_dir : string) (input_data : option string)
    : list Effect :=
  match program_stdin input_data with
  | Some t =>
      [ FsWrite (os_path_join temp_dir "input.txt") t;
        Spawn [os_path_join temp_dir "program"]
          (Some (os_path_join temp_dir "input.txt")) (Some 10%Q) ]
  | None => [Spawn [os_path_join temp_dir "program"] None (Some 10%Q)]
  end.

(** The messages handed to [broadcast] for one execution id. *)
Fixpoint broadcasts_for (execution_id : string) (tr : list Effect)
    : list Message :=
  match tr with
  | [] => []
  | Broadcast i m :: tr' =>
      if String.eqb i execution_id
      then m :: broadcasts_for execution_id tr'
      else broadcasts_for execution_id tr'
  | _ :: tr' => broadcasts_for execution_id tr'
  end.

(** [disconnect] drops the entry of a list that becomes empty: no id is
    bound to an empty list. *)
Definition no_empty_lists (s : State) : Prop :=
  forall i conns, active_connections s !! i = Some conns -> conns <> [].

(** A channel registered once for the id, and on which sends go through. *)
Definition tuned_in (w : World) (ws : WebSocket) (i : string) (s : State)
    : Prop :=
  NoDup (subscribers i s) /\ In ws (subscribers i s) /\ delivers w ws = true.

(** One step of an execution under the id [i]: a notification, an effect
    on files or processes, the storing of the record, a draw. *)
Inductive engine_step (w : World) (i : string) (mgr : bool) (s : State)
    : State -> Prop :=
| step_notify m : engine_step w i mgr s (notify w mgr m i s)
| step_log e : is_os_effect e = true -> engine_step w i mgr s (log e s)
| step_store r : engine_step w i mgr s (store_result i r s)
| step_uuid n : engine_step w i mgr s (set_uuid_draws n s)
| step_clock n : engine_step w i mgr s (set_clock_reads n s)
| step_mkdtemp n : engine_step w i mgr s (set_mkdtemp_calls n s).

(** The state in which the [finally] clause starts: after the handler of
    the outer [try], when the body raised. *)
Definition handled (w : World) (mgr : bool) (i : string)
    (exit : Outcome unit) (s2 : State) : State :=
  match exit with
  | Raise e => notify w mgr (MsgError error_status (exc_str e)) i s2
  | _ => s2
  end.

(** What branch 1 of [process_message] does to a session: the user turn
    and the acknowledgment are appended, code and language stay. *)
Definition reran (message : string) (session : Session) : Session :=
  {| last_generated_code := last_generated_code session;
     language := language session;
     history :=
       history session
       ++ [ {| role := user; content := message |};
            {| role := assistant;
               content := "Executing previously generated code." |} ]
  |}.

(** What branch 3 does to a session when code is generated. *)
Definition generated (message code : string) (session : Session) : Session :=
  {| last_generated_code := Some code;
     language := "c";
     history :=
       history session
       ++ [ {| role := user; content := message |};
            {| role := assistant; content := code |} ]
  |}.

(** Every session is in the language ["c"]. *)
Definition all_sessions_c (s : State) : Prop :=
  forall sid session,
    sessions s !! sid = Some session -> language session = "c".

(** All characters of the string are blank for [str.isspace]. *)
Fixpoint all_space (s : string) : bool :=
  match s with
  | EmptyString => true
  | String a s' => PyStr.isspace a && all_space s'
  end.

(** No character of the string is a backtick. *)
Fixpoint no_backtick (s : string) : bool :=
  match s with
  | EmptyString => true
  | String a s' => negb (Ascii.eqb a Fence.backtick) && no_backtick s'
  end.

(** No line break in the string. *)
Fixpoint one_line (s : string) : bool :=
  match s with
  | EmptyString => true
  | String a s' => negb (Ascii.eqb a PyStr.LF) && one_line s'
  end.

(** The record that text mode leaves of a run that is over in time. *)
Definition run_record (decode : Decoder) (out err : list Byte.byte)
    (rc : Z) (record : ExecResult) : Prop :=
  match decode out, decode err with
  | inr out_text, inr err_text =>
      output record = translate_newlines out_text
      /\ error record = translate_newlines err_text
      /\ status_code record = rc
  | inl msg, _ | inr _, inl msg =>
      output record = ""
      /\ error record = "Execution error: " +:+ msg
      /\ status_code record = 1
  end.

(** No carriage return in the text. *)
Fixpoint no_cr (s : string) : bool :=
  match s with
  | EmptyString => true
  | String a s' => negb (Ascii.eqb a CR) && no_cr s'
  end.

(** The four branches of spec 4.2, in the order of their tests. *)
Inductive Branch := RunPrevious | ProvideAndRun | Generate | Converse.

(** The branch that a message takes in a session, the session taken as
    the message finds it. *)
Definition branch_of (w : World) (message : string) (session : Session)
    : Branch :=
  if _is_run_previous_code_request message
     && PyStr.truthy_opt (last_generated_code session)
  then RunPrevious
  else
    match _extract_code message with
    | Some _ => ProvideAndRun
    | None =>
        match classify_request w message with
        | inr true => Generate
        | _ => Converse
        end
    end.

(** Whether the one call of the branch to [generate_code] or to
    [generate_chat_response] fails; the two run branches make no such
    call. *)
Definition call_failed (w : World) (message : string) (session : Session)
    : bool :=
  match branch_of w message session with
  | RunPrevious | ProvideAndRun => false
  | Generate =>
      match generate_code w message with inl _ => true | inr _ => false end
  | Converse =>
      match generate_chat_response w
              (history session ++ [{| role := user; content := message |}])
      with
      | inl _ => true
      | inr _ => false
      end
  end.

(** What the assistant turn of the branch says: the acknowledgment of the
    execution, the generated code, or the reply of the conversation. *)
Definition assistant_content (w : World) (message : string)
    (session : Session) : string :=
  match branch_of w message session with
  | RunPrevious => "Executing previously generated code."
  | ProvideAndRun => "Received code to execute."
  | Generate =>
      match generate_code w message with inr code => code | inl _ => "" end
  | Converse =>
      match generate_chat_response w
              (history session ++ [{| role := user; content := message |}])
      with
      | inr reply => reply
      | inl _ => ""
      end
  end.

(** Spec 4.4: the turns that one message adds to the history: the user
    turn, and the assistant turn unless the call failed. *)
Definition turns_of (w : World) (message : string) (session : Session)
    : list Turn :=
  {| role := user; content := message |}
  :: (if call_failed w message session then []
      else [{| role := assistant;
               content := assistant_content w message session |}]).

(** The turns added by messages handled one after the other, and the
    number of those whose call failed. *)
Fixpoint turns_added (w : World) (messages : list (string * option string))
    (session_id : string) (s : State) : list Turn :=
  match messages with
  | [] => []
  | (message, input_data) :: rest =>
      turns_of w message (session_of session_id s)
      ++ turns_added w rest session_id
           (snd (process_message w message input_data session_id s))
  end.

Fixpoint failed_calls (w : World) (messages : list (string * option string))
    (session_id : string) (s : State) : nat :=
  match messages with
  | [] => 0%nat
  | (message, input_data) :: rest =>
      ((if call_failed w message (session_of session_id s) then 1 else 0)
       + failed_calls w rest session_id
           (snd (process_message w message input_data session_id s)))%nat
  end.




(* ===================================================================== *)
(** * Concrete worlds and states *)
(* ===================================================================== *)

Definition digit (n : nat) : string :=
  String (ascii_of_nat (48 + n)) EmptyString.

(** A message text with one fenced block. *)
Definition fenced (body : string) : string :=
  Fence.fence +:+ "c" +:+ PyStr.nl +:+ body +:+ PyStr.nl +:+ Fence.fence.

Definition hello_c : string := "int main(){puts(hi);return 0;}".
Definition exit3_c : string := "int main(){return 3;}".
Definition loop_c : string := "int main(){for(;;);}".
Definition broken_c : string := "int main(){".
Definition stuck_c : string := "#include </dev/tty>".

Definition closed_socket : PyExc :=
  {| exc_class := OtherException; exc_str := "socket closed" |}.
Definition service_down : PyExc :=
  {| exc_class := OtherException; exc_str := "service unavailable" |}.
Definition disk_full : PyExc :=
  {| exc_class := OSError; exc_str := "No space left on device" |}.

(** A machine in working order: gcc takes a minute, or for ever on a source
    that includes the terminal; programs take one second unless they loop;
    the clock advances by two seconds between readings; websocket 7 is
    broken; the generation service answers. *)
Definition demo_world : World := {|
  uuid4 n := "id" +:+ digit n;
  time_time n := inject_Z (100 + 2 * Z.of_nat n);
  mkdtemp n := inr ("/tmp/tmp" +:+ digit n);
  write_file _ _ := None;
  gcc_version := Exits 0 "gcc 13" "" 0;
  gcc c :=
    if String.eqb c broken_c
    then Exits 1 "" "error: expected declaration" 1
    else if String.eqb c stuck_c then NeverExits
    else Exits 60 "" "" 0;
  run_program c _ :=
    if String.eqb c loop_c then NeverExits
    else if String.eqb c exit3_c then Exits 1 "" "" 3
    else Exits 1 "hi" "" 0;
  accept_raises _ := None;
  send_text_raises ws := if Nat.eqb ws 7 then Some closed_socket else None;
  classify_request m := inr (PyStr.contains "write" (PyStr.lower m));
  generate_code _ := inr hello_c;
  generate_chat_response _ := inr "Hello!"
|}.

(** The same machine with the generation service down. *)
Definition offline_world : World := {|
  uuid4 := uuid4 demo_world;
  time_time := time_time demo_world;
  mkdtemp := mkdtemp demo_world;
  write_file := write_file demo_world;
  gcc_version := gcc_version demo_world;
  gcc := gcc demo_world;
  run_program := run_program demo_world;
  accept_raises := accept_raises demo_world;
  send_text_raises := send_text_raises demo_world;
  classify_request _ := inl service_down;
  generate_code _ := inl service_down;
  generate_chat_response _ := inl service_down
|}.

(** The same machine with no room left for a directory. *)
Definition full_disk_world : World := {|
  uuid4 := uuid4 demo_world;
  time_time := time_time demo_world;
  mkdtemp _ := inl disk_full;
  write_file := write_file demo_world;
  gcc_version := gcc_version demo_world;
  gcc := gcc demo_world;
  run_program := run_program demo_world;
  accept_raises := accept_raises demo_world;
  send_text_raises := send_text_raises demo_world;
  classify_request := classify_request demo_world;
  generate_code := generate_code demo_world;
  generate_chat_response := generate_chat_response demo_world
|}.

(** The same machine without gcc. *)
Definition no_gcc_world : World := {|
  uuid4 := uuid4 demo_world;
  time_time := time_time demo_world;
  mkdtemp := mkdtemp demo_world;
  write_file := write_file demo_world;
  gcc_version :=
    Fails {| exc_class := FileNotFoundError;
             exc_str := "No such file or directory: gcc" |};
  gcc := gcc demo_world;
  run_program := run_program demo_world;
  accept_raises := accept_raises demo_world;
  send_text_raises := send_text_raises demo_world;
  classify_request := classify_request demo_world;
  generate_code := generate_code demo_world;
  generate_chat_response := generate_chat_response demo_world
|}.

Definition ready_state : State := empty_state true [].
Definition no_gcc_state : State := empty_state false [].

(** A session that already holds code. *)
Definition stored_state : State :=
  set_sessions
    {[ "default" := {| last_generated_code := Some exit3_c;
                       language := "c"; history := [] |} ]}
    ready_state.

Definition hello_record : ExecResult :=
  {| output := "hi"; error := ""; status_code := 0; execution_time := 2 |}.

(** An execution that is over, with nobody listening. *)
Definition finished_state : State :=
  set_execution_results {[ "id0" := hello_record ]} ready_state.

(** Three channels on one execution, the second one broken. *)
Definition crowded_state : State :=
  set_active_connections {[ "id0" := [1; 7; 2]%nat ]} ready_state.

(** One message for each of the four branches, in the order generate, run
    previous, provide and run, converse. *)
Definition four_messages : list (string * option string) :=
  [ ("write a program that greets", None);
    ("run it", None);
    (fenced exit3_c, None);
    ("thanks", None) ].

Definition gcc_gone : PyExc :=
  {| exc_class := FileNotFoundError;
     exc_str := "No such file or directory: gcc" |}.
Definition permission_denied : PyExc :=
  {| exc_class := OSError; exc_str := "Permission denied" |}.

(** The same machine with a disk on which no file can be written. *)
Definition read_only_world : World := {|
  uuid4 := uuid4 demo_world;
  time_time := time_time demo_world;
  mkdtemp := mkdtemp demo_world;
  write_file _ _ := Some disk_full;
  gcc_version := gcc_version demo_world;
  gcc := gcc demo_world;
  run_program := run_program demo_world;
  accept_raises := accept_raises demo_world;
  send_text_raises := send_text_raises demo_world;
  classify_request := classify_request demo_world;
  generate_code := generate_code demo_world;
  generate_chat_response := generate_chat_response demo_world
|}.

(** The same machine with room for the source but not for the input. *)
Definition quota_world : World := {|
  uuid4 := uuid4 demo_world;
  time_time := time_time demo_world;
  mkdtemp := mkdtemp demo_world;
  write_file path _ :=
    if String.eqb path "/tmp/tmp0/input.txt" then Some disk_full else None;
  gcc_version := gcc_version demo_world;
  gcc := gcc demo_world;
  run_program := run_program demo_world;
  accept_raises := accept_raises demo_world;
  send_text_raises := send_text_raises demo_world;
  classify_request := classify_request demo_world;
  generate_code := generate_code demo_world;
  generate_chat_response := generate_chat_response demo_world
|}.

(** The same machine, gcc removed after the probe. *)
Definition gcc_gone_world : World := {|
  uuid4 := uuid4 demo_world;
  time_time := time_time demo_world;
  mkdtemp := mkdtemp demo_world;
  write_file := write_file demo_world;
  gcc_version := gcc_version demo_world;
  gcc _ := Fails gcc_gone;
  run_program := run_program demo_world;
  accept_raises := accept_raises demo_world;
  send_text_raises := send_text_raises demo_world;
  classify_request := classify_request demo_world;
  generate_code := generate_code demo_world;
  generate_chat_response := generate_chat_response demo_world
|}.

(** The same machine with a temporary directory mounted [noexec]. *)
Definition noexec_world : World := {|
  uuid4 := uuid4 demo_world;
  time_time := time_time demo_world;
  mkdtemp := mkdtemp demo_world;
  write_file := write_file demo_world;
  gcc_version := gcc_version demo_world;
  gcc := gcc demo_world;
  run_program _ _ := Fails permission_denied;
  accept_raises := accept_raises demo_world;
  send_text_raises := send_text_raises demo_world;
  classify_request := classify_request demo_world;
  generate_code := generate_code demo_world;
  generate_chat_response := generate_chat_response demo_world
|}.

(** A model that answers the classifier with [" Yes"] and a line break,
    a request for code with a fenced block, and a conversation with a
    greeting. *)
Definition demo_client : CodeGenerator.Client := {|
  CodeGenerator.create _ messages :=
    match messages with
    | (_, system) :: _ =>
        if String.eqb system CodeGenerator.system_message
        then inr (fenced hello_c)
        else if String.eqb system
                  (snd (hd ("", "") (CodeGenerator.classify_messages "")))
        then inr (" Yes" +:+ PyStr.nl)
        else inr "Hello!"
    | [] => inr "Hello!"
    end
|}.

(** A model that answers with bare code. *)
Definition plain_client : CodeGenerator.Client :=
  {| CodeGenerator.create _ _ := inr hello_c |}.

(** A model that answers with a block written on one line. *)
Definition inline_client : CodeGenerator.Client :=
  {| CodeGenerator.create _ _ :=
       inr (Fence.fence +:+ "c " +:+ hello_c +:+ " " +:+ Fence.fence) |}.

(** A block in a sentence, with the tag in capitals and blanks after it. *)
Definition framed_message : string :=
  "Try: " +:+ Fence.fence +:+ "C  " +:+ PyStr.nl +:+ hello_c
  +:+ PyStr.nl +:+ Fence.fence +:+ " please".

Definition hex_digit (n : N) : ascii :=
  ascii_of_N (if (n <? 10)%N then 48 + n else 87 + n).

(** [f"0x{b:02x}"] *)
Definition hex_byte (b : Byte.byte) : string :=
  "0x" +:+ String (hex_digit (Byte.to_N b / 16))
             (String (hex_digit (Byte.to_N b mod 16)) EmptyString).

(** The first byte from position [pos] on that is no ascii character. *)
Fixpoint first_non_ascii (data : list Byte.byte) (pos : nat)
    : option (Byte.byte * nat) :=
  match data with
  | [] => None
  | b :: rest =>
      if (Byte.to_N b <? 128)%N then first_non_ascii rest (S pos)
      else Some (b, pos)
  end.

(** The ascii codec, with the message of its [UnicodeDecodeError]. *)
Definition ascii_decode : Decoder := fun data =>
  match first_non_ascii data 0 with
  | None => inr (string_of_list_byte data)
  | Some (b, pos) =>
      inl ("'ascii' codec can't decode byte " +:+ hex_byte b
           +:+ " in position "
           +:+ NilEmpty.string_of_uint (Nat.to_uint pos)
           +:+ ": ordinal not in range(128)")
  end.

Definition crlf_c : string :=
  "int main(){putchar(104);putchar(13);putchar(10);return 0;}".
Definition byte255_c : string := "int main(){putchar(255);return 0;}".

(** What the programs of the examples write: [crlf_c] the letter h and a
    line end of two characters, [byte255_c] one byte that no text of the
    locale starts with, the others [hi]; all exit with code 0 within a
    second. *)
Definition demo_child (code : string) : Child :=
  if String.eqb code crlf_c
  then Finishes 1 [Byte.x68; Byte.x0d; Byte.x0a] [] 0
  else if String.eqb code byte255_c
  then Finishes 1 [Byte.xff] [] 0
  else Finishes 1 [Byte.x68; Byte.x69] [] 0.

(** The machine of [demo_world] with the programs seen in text mode, in a
    locale whose encoding is ascii. *)
Definition text_world : World := {|
  uuid4 := uuid4 demo_world;
  time_time := time_time demo_world;
  mkdtemp := mkdtemp demo_world;
  write_file := write_file demo_world;
  gcc_version := gcc_version demo_world;
  gcc := gcc demo_world;
  run_program code _ :=
    in_text_mode ascii_decode (Some 10%Q) (demo_child code);
  accept_raises := accept_raises demo_world;
  send_text_raises := send_text_raises demo_world;
  classify_request := classify_request demo_world;
  generate_code := generate_code demo_world;
  generate_chat_response := generate_chat_response demo_world
|}.


(* ===================================================================== *)
(** * Frame lemmas: what each operation leaves alone *)
(* ===================================================================== *)

Section Frames.

Variable w : World.

Lemma set_active_connections_same s :
  set_active_connections (active_connections s) s = s.
Proof. by destruct s. Qed.

Lemma set_trace_same s : set_trace (trace s) s = s.
Proof. by destruct s. Qed.

(** The loop of [broadcast] sends to the channels that deliver, in list
    order, and collects the others, in list order. *)
Lemma send_to_all_spec conns m disconnected s :
  send_to_all w conns m disconnected s =
    (disconnected ++ filter (fun c => negb (delivers w c)) conns,
     set_trace
       (trace s ++ map (fun c => SendText c m) (filter (delivers w) conns))
       s).
Proof.
  revert disconnected s.
  induction conns as [|c conns IH]; intros disconnected s; simpl.
  - by rewrite app_nil_r, app_nil_r, set_trace_same.
  - unfold send_text, delivers at 1 3.
    destruct (send_text_raises w c) as [e|] eqn:Hc; simpl.
    + rewrite IH. rewrite (filter_cons_True _ c), (filter_cons_False _ c);
        unfold delivers; rewrite ?Hc; simpl; auto.
      by rewrite <- app_assoc.
    + rewrite IH. rewrite (filter_cons_False _ c), (filter_cons_True _ c);
        unfold delivers; rewrite ?Hc; simpl; auto.
      unfold log. simpl. by rewrite <- app_assoc.
Qed.

Lemma subscribers_set_trace i tr s :
  subscribers i (set_trace tr s) = subscribers i s.
Proof. reflexivity. Qed.

Lemma list_remove_absent ws conns :
  ws_in ws conns = false -> list_remove ws conns = conns.
Proof.
  induction conns as [|c conns IH]; simpl; [done|].
  destruct (Nat.eqb ws c); simpl; [done|].
  intros H. by rewrite IH.
Qed.

(** [disconnect] touches [active_connections] only. *)
Lemma disconnect_frame ws i s :
  exists ac, disconnect ws i s = set_active_connections ac s.
Proof.
  unfold disconnect.
  destruct (active_connections s !! i) as [conns|].
  - destruct (if ws_in ws conns then _ else _); eauto.
  - exists (active_connections s). by rewrite set_active_connections_same.
Qed.

(** On the list of an id, [disconnect] is [list.remove]. *)
Lemma subscribers_disconnect ws i s :
  subscribers i (disconnect ws i s) = list_remove ws (subscribers i s).
Proof.
  unfold disconnect, subscribers.
  destruct (active_connections s !! i) as [conns|] eqn:Hi; [|by rewrite Hi].
  assert ((if ws_in ws conns then list_remove ws conns else conns)
          = list_remove ws conns) as ->.
  { destruct (ws_in ws conns) eqn:Hin; [done|].
    by rewrite list_remove_absent. }
  destruct (list_remove ws conns); simpl.
  - by rewrite lookup_delete_eq.
  - by rewrite lookup_insert_eq.
Qed.

Lemma subscribers_disconnect_other ws i j s :
  i <> j -> subscribers j (disconnect ws i s) = subscribers j s.
Proof.
  intros Hij. unfold disconnect, subscribers.
  destruct (active_connections s !! i) as [conns|]; [|done].
  destruct (if ws_in ws conns then _ else _); simpl.
  - by rewrite lookup_delete_ne.
  - by rewrite lookup_insert_ne.
Qed.

Lemma disconnect_all_frame i ds s :
  exists ac, disconnect_all i ds s = set_active_connections ac s.
Proof.
  revert s. induction ds as [|d ds IH]; intros s; simpl.
  - exists (active_connections s). by rewrite set_active_connections_same.
  - destruct (disconnect_frame d i s) as [ac Hac].
    destruct (IH (disconnect d i s)) as [ac' Hac'].
    exists ac'. unfold disconnect_all in *. simpl. rewrite Hac'.
    by rewrite Hac.
Qed.

(** Removing, one at a time and in order, the channels of [suf] that do
    not deliver leaves exactly those that do. *)
Lemma list_remove_failed pre suf :
  forallb (delivers w) pre = true ->
  fold_left (fun l ws => list_remove ws l)
    (filter (fun c => negb (delivers w c)) suf) (pre ++ suf)
  = pre ++ filter (delivers w) suf.
Proof.
  revert pre. induction suf as [|c suf IH]; intros pre Hpre; simpl.
  - done.
  - destruct (delivers w c) eqn:Hc.
    + rewrite (filter_cons_False _ c), (filter_cons_True _ c);
        rewrite ?Hc; simpl; auto.
      replace (pre ++ c :: suf) with ((pre ++ [c]) ++ suf)
        by (by rewrite <- app_assoc).
      rewrite IH.
      * by rewrite <- app_assoc.
      * rewrite forallb_app, Hpre. simpl. by rewrite Hc.
    + rewrite (filter_cons_True _ c), (filter_cons_False _ c);
        rewrite ?Hc; simpl; auto.
      assert (list_remove c (pre ++ c :: suf) = pre ++ suf) as ->.
      { clear IH. induction pre as [|p pre IHp]; simpl.
        - by rewrite Nat.eqb_refl.
        - simpl in Hpre. apply andb_true_iff in Hpre as [Hp Hpre].
          destruct (Nat.eqb c p) eqn:Hcp.
          + apply Nat.eqb_eq in Hcp. subst p. congruence.
          + by rewrite IHp. }
      by apply IH.
Qed.

Lemma subscribers_disconnect_all i ds s :
  subscribers i (disconnect_all i ds s)
  = fold_left (fun l ws => list_remove ws l) ds (subscribers i s).
Proof.
  revert s. induction ds as [|d ds IH]; intros s; simpl; [done|].
  unfold disconnect_all in *. simpl.
  by rewrite IH, subscribers_disconnect.
Qed.

Lemma subscribers_disconnect_all_other i j ds s :
  i <> j -> subscribers j (disconnect_all i ds s) = subscribers j s.
Proof.
  intros Hij. revert s. induction ds as [|d ds IH]; intros s; simpl; [done|].
  unfold disconnect_all in *. simpl.
  by rewrite IH, subscribers_disconnect_other.
Qed.

(** [broadcast] unfolded: one call logged, the sends, the clean-up. *)
Lemma broadcast_unfold m i s :
  broadcast w m i s =
    disconnect_all i
      (filter (fun c => negb (delivers w c)) (subscribers i s))
      (set_trace
         (trace s ++ Broadcast i m ::
            map (fun c => SendText c m)
              (filter (delivers w) (subscribers i s))) s).
Proof.
  unfold broadcast, subscribers. simpl.
  destruct (active_connections s !! i) as [conns|]; simpl.
  - rewrite send_to_all_spec. simpl. unfold disconnect_all.
    by rewrite <- app_assoc.
  - done.
Qed.

(** [broadcast] changes the trace and [active_connections] only. *)
Lemma broadcast_frame m i s :
  exists ac,
    broadcast w m i s =
      set_active_connections ac
        (set_trace
           (trace s ++ Broadcast i m ::
              map (fun c => SendText c m)
                (filter (delivers w) (subscribers i s))) s).
Proof.
  rewrite broadcast_unfold. apply disconnect_all_frame.
Qed.

Lemma subscribers_broadcast m i s :
  subscribers i (broadcast w m i s) = filter (delivers w) (subscribers i s).
Proof.
  rewrite broadcast_unfold, subscribers_disconnect_all, subscribers_set_trace.
  apply (list_remove_failed []). done.
Qed.

Lemma subscribers_broadcast_other m i j s :
  i <> j -> subscribers j (broadcast w m i s) = subscribers j s.
Proof.
  intros Hij.
  by rewrite broadcast_unfold, subscribers_disconnect_all_other.
Qed.

Lemma notify_frame mgr m i s :
  exists ac,
    notify w mgr m i s =
      set_active_connections ac
        (set_trace (trace s ++ notify_trace w mgr m i s) s).
Proof.
  unfold notify, notify_trace. destruct mgr.
  - apply broadcast_frame.
  - exists (active_connections s).
    by rewrite app_nil_r, set_trace_same, set_active_connections_same.
Qed.

Lemma statuses_for_app i tr1 tr2 :
  statuses_for i (tr1 ++ tr2) = statuses_for i tr1 ++ statuses_for i tr2.
Proof.
  induction tr1 as [|e tr1 IH]; simpl; [done|].
  destruct e; auto. destruct (String.eqb _ _); simpl; by rewrite IH.
Qed.

Lemma statuses_for_sends i m cs :
  statuses_for i (map (fun c => SendText c m) cs) = [].
Proof. induction cs; simpl; auto. Qed.

Lemma statuses_for_notify mgr m i s :
  statuses_for i (notify_trace w mgr m i s)
  = if mgr then [message_status m] else [].
Proof.
  unfold notify_trace. destruct mgr; simpl; [|done].
  by rewrite String.eqb_refl, statuses_for_sends.
Qed.

Lemma os_effects_notify mgr m i s :
  filter is_os_effect (notify_trace w mgr m i s) = [].
Proof.
  unfold notify_trace. destruct mgr; [|done].
  rewrite filter_cons_False by (simpl; auto).
  induction (filter (delivers w) (subscribers i s)); simpl; [done|].
  by rewrite filter_cons_False by (simpl; auto).
Qed.

Lemma trace_since_app s s' d :
  trace s' = trace s ++ d -> trace_since s s' = d.
Proof. unfold trace_since. intros ->. by rewrite drop_app_length. Qed.

Lemma notify_spec mgr m i s :
  exists ac d,
    notify w mgr m i s =
      set_active_connections ac (set_trace (trace s ++ d) s)
    /\ notice mgr m i d.
Proof.
  destruct (notify_frame mgr m i s) as [ac H].
  exists ac, (notify_trace w mgr m i s). split; [done|].
  split; [apply statuses_for_notify|].
  split; [apply os_effects_notify|].
  by intros ->.
Qed.

End Frames.

(** Unfold the state plumbing, and nothing else. *)
Ltac norm :=
  unfold log, store_result, shutil_rmtree, set_trace, set_active_connections,
    set_execution_results, set_uuid_draws, set_clock_reads,
    set_mkdtemp_calls, set_sessions;
  cbn [fst snd trace sessions gcc_available execution_results
       active_connections uuid_draws clock_reads mkdtemp_calls
       negb andb orb].

Tactic Notation "norm" "in" hyp(H) :=
  unfold log, store_result, shutil_rmtree, set_trace, set_active_connections,
    set_execution_results, set_uuid_draws, set_clock_reads,
    set_mkdtemp_calls, set_sessions in H;
  cbn [fst snd trace sessions gcc_available execution_results
       active_connections uuid_draws clock_reads mkdtemp_calls
       negb andb orb] in H.

(** Close an equation between two states built from [s]. *)
Ltac state_eq s :=
  norm; rewrite <- ?app_assoc, ?app_nil_r; cbn [app];
  first [reflexivity | destruct s; reflexivity].

(** Replace the next [notify] by its effect on the state. *)
Ltac notify_step w :=
  match goal with
  | |- context [notify w ?mgr ?m ?i ?s] =>
      let ac := fresh "ac" in
      let d := fresh "d" in
      let H := fresh "Hd" in
      destruct (notify_spec w mgr m i s) as (ac & d & -> & H); norm
  end.

(* ===================================================================== *)
(** * The execution engine *)
(* ===================================================================== *)

Section Executor.

Variable w : World.

(** Without a compiler the call stores and returns the fixed record,
    and tells the manager when there is one. *)
Lemma execute_unavailable code input_data execution_id mgr s :
  gcc_available s = false ->
  exists s' d,
    execute_c_code w code input_data execution_id mgr s
      = (Ret (id_of_call w execution_id s, unavailable_record), s')
    /\ sessions s' = sessions s
    /\ gcc_available s' = false
    /\ execution_results s'
       = <[id_of_call w execution_id s := unavailable_record]>
           (execution_results s)
    /\ mkdtemp_calls s' = mkdtemp_calls s
    /\ trace s' = trace s ++ d
    /\ notice mgr (MsgError error_status gcc_unavailable_message)
         (id_of_call w execution_id s) d
    /\ uuid_draws s' = draws_after execution_id s.
Proof.
  intros Hgcc. unfold execute_c_code.
  destruct execution_id as [i|]; unfold draw_uuid4, read_time; norm;
    rewrite Hgcc; norm; notify_step w;
    (eexists _, _; split; [reflexivity|]); norm;
    (split; [done|]); (split; [done|]); (split; [done|]);
    (split; [done|]); (split; [reflexivity|]); (split; [exact Hd|done]).
Qed.

(* ------------------------------------------------------------------- *)
(** ** The run step and the body of the [try] *)
(* ------------------------------------------------------------------- *)

Lemma io_only_refl s : io_only s s [].
Proof.
  exists (active_connections s).
  by rewrite app_nil_r, set_trace_same, set_active_connections_same.
Qed.

(** With a writable input file the run step is one [subprocess.run] under
    the 10 second timeout. *)
Lemma run_step_spec code input_data temp_dir exe s :
  input_file_ok w temp_dir input_data ->
  exists d,
    run_step w code input_data temp_dir exe s
      = (subprocess_run (run_program w code (program_stdin input_data))
           (Some 10%Q) false,
         set_trace (trace s ++ d) s)
    /\ (forall j, statuses_for j d = [])
    /\ (exists stdin, In (Spawn [exe] stdin (Some 10%Q)) d).
Proof.
  unfold input_file_ok, run_step, program_stdin, write_text.
  destruct (PyStr.truthy_opt input_data) eqn:Hin.
  - destruct input_data as [t|]; [|done]. intros ->.
    exists [FsWrite (os_path_join temp_dir "input.txt") t;
            Spawn [exe] (Some (os_path_join temp_dir "input.txt"))
              (Some 10%Q)].
    split; [f_equal; state_eq s|].
    split; [done|]. eexists. right. left. reflexivity.
  - intros _. exists [Spawn [exe] None (Some 10%Q)].
    split; [f_equal; state_eq s|].
    split; [done|]. eexists. left. reflexivity.
Qed.

(** Whatever happens, the run step only adds to the trace, and never a
    broadcast. *)
Lemma run_step_frame code input_data temp_dir exe s :
  exists d,
    snd (run_step w code input_data temp_dir exe s)
      = set_trace (trace s ++ d) s
    /\ (forall j, statuses_for j d = []).
Proof.
  unfold run_step, write_text.
  destruct (PyStr.truthy_opt input_data).
  - destruct (write_file w _ _) eqn:Hw; norm.
    + exists []. split; [state_eq s|done].
    + exists [FsWrite (os_path_join temp_dir "input.txt")
                (match input_data with Some t => t | None => "" end);
              Spawn [exe] (Some (os_path_join temp_dir "input.txt"))
                (Some 10%Q)].
      split; [state_eq s|done].
  - exists [Spawn [exe] None (Some 10%Q)]. split; [state_eq s|done].
Qed.

(** The run step returns or raises: the timeout sees to it. *)
Lemma run_step_no_hang code input_data temp_dir exe s :
  fst (run_step w code input_data temp_dir exe s) <> Hang.
Proof.
  assert (forall b, subprocess_run b (Some 10%Q) false <> Hang) as Hrun.
  { intros [el out err rc| |e]; simpl; try done.
    by destruct (Qle_bool el 10). }
  unfold run_step, write_text.
  destruct (PyStr.truthy_opt input_data).
  - destruct (write_file w _ _); norm; [done|apply Hrun].
  - norm. apply Hrun.
Qed.

Lemma io_only_log e s : io_only s (log e s) [e].
Proof. exists (active_connections s). state_eq s. Qed.

Lemma io_only_set_trace d s : io_only s (set_trace (trace s ++ d) s) d.
Proof. exists (active_connections s). state_eq s. Qed.

Lemma io_only_trans s1 s2 s3 d1 d2 :
  io_only s1 s2 d1 -> io_only s2 s3 d2 -> io_only s1 s3 (d1 ++ d2).
Proof.
  intros [ac1 ->] [ac2 ->]. exists ac2. norm. by rewrite app_assoc.
Qed.

Lemma notify_io mgr m i s :
  exists d, io_only s (notify w mgr m i s) d /\ notice mgr m i d.
Proof.
  destruct (notify_spec w mgr m i s) as (ac & d & H & Hd).
  exists d. split; [by exists ac|done].
Qed.

Lemma io_only_fields s s' d :
  io_only s s' d ->
  sessions s' = sessions s /\ gcc_available s' = gcc_available s
  /\ execution_results s' = execution_results s
  /\ uuid_draws s' = uuid_draws s /\ clock_reads s' = clock_reads s
  /\ mkdtemp_calls s' = mkdtemp_calls s /\ trace s' = trace s ++ d.
Proof. by intros [ac ->]. Qed.

End Executor.

(** Name the state after the next [notify], keeping what is known of it. *)
Ltac notify_next w :=
  match goal with
  | |- context [notify w ?mgr ?m ?i ?s] =>
      let d := fresh "d" in
      let Hio := fresh "Hio" in
      let Hd := fresh "Hd" in
      let s' := fresh "s" in
      destruct (notify_io w mgr m i s) as (d & Hio & Hd);
      generalize dependent (notify w mgr m i s); intros s' Hio
  end.

(** The same for the [notify] made in state [s]. *)
Ltac notify_at w s :=
  match goal with
  | |- context [notify w ?mgr ?m ?i s] =>
      let d := fresh "d" in
      let Hio := fresh "Hio" in
      let Hd := fresh "Hd" in
      let s' := fresh "s" in
      destruct (notify_io w mgr m i s) as (d & Hio & Hd);
      generalize dependent (notify w mgr m i s); intros s' Hio
  end.

(** Chain the [io_only] steps at hand. *)
Ltac io_chain :=
  repeat first
    [ eassumption
    | apply io_only_log
    | apply io_only_set_trace
    | eapply io_only_trans; [eassumption|]
    | eapply io_only_trans; [apply io_only_log|]
    | eapply io_only_trans; [apply io_only_set_trace|] ].

Lemma notice_quiet m i d : notice false m i d -> d = [].
Proof. intros (_ & _ & H). by apply H. Qed.

(** Without a manager the notifications add nothing. *)
Ltac quiet :=
  repeat match goal with
  | H : notice false _ _ ?d |- _ => apply notice_quiet in H; subst d
  end.

Section Body.

Variable w : World.

(** A compilation that ends with a nonzero code: its standard error and
    its code go to the record, and nothing is run. *)
Lemma try_body_compile_failed code input_data i mgr temp_dir result s cp :
  write_file w (os_path_join temp_dir "program.c") code = None ->
  subprocess_run (gcc w code) None false = Ret cp ->
  returncode cp <> 0 ->
  exists s' d,
    try_body w code input_data i mgr temp_dir result s
      = (Ret tt,
         set_status_code (returncode cp) (set_error (stderr cp) result),
         s')
    /\ io_only s s' d
    /\ statuses_for i d
       = (if mgr then [starting; compiling; compile_error] else []).
Proof.
  intros Hw Hc Hrc. unfold try_body, write_text.
  notify_next w. rewrite Hw. notify_next w. rewrite Hc.
  apply Z.eqb_neq in Hrc. rewrite Hrc. cbn [negb].
  notify_next w.
  eexists _, _. split; [reflexivity|]. split; [io_chain|].
  rewrite !statuses_for_app.
  destruct Hd as (-> & _), Hd0 as (-> & _), Hd1 as (-> & _).
  by destruct mgr.
Qed.

(** A compilation that ends with code 0, however long it took, is
    followed by the run step; the body then ends normally, with the
    record set from the way the run ended. *)
Lemma try_body_compiled code input_data i mgr temp_dir result s cp :
  write_file w (os_path_join temp_dir "program.c") code = None ->
  subprocess_run (gcc w code) None false = Ret cp ->
  returncode cp = 0 ->
  input_file_ok w temp_dir input_data ->
  exists s' d,
    try_body w code input_data i mgr temp_dir result s
      = (Ret tt,
         match subprocess_run
                 (run_program w code (program_stdin input_data))
                 (Some 10%Q) false with
         | Ret run_process =>
             set_status_code (returncode run_process)
               (if PyStr.truthy (stderr run_process)
                then set_error (stderr run_process)
                       (set_output (stdout run_process) result)
                else set_output (stdout run_process) result)
         | Raise e =>
             if is_TimeoutExpired e
             then set_status_code 1 (set_error timeout_message result)
             else set_status_code 1
                    (set_error ("Execution error: " +:+ exc_str e) result)
         | Hang => result
         end,
         s')
    /\ io_only s s' d
    /\ statuses_for i d
       = (if mgr then [starting; compiling; running] else [])
    /\ In (Spawn ["gcc"; "-o"; os_path_join temp_dir "program";
                  os_path_join temp_dir "program.c"] None None) d
    /\ (exists stdin,
          In (Spawn [os_path_join temp_dir "program"] stdin (Some 10%Q)) d).
Proof.
  intros Hw Hc Hrc Hin. unfold try_body, write_text.
  notify_next w. rewrite Hw. notify_next w. rewrite Hc, Hrc.
  cbn [Z.eqb negb]. notify_next w.
  match goal with
  | |- context [run_step w code input_data temp_dir ?exe ?st] =>
      destruct (run_step_spec w code input_data temp_dir exe st Hin)
        as (dr & -> & Hdr & stdin & Hspawn);
      pose proof (run_step_no_hang w code input_data temp_dir exe st)
        as Hnh;
      pose proof (run_step_spec w code input_data temp_dir exe st Hin)
        as (dr' & Heq & _)
  end.
  rewrite Heq in Hnh. cbn [fst] in Hnh.
  destruct (subprocess_run (run_program w code (program_stdin input_data))
              (Some 10%Q) false) as [rp|e|]; [| |done].
  - eexists _, _. split; [reflexivity|]. split; [io_chain|].
    split; [|split].
    + rewrite !statuses_for_app, Hdr.
      destruct Hd as (-> & _), Hd0 as (-> & _), Hd1 as (-> & _).
      by destruct mgr.
    + rewrite !in_app_iff. right. right. right. left. by left.
    + exists stdin. rewrite !in_app_iff. by do 5 right.
  - destruct (is_TimeoutExpired e).
    all: eexists _, _; (split; [reflexivity|]); (split; [io_chain|]);
      (split; [|split]);
      [ rewrite !statuses_for_app, Hdr;
        destruct Hd as (-> & _), Hd0 as (-> & _), Hd1 as (-> & _);
        by destruct mgr
      | rewrite !in_app_iff; right; right; right; left; by left
      | exists stdin; rewrite !in_app_iff; by do 5 right ].
Qed.

Lemma subprocess_run_hang b check :
  subprocess_run b None check = Hang -> b = NeverExits.
Proof.
  destruct b as [el out err rc| |e]; simpl; [|done|done].
  by destruct (check && negb (rc =? 0)).
Qed.

(** In every case the body only adds to the trace and to the registered
    channels; without a manager it broadcasts nothing; and it hangs only
    on a compiler that never exits. *)
Lemma try_body_frame code input_data i mgr temp_dir result s :
  exists d,
    io_only s (snd (try_body w code input_data i mgr temp_dir result s)) d
    /\ (mgr = false -> forall j, statuses_for j d = [])
    /\ (fst (fst (try_body w code input_data i mgr temp_dir result s))
          = Hang -> gcc w code = NeverExits).
Proof.
  unfold try_body, write_text. notify_next w.
  destruct (write_file w _ code) as [e|].
  { cbn [fst snd]. eexists. split; [io_chain|]. split; [|done].
    intros -> j. by quiet. }
  notify_next w.
  destruct (subprocess_run (gcc w code) None false) as [cp|e|] eqn:Hc.
  - destruct (negb (returncode cp =? 0)).
    + notify_next w. cbn [fst snd]. eexists. split; [io_chain|].
      split; [|done]. intros -> j. by quiet.
    + notify_next w.
      match goal with
      | |- context [run_step w code input_data temp_dir ?exe ?st] =>
          destruct (run_step_frame w code input_data temp_dir exe st)
            as (dr & Hs & Hdr);
          pose proof (run_step_no_hang w code input_data temp_dir exe st)
            as Hnh;
          destruct (run_step w code input_data temp_dir exe st)
            as [[rp|e|] sr]
      end; cbn [fst snd] in *; subst sr; [| |done].
      * eexists. split; [io_chain|]. split; [|done].
        intros -> j. quiet. rewrite !statuses_for_app, Hdr. done.
      * destruct (is_TimeoutExpired e); cbn [fst snd];
          (eexists; split; [io_chain|]; split; [|done]);
          intros -> j; quiet; rewrite !statuses_for_app, Hdr; done.
  - cbn [fst snd]. eexists. split; [io_chain|]. split; [|done].
    intros -> j. by quiet.
  - cbn [fst snd]. eexists. split; [io_chain|].
    split; [|intros _; by eapply subprocess_run_hang].
    intros -> j. by quiet.
Qed.

(** [execute_c_code] with a compiler and a workspace: when the body does
    not hang, the [finally] clause removes the directory, reads the clock
    a second time, stores the record and returns it. *)
Lemma execute_available code input_data execution_id mgr s dir
    exit result s2 :
  gcc_available s = true ->
  mkdtemp w (mkdtemp_calls s) = inr dir ->
  try_body w code input_data (id_of_call w execution_id s) mgr dir
    blank_record (prepared execution_id dir s) = (exit, result, s2) ->
  exit <> Hang ->
  exists s' d,
    execute_c_code w code input_data execution_id mgr s
      = (Ret (id_of_call w execution_id s,
              set_execution_time (measured w s) (after_handler exit result)),
         s')
    /\ execution_results s'
       = <[id_of_call w execution_id s :=
             set_execution_time (measured w s) (after_handler exit result)]>
           (execution_results s2)
    /\ sessions s' = sessions s2
    /\ gcc_available s' = gcc_available s2
    /\ uuid_draws s' = uuid_draws s2
    /\ trace s' = trace s2 ++ d
    /\ statuses_for (id_of_call w execution_id s) d
       = (if mgr
          then match exit with
               | Raise _ => [error_status; completed]
               | _ => [completed]
               end
          else [])
    /\ filter is_os_effect d = [FsRmtree dir]
    /\ (mgr = false -> d = [FsRmtree dir]).
Proof.
  intros Hgcc Hdir Hbody Hexit.
  destruct (try_body_frame code input_data (id_of_call w execution_id s)
              mgr dir blank_record (prepared execution_id dir s))
    as (db & Hio & _).
  rewrite Hbody in Hio. cbn [snd] in Hio.
  apply io_only_fields in Hio as (_ & _ & _ & _ & Hclock & _).
  assert (clock_reads s2 = S (clock_reads s)) as Hclock'
    by (rewrite Hclock; by destruct execution_id).
  clear Hclock.
  unfold execute_c_code, tempfile_mkdtemp, draw_uuid4, read_time.
  unfold prepared, blank_record in Hbody.
  destruct execution_id as [i|]; cbn [id_of_call] in *;
    cbn [gcc_available set_clock_reads set_uuid_draws mkdtemp_calls
         clock_reads uuid_draws];
    rewrite Hgcc, Hdir; cbn [negb]; rewrite Hbody;
    (destruct exit as [[]|e|]; [| |done]);
    try notify_at w s2;
    unfold shutil_rmtree, measured, after_handler;
    cbn [clock_reads log set_trace];
    repeat match goal with
    | H : io_only _ _ _ |- _ =>
        apply io_only_fields in H as (? & ? & ? & ? & ? & ? & ?)
    end;
    repeat match goal with
    | H : clock_reads _ = clock_reads s2 |- _ => rewrite H
    end;
    rewrite Hclock'; notify_next w;
    repeat match goal with
    | H : io_only _ _ _ |- _ =>
        apply io_only_fields in H as (? & ? & ? & ? & ? & ? & ?)
    end;
    (eexists _, _; split; [reflexivity|]);
    repeat match goal with
    | H : _ = _ |- _ => progress norm in H
    end;
    (split; [congruence|]); (split; [congruence|]);
    (split; [congruence|]); (split; [congruence|]);
    (split;
     [repeat match goal with
        | H : trace _ = _ |- _ => rewrite H; clear H
        end; rewrite <- ?app_assoc; reflexivity|]);
    (split;
     [ repeat match goal with
         | H : notice _ _ _ _ |- _ => destruct H as (? & ? & _)
         end;
       rewrite !statuses_for_app; cbn [statuses_for app];
       repeat match goal with
         | H : statuses_for _ _ = _ |- _ => rewrite H; clear H
         end; by destruct mgr
     | split;
       [ repeat match goal with
           | H : notice _ _ _ _ |- _ => destruct H as (? & ? & _)
           end;
         rewrite !filter_app;
         repeat match goal with
           | H : filter _ _ = _ |- _ => rewrite H; clear H
           end; reflexivity
       | intros ->; quiet; reflexivity ] ]).
Qed.

Lemma trace_prepared execution_id dir s :
  trace (prepared execution_id dir s) = trace s ++ [FsMkdtemp dir].
Proof. by destruct execution_id. Qed.

Lemma subprocess_run_within elapsed out err rc :
  (elapsed <= 10)%Q ->
  subprocess_run (Exits elapsed out err rc) (Some 10%Q) false
  = Ret {| returncode := rc; stdout := out; stderr := err |}.
Proof.
  intros H. apply Qle_bool_iff in H. unfold subprocess_run.
  by rewrite H.
Qed.


Lemma truthy_empty (t : string) : PyStr.truthy t = false -> t = "".
Proof. by destruct t. Qed.

(** Put together what is known of the trace after a call that went
    through the [try]. *)
Lemma trace_since_call execution_id dir s s2 s' db d :
  io_only (prepared execution_id dir s) s2 db ->
  trace s' = trace s2 ++ d ->
  trace_since s s' = [FsMkdtemp dir] ++ db ++ d.
Proof.
  intros Hio Hs'. apply io_only_fields in Hio as (_&_&_&_&_&_& Hs2).
  apply trace_since_app.
  rewrite Hs', Hs2, trace_prepared. by rewrite <- !app_assoc.
Qed.

(** [subprocess_run] on the child as text mode sees it is the call in text
    mode on the child. *)
Lemma subprocess_run_in_text_mode decode c timeout check :
  subprocess_run (in_text_mode decode timeout c) timeout check
  = subprocess_run_text decode c timeout check.
Proof.
  destruct c as [elapsed out err rc| |e]; cbn; [|done..].
  destruct (within timeout elapsed) eqn:Hin.
  - destruct (decode out) as [msg|o]; [done|].
    destruct (decode err) as [msg|e]; [done|].
    cbn. destruct timeout as [t|]; [|done]. cbn in Hin. by rewrite Hin.
  - destruct timeout as [t|]; [done|]. discriminate.
Qed.

Lemma replace_crlf_plain s : no_cr s = true -> replace_crlf s = s.
Proof.
  induction s as [|a s IH]; [done|]. cbn [no_cr].
  intros [Ha Hs]%andb_true_iff. apply negb_true_iff in Ha.
  cbn [replace_crlf]. rewrite Ha. cbn [andb].
  destruct s as [|b s']; [done|]. by rewrite IH.
Qed.

Lemma replace_cr_plain s : no_cr s = true -> replace_cr s = s.
Proof.
  induction s as [|a s IH]; [done|]. cbn [no_cr replace_cr].
  intros [Ha Hs]%andb_true_iff. apply negb_true_iff in Ha.
  by rewrite Ha, IH.
Qed.

(** A text without carriage return goes through unchanged. *)
Lemma translate_newlines_plain s :
  no_cr s = true -> translate_newlines s = s.
Proof.
  intros H. unfold translate_newlines.
  by rewrite replace_crlf_plain, replace_cr_plain.
Qed.

(** C3. A program that compiles and whose run ends within the 10
    seconds, seen in text mode.  When what it wrote can be decoded, the
    output of the record is its standard output decoded, with the line
    ends [CR LF] and [CR] rewritten as [LF], the error is its standard
    error likewise (empty when the program wrote nothing there) and the
    status code is its exit code; for a standard output without carriage
    return the output is that text exactly.  When it cannot be decoded the
    record has status code 1 and an execution error, whatever the exit
    code.  In both cases the call returns, the record is stored under the
    id, and the statuses sent are the same, the last one being
    [completed]. *)
Theorem C3_normal_completion code input_data execution_id mgr s dir
    elapsed_c out_c err_c decode elapsed out err rc :
  gcc_available s = true ->
  mkdtemp w (mkdtemp_calls s) = inr dir ->
  write_file w (os_path_join dir "program.c") code = None ->
  input_file_ok w dir input_data ->
  gcc w code = Exits elapsed_c out_c err_c 0 ->
  run_program w code (program_stdin input_data)
    = in_text_mode decode (Some 10%Q) (Finishes elapsed out err rc) ->
  (elapsed <= 10)%Q ->
  exists record s',
    execute_c_code w code input_data execution_id mgr s
      = (Ret (id_of_call w execution_id s, record), s')
    /\ run_record decode out err rc record
    /\ (forall out_text err_text,
          decode out = inr out_text -> decode err = inr err_text ->
          no_cr out_text = true ->
          output record = out_text /\ status_code record = rc)
    /\ get_execution_results (id_of_call w execution_id s) s'
       = Some record
    /\ statuses_for (id_of_call w execution_id s) (trace_since s s')
       = (if mgr then [starting; compiling; running; completed] else []).
Proof.
  intros Hgcc Hdir Hw Hin Hc Hr Hle.
  destruct (try_body_compiled code input_data
              (id_of_call w execution_id s) mgr dir blank_record
              (prepared execution_id dir s)
              {| returncode := 0; stdout := out_c; stderr := err_c |})
    as (s2 & db & Hbody & Hio & Hst & _); auto.
  { by rewrite Hc. }
  rewrite Hr, subprocess_run_in_text_mode in Hbody.
  assert (within (Some 10%Q) elapsed = true) as Hwithin
    by (by apply Qle_bool_iff).
  cbn [subprocess_run_text] in Hbody. rewrite Hwithin in Hbody.
  unfold run_record.
  destruct (decode out) as [msg|out_text] eqn:Hout;
    [|destruct (decode err) as [msg|err_text] eqn:Herr];
    cbn [andb returncode stdout stderr is_TimeoutExpired exc_class
         exc_str UnicodeDecodeError] in Hbody;
    destruct (execute_available _ _ _ _ _ _ _ _ _ Hgcc Hdir Hbody)
      as (s' & d & Hexec & Hres & _ & _ & _ & Htr & Hd & _); try done;
    (eexists _, s'; split; [exact Hexec|]);
    cbn [after_handler];
    (split; [|split; [|split]]).
  all: try (unfold get_execution_results; rewrite Hres;
            apply lookup_insert_eq).
  all: try (rewrite (trace_since_call _ _ _ _ _ _ _ Hio Htr);
            rewrite !statuses_for_app, Hst, Hd; by destruct mgr).
  all: try done.
  - split; [by destruct (PyStr.truthy (translate_newlines err_text))|].
    split; [|by destruct (PyStr.truthy (translate_newlines err_text))].
    destruct (PyStr.truthy (translate_newlines err_text)) eqn:He; [done|].
    apply truthy_empty in He. by rewrite He.
  - intros o e [= <-] [= <-] Hplain.
    rewrite (translate_newlines_plain out_text Hplain).
    by destruct (PyStr.truthy (translate_newlines err_text)).
Qed.



(** The probe of [__init__]: a compiler that cannot be started, or that
    answers with a nonzero code, leaves the executor without compiler. *)
Lemma CodeExecutor_init_unavailable e :
  subprocess_run (gcc_version w) None true = Raise e ->
  is_SubprocessError e || is_FileNotFoundError e = true ->
  exists s, CodeExecutor_init w = Ret s /\ gcc_available s = false.
Proof.
  intros Hrun He. unfold CodeExecutor_init. rewrite Hrun, He. eauto.
Qed.

(** When the directory cannot be made the exception leaves
    [execute_c_code]: nothing is stored. *)
Lemma execute_mkdtemp_raises code input_data execution_id mgr s e :
  gcc_available s = true ->
  mkdtemp w (mkdtemp_calls s) = inl e ->
  exists s',
    execute_c_code w code input_data execution_id mgr s = (Raise e, s')
    /\ sessions s' = sessions s
    /\ gcc_available s' = gcc_available s
    /\ execution_results s' = execution_results s
    /\ trace s' = trace s.
Proof.
  intros Hgcc Hdir.
  unfold execute_c_code, tempfile_mkdtemp, draw_uuid4, read_time.
  destruct execution_id as [i|];
    cbn [gcc_available set_clock_reads set_uuid_draws mkdtemp_calls];
    rewrite Hgcc, Hdir; cbn [negb]; eexists; (split; [reflexivity|]);
    done.
Qed.

(** A body that hangs hangs the call. *)
Lemma execute_hangs code input_data execution_id mgr s dir result s2 :
  gcc_available s = true ->
  mkdtemp w (mkdtemp_calls s) = inr dir ->
  try_body w code input_data (id_of_call w execution_id s) mgr dir
    blank_record (prepared execution_id dir s) = (Hang, result, s2) ->
  execute_c_code w code input_data execution_id mgr s = (Hang, s2).
Proof.
  intros Hgcc Hdir Hbody.
  unfold execute_c_code, tempfile_mkdtemp, draw_uuid4, read_time.
  unfold prepared, blank_record in Hbody.
  destruct execution_id as [i|]; cbn [id_of_call] in *;
    cbn [gcc_available set_clock_reads set_uuid_draws mkdtemp_calls
         clock_reads uuid_draws];
    rewrite Hgcc, Hdir; cbn [negb]; by rewrite Hbody.
Qed.

(** In every case [execute_c_code] leaves the sessions and the compiler
    flag alone and only adds to the trace; without a manager it
    broadcasts nothing; it hangs only on a compiler that never exits, and
    raises only what [mkdtemp] raised. *)
Lemma execute_c_code_frame code input_data execution_id mgr s :
  exists d,
    let r := execute_c_code w code input_data execution_id mgr s in
    sessions (snd r) = sessions s
    /\ gcc_available (snd r) = gcc_available s
    /\ trace (snd r) = trace s ++ d
    /\ (mgr = false -> forall j, statuses_for j d = [])
    /\ (fst r = Hang -> gcc w code = NeverExits)
    /\ (forall e, fst r = Raise e ->
          mkdtemp w (mkdtemp_calls s) = inl e
          /\ execution_results (snd r) = execution_results s).
Proof.
  destruct (gcc_available s) eqn:Hgcc.
  2: { destruct (execute_unavailable w code input_data execution_id mgr s
                   Hgcc) as (s' & d & -> & Hs & Hg & _ & _ & Htr & Hd & _).
       exists d. cbn [fst snd].
       split; [done|]. split; [congruence|]. split; [done|].
       split; [|done]. intros -> j. by quiet. }
  destruct (mkdtemp w (mkdtemp_calls s)) as [e|dir] eqn:Hdir.
  { destruct (execute_mkdtemp_raises code input_data execution_id mgr s e
                Hgcc Hdir) as (s' & -> & Hs & Hg & Hr & Htr).
    exists []. cbn [fst snd]. rewrite app_nil_r.
    split; [done|]. split; [congruence|]. split; [done|]. split; [done|].
    split; [done|]. by intros ? [= <-]. }
  destruct (try_body_frame code input_data (id_of_call w execution_id s)
              mgr dir blank_record (prepared execution_id dir s))
    as (db & Hio & Hq & Hh).
  destruct (try_body w code input_data (id_of_call w execution_id s) mgr
              dir blank_record (prepared execution_id dir s))
    as [[exit result] s2] eqn:Hbody.
  cbn [fst snd] in *.
  pose proof (io_only_fields _ _ _ Hio) as (Hs & Hg & _ & _ & _ & _ & Htr).
  rewrite trace_prepared in Htr.
  assert (sessions s2 = sessions s) as Hs'
    by (rewrite Hs; by destruct execution_id).
  assert (gcc_available s2 = true) as Hg'
    by (rewrite Hg; by destruct execution_id).
  assert (exit = Hang \/ exit <> Hang) as [->|Hexit]
    by (destruct exit; auto).
  - rewrite (execute_hangs _ _ _ _ _ _ _ _ Hgcc Hdir Hbody).
    exists ([FsMkdtemp dir] ++ db). cbn [fst snd].
    split; [done|]. split; [done|].
    split; [by rewrite Htr, <- app_assoc|].
    split; [|split; [auto|done]].
    intros Hm j. rewrite statuses_for_app. by rewrite Hq.
  - destruct (execute_available _ _ _ _ _ _ _ _ _ Hgcc Hdir Hbody Hexit)
      as (s' & d & -> & _ & Hs2 & Hg2 & _ & Htr2 & _ & _ & Hd).
    exists ([FsMkdtemp dir] ++ db ++ d). cbn [fst snd].
    split; [congruence|]. split; [congruence|].
    split; [by rewrite Htr2, Htr, <- !app_assoc|].
    split; [|split; [done|done]].
    intros -> j. rewrite !statuses_for_app, Hq, Hd by done. done.
Qed.

Lemma uuid_draws_prepared execution_id dir s :
  uuid_draws (prepared execution_id dir s) = draws_after execution_id s.
Proof. by destruct execution_id. Qed.

(** C10. When there is no compiler, or when the directory can be made
    and the compiler comes to an end, [execute_c_code] returns a pair
    [(id, record)] and [execution_results] then binds that id to that very
    record, so that the look-up by the returned id answers with it; the id
    is the one supplied, or else the next draw of [uuid.uuid4], which the
    call uses up. *)
Theorem C10_result_stored code input_data execution_id mgr s :
  gcc_available s = false
  \/ (exists dir, mkdtemp w (mkdtemp_calls s) = inr dir)
     /\ gcc w code <> NeverExits ->
  exists record s',
    execute_c_code w code input_data execution_id mgr s
      = (Ret (id_of_call w execution_id s, record), s')
    /\ get_execution_results (id_of_call w execution_id s) s'
       = Some record
    /\ (forall i, execution_id = Some i ->
          id_of_call w execution_id s = i /\ uuid_draws s' = uuid_draws s)
    /\ (execution_id = None ->
          id_of_call w execution_id s = uuid4 w (uuid_draws s)
          /\ uuid_draws s' = S (uuid_draws s)).
Proof.
  intros [Hgcc|[[dir Hdir] Hcc]].
  - destruct (execute_unavailable w code input_data execution_id mgr s
                Hgcc) as (s' & d & Hexec & _ & _ & Hres & _ & _ & _ & Hu).
    exists unavailable_record, s'. split; [done|].
    split.
    { unfold get_execution_results. rewrite Hres. apply lookup_insert_eq. }
    split; [by intros i ->|by intros ->].
  - destruct (gcc_available s) eqn:Hgcc.
    2: { destruct (execute_unavailable w code input_data execution_id mgr
                     s Hgcc)
           as (s' & d & Hexec & _ & _ & Hres & _ & _ & _ & Hu).
         exists unavailable_record, s'. split; [done|].
         split.
         { unfold get_execution_results. rewrite Hres.
           apply lookup_insert_eq. }
         split; [by intros i ->|by intros ->]. }
    destruct (try_body_frame code input_data (id_of_call w execution_id s)
                mgr dir blank_record (prepared execution_id dir s))
      as (db & Hio & _ & Hh).
    destruct (try_body w code input_data (id_of_call w execution_id s) mgr
                dir blank_record (prepared execution_id dir s))
      as [[exit result] s2] eqn:Hbody.
    cbn [fst snd] in *.
    assert (exit <> Hang) as Hexit by (intros ->; by apply Hcc, Hh).
    destruct (execute_available _ _ _ _ _ _ _ _ _ Hgcc Hdir Hbody Hexit)
      as (s' & d & Hexec & Hres & _ & _ & Hu & _).
    apply io_only_fields in Hio as (_ & _ & _ & Hu2 & _).
    rewrite uuid_draws_prepared in Hu2.
    eexists _, s'. split; [exact Hexec|].
    split.
    { unfold get_execution_results. rewrite Hres. apply lookup_insert_eq. }
    split; [intros i ->|intros ->]; cbn [draws_after] in Hu2;
      (split; [done|congruence]).
Qed.

(** Every call that goes through the [finally] clause records the time
    between its two readings of the clock. *)
Lemma execute_time_measured code input_data execution_id mgr s i record s' :
  gcc_available s = true ->
  execute_c_code w code input_data execution_id mgr s
    = (Ret (i, record), s') ->
  execution_time record = measured w s.
Proof.
  intros Hgcc Hexec.
  destruct (mkdtemp w (mkdtemp_calls s)) as [e|dir] eqn:Hdir.
  { destruct (execute_mkdtemp_raises code input_data execution_id mgr s e
                Hgcc Hdir) as (s1 & H1 & _). congruence. }
  destruct (try_body w code input_data (id_of_call w execution_id s) mgr
              dir blank_record (prepared execution_id dir s))
    as [[exit result] s2] eqn:Hbody.
  assert (exit = Hang \/ exit <> Hang) as [->|Hexit]
    by (destruct exit; auto).
  - rewrite (execute_hangs _ _ _ _ _ _ _ _ Hgcc Hdir Hbody) in Hexec.
    done.
  - destruct (execute_available _ _ _ _ _ _ _ _ _ Hgcc Hdir Hbody Hexit)
      as (s1 & d & H1 & _).
    rewrite H1 in Hexec. by injection Hexec as _ <- _.
Qed.

End Body.

(* ===================================================================== *)
(** * The broadcaster *)
(* ===================================================================== *)

Section Broadcaster.

Variable w : World.

(** [connect] registers the channel behind those already there. *)
Lemma connect_registers_last ws i s :
  accept_raises w ws = None ->
  exists s',
    connect w ws i s = (Ret tt, s')
    /\ subscribers i s' = subscribers i s ++ [ws]
    /\ trace s' = trace s ++ [Accepted ws]
    /\ execution_results s' = execution_results s.
Proof.
  intros Ha. unfold connect. rewrite Ha. eexists. split; [reflexivity|].
  unfold subscribers. norm. rewrite lookup_insert_eq.
  by destruct (active_connections s !! i).
Qed.

(** C6. [broadcast] hands the message to the channels registered for the
    id, one after the other in the order of the list, which is the order
    in which they were registered; a channel whose [send_text] raises is
    skipped and taken off the list, and the channels after it are served
    all the same.  The lists of the other ids are not touched. *)
Theorem C6_publish_in_order m i s :
  trace (broadcast w m i s)
  = trace s ++ Broadcast i m ::
      map (fun c => SendText c m) (filter (delivers w) (subscribers i s))
  /\ subscribers i (broadcast w m i s)
     = filter (delivers w) (subscribers i s)
  /\ (forall j, i <> j ->
        subscribers j (broadcast w m i s) = subscribers j s).
Proof.
  split; [|split].
  - by destruct (broadcast_frame w m i s) as [ac ->].
  - apply subscribers_broadcast.
  - intros j Hij. by apply subscribers_broadcast_other.
Qed.

(** C5. For an id whose record is stored, a channel that comes to
    subscribe, and on which the replay can be sent, is registered and
    receives at once one message, the [completed] message that carries
    the record, and nothing else; whether other channels were registered
    before does not matter, and no other channel receives anything. *)
Theorem C5_replay_on_join ws i record s :
  execution_results s !! i = Some record ->
  accept_raises w ws = None ->
  send_text_raises w ws = None ->
  exists s',
    websocket_endpoint w ws i s = (Ret Listening, s')
    /\ trace_since s s' = [Accepted ws; SendText ws (MsgResult record)]
    /\ received ws (trace_since s s') = [MsgResult record]
    /\ message_status (MsgResult record) = completed
    /\ subscribers i s' = subscribers i s ++ [ws]
    /\ execution_results s' = execution_results s.
Proof.
  intros Hrec Ha Hsend. unfold websocket_endpoint.
  destruct (connect_registers_last ws i s Ha) as (s1 & -> & Hsub & Htr & Hr).
  rewrite Hr, Hrec. unfold send_text. rewrite Hsend.
  eexists. split; [reflexivity|].
  assert (trace_since s (log (SendText ws (MsgResult record)) s1)
          = [Accepted ws; SendText ws (MsgResult record)]) as ->.
  { apply trace_since_app. norm. by rewrite Htr, <- app_assoc. }
  split; [done|]. split; [cbn; by rewrite Nat.eqb_refl|].
  split; [done|]. split; [done|done].
Qed.

End Broadcaster.

(* ===================================================================== *)
(** * The chat handler *)
(* ===================================================================== *)

Section Chat.

Variable w : World.

Lemma session_of_eq sid s s' :
  sessions s' = sessions s -> session_of sid s' = session_of sid s.
Proof. unfold session_of. by intros ->. Qed.

Lemma session_of_update sid f s :
  session_of sid (update_session sid f s) = f (session_of sid s).
Proof.
  unfold update_session, session_of at 1. norm. by rewrite lookup_insert_eq.
Qed.

Lemma lookup_update sid f s :
  sessions (update_session sid f s) !! sid = Some (f (session_of sid s)).
Proof. unfold update_session. norm. by rewrite lookup_insert_eq. Qed.

(** On entry the session gains the user turn and nothing else. *)
Lemma session_of_entered sid message s :
  session_of sid (entered sid message s)
  = {| last_generated_code := last_generated_code (session_of sid s);
       language := language (session_of sid s);
       history :=
         history (session_of sid s)
         ++ [{| role := user; content := message |}] |}.
Proof.
  unfold entered, history_append. rewrite session_of_update.
  unfold session_of. destruct (sessions s !! sid) eqn:Hs; norm.
  - by rewrite Hs.
  - by rewrite lookup_insert_eq.
Qed.

(** The session steps leave everything but [sessions] alone. *)
Lemma update_session_frame sid f s :
  gcc_available (update_session sid f s) = gcc_available s
  /\ execution_results (update_session sid f s) = execution_results s
  /\ active_connections (update_session sid f s) = active_connections s
  /\ uuid_draws (update_session sid f s) = uuid_draws s
  /\ clock_reads (update_session sid f s) = clock_reads s
  /\ mkdtemp_calls (update_session sid f s) = mkdtemp_calls s
  /\ trace (update_session sid f s) = trace s.
Proof. done. Qed.

Lemma entered_frame sid message s :
  gcc_available (entered sid message s) = gcc_available s
  /\ execution_results (entered sid message s) = execution_results s
  /\ active_connections (entered sid message s) = active_connections s
  /\ uuid_draws (entered sid message s) = uuid_draws s
  /\ clock_reads (entered sid message s) = clock_reads s
  /\ mkdtemp_calls (entered sid message s) = mkdtemp_calls s
  /\ trace (entered sid message s) = trace s.
Proof. unfold entered. by destruct (sessions s !! sid). Qed.

(** [_extract_code] only ever answers with the language ["c"]. *)
Lemma extract_code_language message lang code :
  _extract_code message = Some (lang, code) -> lang = "c".
Proof.
  unfold _extract_code. destruct (Fence.findall message); [done|].
  by intros [= <- _].
Qed.

(** The run block on C code: an id is drawn and [execute_c_code] is called
    with it and without manager. *)
Lemma run_code_c code input_data refusal s :
  run_code w code "c" input_data refusal s
  = (execution_outcome code
       (fst (execute_c_code w code input_data
               (Some (uuid4 w (uuid_draws s))) false
               (set_uuid_draws (S (uuid_draws s)) s))),
     snd (execute_c_code w code input_data
            (Some (uuid4 w (uuid_draws s))) false
            (set_uuid_draws (S (uuid_draws s)) s))).
Proof.
  unfold run_code, draw_uuid4.
  change (PyStr.mem (PyStr.lower "c") ["c"; ""]) with true. cbv iota.
  by destruct (execute_c_code w code input_data _ false _)
    as [[[execution_id result]|e|] s'].
Qed.

(** The run block never touches the sessions or the compiler flag, and
    broadcasts nothing. *)
Lemma run_code_frame code lang input_data refusal s :
  exists d,
    let r := run_code w code lang input_data refusal s in
    sessions (snd r) = sessions s
    /\ gcc_available (snd r) = gcc_available s
    /\ trace (snd r) = trace s ++ d
    /\ (forall j, statuses_for j d = []).
Proof.
  unfold run_code, draw_uuid4.
  destruct (PyStr.mem (PyStr.lower lang) ["c"; ""]).
  - destruct (execute_c_code_frame w code input_data
                (Some (uuid4 w (uuid_draws s))) false
                (set_uuid_draws (S (uuid_draws s)) s))
      as (d & Hs & Hg & Htr & Hq & _).
    exists d.
    destruct (execute_c_code w code input_data _ false _)
      as [[[execution_id result]|e|] s']; cbn [fst snd] in *; auto.
  - exists []. cbn [fst snd]. by rewrite app_nil_r.
Qed.

Lemma process_message_entered message input_data sid s :
  process_message w message input_data sid s
  = (let s1 := entered sid message s in
     let session := session_of sid s1 in
     if _is_run_previous_code_request message
        && PyStr.truthy_opt (last_generated_code session)
     then
       run_code w
         (match last_generated_code session with
          | Some c => c
          | None => ""
          end)
         (language session) input_data
         ("Sorry, I can only execute C code right now. "
          +:+ "The generated code is in " +:+ language session +:+ ".")
         (history_append sid assistant
            "Executing previously generated code." s1)
     else
       match _extract_code message with
       | Some (lang, code) =>
           run_code w code lang input_data
             ("Sorry, I can only execute C code right now. "
              +:+ "You provided " +:+ lang +:+ " code.")
             (history_append sid assistant "Received code to execute."
                (remember_code sid code lang s1))
       | None =>
           if match classify_request w message with
              | inr b => b
              | inl _ => false
              end
           then
             match generate_code w message with
             | inr code =>
                 (Ret (code_generation code
                         "Here's the generated C code based on your request:"),
                  history_append sid assistant code
                    (remember_code sid code "c" s1))
             | inl e =>
                 (Ret (text ("Failed to generate code: " +:+ exc_str e)),
                  s1)
             end
           else
             match generate_chat_response w (history session) with
             | inr chat_response =>
                 (Ret (text chat_response),
                  history_append sid assistant chat_response s1)
             | inl e => (Ret (text ("Chat error: " +:+ exc_str e)), s1)
             end
       end).
Proof.
  unfold process_message, entered.
  destruct (_extract_code message) as [[lang code]|]; reflexivity.
Qed.

Lemma history_of_append sid r c s :
  history_of sid (history_append sid r c s)
  = history_of sid s ++ [{| role := r; content := c |}].
Proof. unfold history_of, history_append. by rewrite session_of_update. Qed.

Lemma history_of_remember sid code lang s :
  history_of sid (remember_code sid code lang s) = history_of sid s.
Proof. unfold history_of, remember_code. by rewrite session_of_update. Qed.

Lemma history_of_entered sid message s :
  history_of sid (entered sid message s)
  = history_of sid s ++ [{| role := user; content := message |}].
Proof. unfold history_of. by rewrite session_of_entered. Qed.

Lemma history_of_run_code sid code lang input_data refusal s :
  history_of sid (snd (run_code w code lang input_data refusal s))
  = history_of sid s.
Proof.
  destruct (run_code_frame code lang input_data refusal s)
    as (d & Hs & _).
  unfold history_of. by rewrite (session_of_eq _ _ _ Hs).
Qed.

(** One message: the history gains the turns of spec 4.4. *)
Lemma process_message_turns message input_data sid s :
  history_of sid (snd (process_message w message input_data sid s))
  = history_of sid s ++ turns_of w message (session_of sid s).
Proof.
  rewrite process_message_entered. cbv zeta.
  unfold turns_of, call_failed, assistant_content, branch_of.
  rewrite session_of_entered. cbn [last_generated_code history].
  destruct (_is_run_previous_code_request message && _).
  { by rewrite history_of_run_code, history_of_append,
      history_of_entered, <- app_assoc. }
  destruct (_extract_code message) as [[lang code]|].
  { by rewrite history_of_run_code, history_of_append,
      history_of_remember, history_of_entered, <- app_assoc. }
  destruct (classify_request w message) as [e|[]].
  - destruct (generate_chat_response w _) as [e'|reply]; cbn [snd].
    + by rewrite history_of_entered.
    + by rewrite history_of_append, history_of_entered, <- app_assoc.
  - destruct (generate_code w message) as [e|code]; cbn [snd].
    + by rewrite history_of_entered.
    + by rewrite history_of_append, history_of_remember,
        history_of_entered, <- app_assoc.
  - destruct (generate_chat_response w _) as [e'|reply]; cbn [snd].
    + by rewrite history_of_entered.
    + by rewrite history_of_append, history_of_entered, <- app_assoc.
Qed.

Lemma length_turns_of message session :
  length (turns_of w message session)
  = (2 - (if call_failed w message session then 1 else 0))%nat.
Proof. unfold turns_of. by destruct (call_failed w message session). Qed.

Lemma length_turns_added messages sid s :
  (length (turns_added w messages sid s) + failed_calls w messages sid s
   = 2 * length messages)%nat
  /\ (failed_calls w messages sid s <= length messages)%nat.
Proof.
  revert s. induction messages as [|[message input_data] rest IH];
    intros s; [done|].
  cbn [turns_added failed_calls length].
  destruct (IH (snd (process_message w message input_data sid s)))
    as [Hlen Hle].
  rewrite length_app, length_turns_of.
  destruct (call_failed w message (session_of sid s)); lia.
Qed.

(** C7. Messages of one session handled one after the other: each adds
    the user turn and then the assistant turn of its branch, except that a
    message whose call of [generate_code] or of [generate_chat_response]
    failed adds the user turn alone.  After [N] messages the history is
    the old one followed by these turns in order: it has grown by [2N]
    less the number of failed calls, so by [N] at least and [2N] at most,
    and by [2N] exactly when no call failed, whichever branches were
    taken. *)
Theorem C7_history_length messages sid s s' :
  process_messages w messages sid s = Some s' ->
  history_of sid s' = history_of sid s ++ turns_added w messages sid s
  /\ (length (history_of sid s') + failed_calls w messages sid s
      = length (history_of sid s) + 2 * length messages)%nat
  /\ (length (history_of sid s) + length messages
        <= length (history_of sid s')
        <= length (history_of sid s) + 2 * length messages)%nat
  /\ (failed_calls w messages sid s = 0%nat ->
        length (history_of sid s')
        = (length (history_of sid s) + 2 * length messages)%nat).
Proof.
  intros Hrun.
  assert (history_of sid s'
          = history_of sid s ++ turns_added w messages sid s) as Hh.
  { revert s Hrun. induction messages as [|[message input_data] rest IH];
      intros s Hrun; cbn [process_messages turns_added] in *.
    - injection Hrun as <-. by rewrite app_nil_r.
    - pose proof (process_message_turns message input_data sid s) as Ht.
      destruct (process_message w message input_data sid s) as [o s1].
      cbn [snd] in *.
      assert (process_messages w rest sid s1 = Some s') as Hrest
        by (by destruct o).
      by rewrite (IH s1 Hrest), Ht, <- app_assoc. }
  split; [exact Hh|].
  destruct (length_turns_added messages sid s) as [Hlen Hle].
  rewrite Hh, length_app. repeat split; lia.
Qed.

Lemma update_session_twice sid f g s :
  update_session sid f (update_session sid g s)
  = update_session sid (fun session => f (g session)) s.
Proof.
  unfold update_session at 1. rewrite session_of_update.
  unfold update_session. norm. by rewrite insert_insert_eq.
Qed.

Lemma entered_as_update sid message s :
  entered sid message s
  = update_session sid (fun session =>
      {| last_generated_code := last_generated_code session;
         language := language session;
         history :=
           history session ++ [{| role := user; content := message |}] |})
      s.
Proof.
  unfold entered, history_append.
  destruct (sessions s !! sid) eqn:Hs; [done|].
  unfold update_session, session_of. norm.
  by rewrite lookup_insert_eq, insert_insert_eq, Hs.
Qed.


(** [process_message] never calls the manager: no status is broadcast,
    whatever the branch. *)
Lemma process_message_quiet message input_data sid s j :
  statuses_for j
    (trace_since s (snd (process_message w message input_data sid s)))
  = [].
Proof.
  assert (forall code lang refusal s1,
            trace s1 = trace s ->
            statuses_for j
              (trace_since s
                 (snd (run_code w code lang input_data refusal s1))) = [])
    as Hrun.
  { intros code lang refusal s1 Hs1.
    destruct (run_code_frame code lang input_data refusal s1)
      as (d & _ & _ & Htr & Hq).
    rewrite Hs1 in Htr. by rewrite (trace_since_app _ _ _ Htr). }
  assert (forall s1, trace s1 = trace s ->
            statuses_for j (trace_since s s1) = []) as Hsame.
  { intros s1 Hs1. rewrite (trace_since_app s s1 []); [done|].
    by rewrite app_nil_r. }
  pose proof (entered_frame sid message s) as (_&_&_&_&_&_& Hin).
  rewrite process_message_entered. cbv zeta.
  destruct (_is_run_previous_code_request message && _);
    [by apply Hrun|].
  destruct (_extract_code message) as [[lang code]|]; [by apply Hrun|].
  destruct (match classify_request w message with
            | inr b => b | inl _ => false end).
  - destruct (generate_code w message); by apply Hsame.
  - destruct (generate_chat_response w _); by apply Hsame.
Qed.

(** C2. The statuses that [execute_c_code] hands to the broadcaster, with
    or without subscribers.  Called without manager, as [process_message]
    calls it in its two run branches, it hands over none.  Called with
    the manager: the error status alone when there is no compiler;
    [starting], [compiling], [compile_error] and then [completed] when
    the compilation fails; [starting], [compiling], [running] and
    [completed] when the run comes to an end. *)
Theorem C2_events_with_manager code input_data execution_id s :
  let i := id_of_call w execution_id s in
  let sent mgr :=
    statuses_for i
      (trace_since s
         (snd (execute_c_code w code input_data execution_id mgr s))) in
  sent false = []
  /\ (forall message sid j,
        statuses_for j
          (trace_since s
             (snd (process_message w message input_data sid s))) = [])
  /\ (gcc_available s = false ->
        sent true = spec_transitions ToolchainUnavailable)
  /\ (forall dir cp,
        gcc_available s = true ->
        mkdtemp w (mkdtemp_calls s) = inr dir ->
        write_file w (os_path_join dir "program.c") code = None ->
        subprocess_run (gcc w code) None false = Ret cp ->
        (returncode cp <> 0 ->
           sent true = spec_transitions CompileFailed ++ [completed])
        /\ (forall run_process,
              returncode cp = 0 ->
              input_file_ok w dir input_data ->
              subprocess_run
                (run_program w code (program_stdin input_data))
                (Some 10%Q) false = Ret run_process ->
              sent true = spec_transitions RunCompleted)).
Proof.
  intros i sent. unfold sent.
  split.
  { destruct (execute_c_code_frame w code input_data execution_id false s)
      as (d & _ & _ & Htr & Hq & _).
    rewrite (trace_since_app _ _ _ Htr). by apply Hq. }
  split; [intros; apply process_message_quiet|].
  split.
  { intros Hgcc.
    destruct (execute_unavailable w code input_data execution_id true s
                Hgcc) as (s' & d & -> & _ & _ & _ & _ & Htr & (Hd & _) & _).
    cbn [snd]. by rewrite (trace_since_app _ _ _ Htr). }
  intros dir cp Hgcc Hdir Hw Hc. split.
  - intros Hrc.
    destruct (try_body_compile_failed w code input_data i true dir
                blank_record (prepared execution_id dir s) cp Hw Hc Hrc)
      as (s2 & db & Hbody & Hio & Hst).
    destruct (execute_available w _ _ _ _ _ _ _ _ _ Hgcc Hdir Hbody)
      as (s' & d & -> & _ & _ & _ & _ & Htr & Hd & _); [done|].
    cbn [snd]. rewrite (trace_since_call _ _ _ _ _ _ _ Hio Htr).
    rewrite !statuses_for_app. fold i in Hd |- *. by rewrite Hst, Hd.
  - intros rp Hrc Hin Hr.
    destruct (try_body_compiled w code input_data i true dir
                blank_record (prepared execution_id dir s) cp Hw Hc Hrc Hin)
      as (s2 & db & Hbody & Hio & Hst & _).
    rewrite Hr in Hbody.
    destruct (execute_available w _ _ _ _ _ _ _ _ _ Hgcc Hdir Hbody)
      as (s' & d & -> & _ & _ & _ & _ & Htr & Hd & _); [done|].
    cbn [snd]. rewrite (trace_since_call _ _ _ _ _ _ _ Hio Htr).
    rewrite !statuses_for_app. fold i in Hd |- *. by rewrite Hst, Hd.
Qed.

(** The compiler flag is set once, by [__init__]: no message changes
    it. *)
Lemma process_message_gcc_available message input_data sid s :
  gcc_available (snd (process_message w message input_data sid s))
  = gcc_available s.
Proof.
  assert (forall code lang refusal s1,
            gcc_available s1 = gcc_available s ->
            gcc_available
              (snd (run_code w code lang input_data refusal s1))
            = gcc_available s) as Hrun.
  { intros code lang refusal s1 Hs1.
    destruct (run_code_frame code lang input_data refusal s1)
      as (d & _ & Hg & _). by rewrite Hg. }
  pose proof (entered_frame sid message s) as (Hin & _).
  rewrite process_message_entered. cbv zeta.
  destruct (_is_run_previous_code_request message && _);
    [by apply Hrun|].
  destruct (_extract_code message) as [[lang code]|]; [by apply Hrun|].
  destruct (match classify_request w message with
            | inr b => b | inl _ => false end).
  - by destruct (generate_code w message).
  - by destruct (generate_chat_response w _).
Qed.

End Chat.

(* ===================================================================== *)
(** * The claims on concrete runs *)
(* ===================================================================== *)

(** ** The pattern and the run phrases *)

Example extract_one_block :
  _extract_code (fenced hello_c) = Some ("c", hello_c).
Proof. vm_compute. reflexivity. Qed.

(** Of two blocks the first is taken, and stripped. *)
Example extract_first_block :
  _extract_code
    ("see " +:+ fenced ("  " +:+ exit3_c +:+ " ") +:+ " or "
     +:+ fenced loop_c)
  = Some ("c", exit3_c).
Proof. vm_compute. reflexivity. Qed.

(** The tag may be a capital C and may be followed by blanks. *)
Example extract_capital_tag :
  _extract_code
    (Fence.fence +:+ "C  " +:+ PyStr.nl +:+ hello_c +:+ PyStr.nl
     +:+ Fence.fence)
  = Some ("c", hello_c).
Proof. vm_compute. reflexivity. Qed.

(** Another tag, or no line break before the closing fence: no block. *)
Example extract_other_tag :
  _extract_code
    (Fence.fence +:+ "cpp" +:+ PyStr.nl +:+ hello_c +:+ PyStr.nl
     +:+ Fence.fence) = None
  /\ _extract_code
       (Fence.fence +:+ "c" +:+ PyStr.nl +:+ hello_c +:+ Fence.fence) = None.
Proof. vm_compute. split; reflexivity. Qed.

(** Three line breaks between the fences: the greedy blanks give one back
    and the block is a line break, stripped to nothing. *)
Example extract_blank_block :
  _extract_code
    (Fence.fence +:+ "c" +:+ PyStr.nl +:+ PyStr.nl +:+ PyStr.nl
     +:+ Fence.fence) = Some ("c", "")
  /\ _extract_code
       (Fence.fence +:+ "c" +:+ PyStr.nl +:+ PyStr.nl +:+ Fence.fence)
     = None.
Proof. vm_compute. split; reflexivity. Qed.

Example run_phrases :
  _is_run_previous_code_request "Please RUN IT now" = true
  /\ _is_run_previous_code_request "could you Execute The Program?" = true
  /\ _is_run_previous_code_request "run  it" = false
  /\ _is_run_previous_code_request "running" = false.
Proof. vm_compute. repeat split; reflexivity. Qed.

(** ** Events *)

(** A block run from the chat: the program is compiled and run, the record
    is stored, and not one status goes to the broadcaster. *)
Lemma C2_counterexample :
  let r :=
    process_message demo_world (fenced hello_c) None "default" ready_state in
  fst r = Ret (code_execution "hi" hello_c "success" 2%Q "id0")
  /\ get_execution_results "id0" (snd r) = Some hello_record
  /\ statuses_for "id0" (trace (snd r)) = []
  /\ statuses_for "id0" (trace (snd r)) <> spec_transitions RunCompleted
  /\ ~ In completed (statuses_for "id0" (trace (snd r))).
Proof. vm_compute. repeat split; first [congruence | tauto]. Qed.

(** The same program through the API, with the manager. *)
Lemma C2_witness :
  gcc_available ready_state = true
  /\ statuses_for "x"
       (trace_since ready_state
          (snd (execute_c_code demo_world hello_c None (Some "x") true
                  ready_state)))
     = [starting; compiling; running; completed]
  /\ statuses_for "x"
       (trace_since ready_state
          (snd (execute_c_code demo_world broken_c None (Some "x") true
                  ready_state)))
     = [starting; compiling; compile_error; completed].
Proof.
  split; [reflexivity|]. split.
  - destruct (C2_events_with_manager demo_world hello_c None (Some "x")
                ready_state) as (_ & _ & _ & H).
    destruct (H "/tmp/tmp0"
                {| returncode := 0; stdout := ""; stderr := "" |})
      as [_ Hrun]; [vm_compute; reflexivity..|].
    apply (Hrun {| returncode := 0; stdout := "hi"; stderr := "" |});
      [reflexivity | exact I | vm_compute; reflexivity].
  - destruct (C2_events_with_manager demo_world broken_c None (Some "x")
                ready_state) as (_ & _ & _ & H).
    destruct (H "/tmp/tmp0"
                {| returncode := 1; stdout := "";
                   stderr := "error: expected declaration" |})
      as [Hfail _]; [vm_compute; reflexivity..|].
    apply Hfail. vm_compute. discriminate.
Defined.

(** ** Results *)

(** A program that writes a line end of two characters, and one that
    writes a byte that is no text: both exit with code 0 within the
    second, yet the output of the first is not what it wrote, and the
    status code of the second is 1. *)
Lemma C3_counterexample :
  demo_child crlf_c = Finishes 1 [Byte.x68; Byte.x0d; Byte.x0a] [] 0
  /\ demo_child byte255_c = Finishes 1 [Byte.xff] [] 0
  /\ (exists r s',
        execute_c_code text_world crlf_c None None false ready_state
          = (Ret ("id0", r), s')
        /\ output r = String "h" PyStr.nl
        /\ output r <> string_of_list_byte [Byte.x68; Byte.x0d; Byte.x0a]
        /\ status_code r = 0)
  /\ (exists r s',
        execute_c_code text_world byte255_c None None false ready_state
          = (Ret ("id0", r), s')
        /\ output r = ""
        /\ error r
           = "Execution error: 'ascii' codec can't decode byte 0xff "
             +:+ "in position 0: ordinal not in range(128)"
        /\ status_code r = 1
        /\ status_code r <> 0).
Proof.
  split; [reflexivity|]. split; [reflexivity|]. split.
  - eexists _, _. split; [vm_compute; reflexivity|].
    cbn. repeat split; try reflexivity. discriminate.
  - eexists _, _. split; [vm_compute; reflexivity|].
    cbn. repeat split; try reflexivity. discriminate.
Qed.

(** A program that writes [hi]. *)
Lemma C3_witness :
  gcc_available ready_state = true
  /\ gcc text_world hello_c = Exits 60 "" "" 0
  /\ run_program text_world hello_c (program_stdin None)
     = in_text_mode ascii_decode (Some 10%Q)
         (Finishes 1 [Byte.x68; Byte.x69] [] 0)
  /\ (1 <= 10)%Q
  /\ exists record s',
       execute_c_code text_world hello_c None None true ready_state
         = (Ret ("id0", record), s')
       /\ output record = "hi" /\ status_code record = 0
       /\ get_execution_results "id0" s' = Some record
       /\ statuses_for "id0" (trace_since ready_state s')
          = [starting; compiling; running; completed].
Proof.
  assert (1 <= 10)%Q as Hle by (vm_compute; discriminate).
  split; [reflexivity|]. split; [reflexivity|]. split; [reflexivity|].
  split; [exact Hle|].
  destruct (C3_normal_completion text_world hello_c None None true
              ready_state "/tmp/tmp0" 60 "" "" ascii_decode 1
              [Byte.x68; Byte.x69] [] 0)
    as (record & s' & Hexec & _ & Hplain & Hget & Hst);
    [reflexivity | reflexivity | reflexivity | exact I | reflexivity
    | reflexivity | exact Hle |].
  exists record, s'. split; [exact Hexec|].
  destruct (Hplain "hi" "" eq_refl eq_refl eq_refl) as [Hout Hrc].
  auto.
Defined.



(** ** The broken path of the timer *)

(** C9. Without a compiler the record leaves [execute_c_code] with an
    execution time of 0, the value it was created with: the clock is read
    on entry and never again, although two seconds have gone by when the
    call ends.  The paths through the [finally] clause do measure the time,
    see [execute_time_measured]. *)
Theorem C9_unavailable_time_not_measured :
  let r := execute_c_code demo_world hello_c None None false no_gcc_state in
  fst r = Ret ("id0", unavailable_record)
  /\ execution_time unavailable_record = 0%Q
  /\ clock_reads (snd r) = 1%nat
  /\ (time_time demo_world (clock_reads (snd r))
      - time_time demo_world (clock_reads no_gcc_state) == 2)%Q
  /\ ~ (execution_time unavailable_record
        == time_time demo_world (clock_reads (snd r))
           - time_time demo_world (clock_reads no_gcc_state))%Q.
Proof.
  vm_compute. repeat split; try reflexivity. discriminate.
Qed.

(** ** Stored results *)

(** No room for the directory: the call raises and stores nothing.  A
    compiler that never exits: the call never returns. *)
Lemma C10_counterexample :
  let r :=
    execute_c_code full_disk_world hello_c None None false ready_state in
  let r' :=
    execute_c_code demo_world stuck_c None None false ready_state in
  fst r = Raise disk_full
  /\ (forall i record, fst r <> Ret (i, record))
  /\ get_execution_results (id_of_call full_disk_world None ready_state)
       (snd r) = None
  /\ fst r' = Hang
  /\ get_execution_results (id_of_call demo_world None ready_state)
       (snd r') = None.
Proof. vm_compute. repeat split; congruence. Qed.

Lemma C10_witness :
  ((exists dir, mkdtemp demo_world (mkdtemp_calls ready_state) = inr dir)
   /\ gcc demo_world broken_c <> NeverExits)
  /\ exists record s',
       execute_c_code demo_world broken_c None None false ready_state
         = (Ret ("id0", record), s')
       /\ get_execution_results "id0" s' = Some record
       /\ uuid_draws s' = 1%nat.
Proof.
  assert ((exists dir,
             mkdtemp demo_world (mkdtemp_calls ready_state) = inr dir)
          /\ gcc demo_world broken_c <> NeverExits) as Hok.
  { split; [by exists "/tmp/tmp0"|]. vm_compute. discriminate. }
  split; [exact Hok|].
  destruct (C10_result_stored demo_world broken_c None None false ready_state
              (or_intror Hok))
    as (record & s' & Hexec & Hget & _ & Hnone).
  exists record, s'. split; [exact Hexec|]. split; [exact Hget|].
  by destruct (Hnone eq_refl) as [_ ->].
Defined.

(** ** Subscriptions *)

(** A channel joins an execution that is over and that nobody watched. *)
Lemma C5_witness :
  execution_results finished_state !! "id0" = Some hello_record
  /\ subscribers "id0" finished_state = []
  /\ exists s',
       websocket_endpoint demo_world 4%nat "id0" finished_state
         = (Ret Listening, s')
       /\ received 4%nat (trace_since finished_state s')
          = [MsgResult hello_record]
       /\ subscribers "id0" s' = [4%nat].
Proof.
  assert (execution_results finished_state !! "id0" = Some hello_record)
    as Hrec by (vm_compute; reflexivity).
  split; [exact Hrec|]. split; [vm_compute; reflexivity|].
  destruct (C5_replay_on_join demo_world 4%nat "id0" hello_record
              finished_state Hrec eq_refl eq_refl)
    as (s' & Hend & _ & Hgot & _ & Hsub & _).
  exists s'. split; [exact Hend|]. split; [exact Hgot|].
  rewrite Hsub. vm_compute. reflexivity.
Defined.

(** Three channels, the second one broken: the first and the third get the
    message, in that order, and the second is dropped. *)
Lemma C6_witness :
  subscribers "id0" crowded_state = [1; 7; 2]%nat
  /\ trace (broadcast demo_world (MsgStatus running) "id0" crowded_state)
     = [ Broadcast "id0" (MsgStatus running);
         SendText 1%nat (MsgStatus running);
         SendText 2%nat (MsgStatus running) ]
  /\ subscribers "id0"
       (broadcast demo_world (MsgStatus running) "id0" crowded_state)
     = [1; 2]%nat.
Proof.
  assert (subscribers "id0" crowded_state = [1; 7; 2]%nat) as Hsub
    by (vm_compute; reflexivity).
  split; [exact Hsub|].
  destruct (C6_publish_in_order demo_world (MsgStatus running) "id0"
              crowded_state) as (Htr & Hleft & _).
  rewrite Htr, Hleft, Hsub. split; vm_compute; reflexivity.
Defined.

(** ** Histories *)

(** The generation service is down: the message leaves one turn. *)
Lemma C7_counterexample :
  exists s',
    process_messages offline_world [("hello", None)] "default" ready_state
      = Some s'
    /\ history_of "default" s' = [{| role := user; content := "hello" |}]
    /\ length (history_of "default" s') <> (2 * 1)%nat.
Proof.
  eexists. split; [vm_compute; reflexivity|].
  split; [vm_compute; reflexivity|]. vm_compute. discriminate.
Qed.

(** Two run phrases with the generation service down: four turns, a
    user turn and an acknowledgment for each; and one message for each of
    the four branches on the machine in working order: eight turns. *)
Lemma C7_witness :
  (exists s',
     process_messages offline_world
       [("run it", None); ("execute it", None)] "default" stored_state
     = Some s'
     /\ failed_calls offline_world
          [("run it", None); ("execute it", None)] "default" stored_state
        = 0%nat
     /\ history_of "default" s'
        = [ {| role := user; content := "run it" |};
            {| role := assistant;
               content := "Executing previously generated code." |};
            {| role := user; content := "execute it" |};
            {| role := assistant;
               content := "Executing previously generated code." |} ]
     /\ length (history_of "default" s') = 4%nat)
  /\ (exists s',
        process_messages demo_world four_messages "default" ready_state
        = Some s'
        /\ length (history_of "default" s') = 8%nat).
Proof.
  split.
  - destruct (process_messages offline_world
                [("run it", None); ("execute it", None)] "default"
                stored_state)
      as [s'|] eqn:Hrun; [|vm_compute in Hrun; discriminate].
    exists s'. split; [reflexivity|].
    assert (failed_calls offline_world
              [("run it", None); ("execute it", None)] "default"
              stored_state = 0%nat) as H0
      by (vm_compute; reflexivity).
    split; [exact H0|].
    destruct (C7_history_length offline_world _ "default" stored_state s'
                Hrun) as (Hturns & _ & _ & Hexact).
    split; [rewrite Hturns; vm_compute; reflexivity|].
    rewrite (Hexact H0). reflexivity.
  - destruct (process_messages demo_world four_messages "default"
                ready_state)
      as [s'|] eqn:Hrun; [|vm_compute in Hrun; discriminate].
    exists s'. split; [reflexivity|].
    destruct (C7_history_length demo_world _ "default" ready_state s' Hrun)
      as (_ & _ & _ & Hexact).
    rewrite Hexact; [reflexivity|vm_compute; reflexivity].
Defined.

(* ===================================================================== *)
(** * More on the execution engine *)
(* ===================================================================== *)

Section Observers.

Variable w : World.

(** [notify] seen through each field of the state. *)
Lemma trace_notify mgr m i s :
  trace (notify w mgr m i s) = trace s ++ notify_trace w mgr m i s.
Proof. by destruct (notify_frame w mgr m i s) as [ac ->]. Qed.

Lemma sessions_notify mgr m i s :
  sessions (notify w mgr m i s) = sessions s.
Proof. by destruct (notify_frame w mgr m i s) as [ac ->]. Qed.

Lemma gcc_available_notify mgr m i s :
  gcc_available (notify w mgr m i s) = gcc_available s.
Proof. by destruct (notify_frame w mgr m i s) as [ac ->]. Qed.

Lemma execution_results_notify mgr m i s :
  execution_results (notify w mgr m i s) = execution_results s.
Proof. by destruct (notify_frame w mgr m i s) as [ac ->]. Qed.

Lemma uuid_draws_notify mgr m i s :
  uuid_draws (notify w mgr m i s) = uuid_draws s.
Proof. by destruct (notify_frame w mgr m i s) as [ac ->]. Qed.

Lemma clock_reads_notify mgr m i s :
  clock_reads (notify w mgr m i s) = clock_reads s.
Proof. by destruct (notify_frame w mgr m i s) as [ac ->]. Qed.

Lemma mkdtemp_calls_notify mgr m i s :
  mkdtemp_calls (notify w mgr m i s) = mkdtemp_calls s.
Proof. by destruct (notify_frame w mgr m i s) as [ac ->]. Qed.

Lemma subscribers_notify mgr m i s :
  subscribers i (notify w mgr m i s)
  = if mgr then filter (delivers w) (subscribers i s) else subscribers i s.
Proof. destruct mgr; [apply subscribers_broadcast|done]. Qed.

Lemma subscribers_notify_other mgr m i j s :
  i <> j -> subscribers j (notify w mgr m i s) = subscribers j s.
Proof. destruct mgr; [apply subscribers_broadcast_other|done]. Qed.

Lemma os_effects_app (a b : list Effect) :
  filter is_os_effect (a ++ b)
  = filter is_os_effect a ++ filter is_os_effect b.
Proof. apply filter_app. Qed.

End Observers.

(** Push the observations through the steps of a state expression. *)
Ltac observe w :=
  unfold store_result, shutil_rmtree, log, read_time, draw_uuid4;
  repeat first
    [ rewrite (trace_notify w)
    | rewrite (sessions_notify w)
    | rewrite (gcc_available_notify w)
    | rewrite (execution_results_notify w)
    | rewrite (uuid_draws_notify w)
    | rewrite (clock_reads_notify w)
    | rewrite (mkdtemp_calls_notify w)
    | progress cbn [fst snd trace sessions gcc_available execution_results
                    active_connections uuid_draws clock_reads mkdtemp_calls
                    set_trace set_active_connections set_execution_results
                    set_uuid_draws set_clock_reads set_mkdtemp_calls
                    set_sessions negb] ].

(** Give [trace_since s _] as the list of what was appended. *)
Ltac settle_trace w s :=
  erewrite (trace_since_app s)
    by (observe w; rewrite <- ?app_assoc; reflexivity).

(** Run [execute_c_code] up to the first test that the hypotheses do not
    settle. *)
Ltac enter_execute w :=
  unfold execute_c_code, tempfile_mkdtemp, draw_uuid4, read_time;
  cbn [gcc_available set_clock_reads set_uuid_draws mkdtemp_calls
       clock_reads uuid_draws fst snd].

Section Engine.

Variable w : World.

(** The file and process effects of a list of notifications are none. *)
Lemma os_effects_after s s' d :
  trace s' = trace s ++ d ->
  filter is_os_effect (trace_since s s') = filter is_os_effect d.
Proof. intros H. by rewrite (trace_since_app _ _ _ H). Qed.

(** X1. A compilation that fails: the record carries the standard error and
    the exit code of the compiler and no output; the program is never
    started; the directory is made, used and removed. *)
Theorem compile_error_recorded code input_data execution_id mgr s dir
    elapsed out err rc :
  gcc_available s = true ->
  mkdtemp w (mkdtemp_calls s) = inr dir ->
  write_file w (os_path_join dir "program.c") code = None ->
  gcc w code = Exits elapsed out err rc ->
  rc <> 0 ->
  exists s',
    execute_c_code w code input_data execution_id mgr s
      = (Ret (id_of_call w execution_id s,
              {| output := ""; error := err; status_code := rc;
                 execution_time := measured w s |}), s')
    /\ filter is_os_effect (trace_since s s')
       = [ FsMkdtemp dir;
           FsWrite (os_path_join dir "program.c") code;
           Spawn ["gcc"; "-o"; os_path_join dir "program";
                  os_path_join dir "program.c"] None None;
           FsRmtree dir ].
Proof.
  intros Hgcc Hdir Hw Hc Hrc. apply Z.eqb_neq in Hrc.
  destruct execution_id as [i|]; cbn [id_of_call];
    enter_execute w; rewrite Hgcc, Hdir; cbn [negb];
    unfold try_body, write_text; rewrite Hw, Hc;
    cbn [subprocess_run returncode stderr stdout andb]; rewrite Hrc;
    cbn [negb]; observe w;
    (eexists; split; [reflexivity|]);
    settle_trace w s;
    rewrite !os_effects_app, !os_effects_notify; reflexivity.
Qed.

(** X2. The source file cannot be written: the outer handler turns the
    exception into the record, compiler and program are never started, the
    directory is removed, and with a manager the statuses are [starting],
    the error and [completed]. *)
Theorem source_write_failure_recorded code input_data execution_id s dir e :
  gcc_available s = true ->
  mkdtemp w (mkdtemp_calls s) = inr dir ->
  write_file w (os_path_join dir "program.c") code = Some e ->
  forall mgr, exists s',
    execute_c_code w code input_data execution_id mgr s
      = (Ret (id_of_call w execution_id s,
              {| output := "";
                 error := "Unexpected error: " +:+ exc_str e;
                 status_code := 1;
                 execution_time := measured w s |}), s')
    /\ filter is_os_effect (trace_since s s') = [FsMkdtemp dir; FsRmtree dir]
    /\ statuses_for (id_of_call w execution_id s) (trace_since s s')
       = (if mgr then [starting; error_status; completed] else []).
Proof.
  intros Hgcc Hdir Hw mgr.
  destruct execution_id as [i|]; cbn [id_of_call];
    enter_execute w; rewrite Hgcc, Hdir; cbn [negb];
    unfold try_body, write_text; rewrite Hw; observe w;
    (eexists; split; [reflexivity|]);
    settle_trace w s;
    (split;
     [ rewrite !os_effects_app, !os_effects_notify; reflexivity
     | rewrite !statuses_for_app, !statuses_for_notify;
       by destruct mgr ]).
Qed.

(** X3. The compiler cannot be started, gcc having gone since the probe: the
    same handler, after [starting] and [compiling]. *)
Theorem compiler_start_failure_recorded code input_data execution_id s dir e :
  gcc_available s = true ->
  mkdtemp w (mkdtemp_calls s) = inr dir ->
  write_file w (os_path_join dir "program.c") code = None ->
  gcc w code = Fails e ->
  forall mgr, exists s',
    execute_c_code w code input_data execution_id mgr s
      = (Ret (id_of_call w execution_id s,
              {| output := "";
                 error := "Unexpected error: " +:+ exc_str e;
                 status_code := 1;
                 execution_time := measured w s |}), s')
    /\ filter is_os_effect (trace_since s s')
       = [ FsMkdtemp dir;
           FsWrite (os_path_join dir "program.c") code;
           Spawn ["gcc"; "-o"; os_path_join dir "program";
                  os_path_join dir "program.c"] None None;
           FsRmtree dir ]
    /\ statuses_for (id_of_call w execution_id s) (trace_since s s')
       = (if mgr then [starting; compiling; error_status; completed]
          else []).
Proof.
  intros Hgcc Hdir Hw Hc mgr.
  destruct execution_id as [i|]; cbn [id_of_call];
    enter_execute w; rewrite Hgcc, Hdir; cbn [negb];
    unfold try_body, write_text; rewrite Hw, Hc;
    cbn [subprocess_run]; observe w;
    (eexists; split; [reflexivity|]);
    settle_trace w s;
    (split;
     [ rewrite !os_effects_app, !os_effects_notify; reflexivity
     | rewrite !statuses_for_app, !statuses_for_notify;
       by destruct mgr ]).
Qed.

Lemma run_step_eq code input_data temp_dir s :
  input_file_ok w temp_dir input_data ->
  run_step w code input_data temp_dir (os_path_join temp_dir "program") s
  = (subprocess_run (run_program w code (program_stdin input_data))
       (Some 10%Q) false,
     set_trace (trace s ++ run_effects temp_dir input_data) s).
Proof.
  unfold input_file_ok, run_step, run_effects, program_stdin, write_text.
  destruct (PyStr.truthy_opt input_data) eqn:Hin.
  - destruct input_data as [t|]; [|done]. intros ->.
    f_equal. state_eq s.
  - intros _. f_equal.
Qed.

Lemma os_effects_run_effects temp_dir input_data :
  filter is_os_effect (run_effects temp_dir input_data)
  = run_effects temp_dir input_data.
Proof. unfold run_effects. by destruct (program_stdin input_data). Qed.

Lemma statuses_for_run_effects j temp_dir input_data :
  statuses_for j (run_effects temp_dir input_data) = [].
Proof. unfold run_effects. by destruct (program_stdin input_data). Qed.

(** X4. A program that compiles is started once, under the timeout of 10
    seconds, whatever it does then; its standard input is the file
    [input.txt], written just before with the input, when the input is not
    empty, and is left alone when the input is [None] or empty.  The call
    returns, and the directory is removed last. *)
Theorem run_step_effects code input_data execution_id mgr s dir
    elapsed out err :
  gcc_available s = true ->
  mkdtemp w (mkdtemp_calls s) = inr dir ->
  write_file w (os_path_join dir "program.c") code = None ->
  gcc w code = Exits elapsed out err 0 ->
  input_file_ok w dir input_data ->
  exists record s',
    execute_c_code w code input_data execution_id mgr s
      = (Ret (id_of_call w execution_id s, record), s')
    /\ filter is_os_effect (trace_since s s')
       = [ FsMkdtemp dir;
           FsWrite (os_path_join dir "program.c") code;
           Spawn ["gcc"; "-o"; os_path_join dir "program";
                  os_path_join dir "program.c"] None None ]
         ++ run_effects dir input_data ++ [FsRmtree dir]
    /\ statuses_for (id_of_call w execution_id s) (trace_since s s')
       = (if mgr then [starting; compiling; running; completed] else []).
Proof.
  intros Hgcc Hdir Hw Hc Hin.
  pose proof (run_step_no_hang w code input_data dir
                (os_path_join dir "program")) as Hnh.
  destruct execution_id as [i|]; cbn [id_of_call];
    enter_execute w; rewrite Hgcc, Hdir; cbn [negb];
    unfold try_body, write_text; rewrite Hw, Hc;
    cbn [subprocess_run returncode stderr stdout andb Z.eqb negb];
    rewrite (run_step_eq _ _ _ _ Hin);
    setoid_rewrite (run_step_eq _ _ _ _ Hin) in Hnh; cbn [fst] in Hnh;
    (destruct (subprocess_run
                 (run_program w code (program_stdin input_data))
                 (Some 10%Q) false) as [rp|e|];
     [| |exfalso; by eapply (Hnh s)]);
    try destruct (is_TimeoutExpired e);
    observe w;
    (eexists _, _; split; [reflexivity|]);
    settle_trace w s;
    (split;
     [ rewrite !os_effects_app, !os_effects_notify,
         os_effects_run_effects; reflexivity
     | rewrite !statuses_for_app, !statuses_for_notify,
         statuses_for_run_effects; by destruct mgr ]).
Qed.

(** X5. The program cannot be started, or what it printed cannot be decoded:
    the inner handler records the exception as an execution error with
    status code 1; the manager is told [completed] and no error status. *)
Theorem run_failure_recorded code input_data execution_id mgr s dir
    elapsed out err e :
  gcc_available s = true ->
  mkdtemp w (mkdtemp_calls s) = inr dir ->
  write_file w (os_path_join dir "program.c") code = None ->
  gcc w code = Exits elapsed out err 0 ->
  input_file_ok w dir input_data ->
  run_program w code (program_stdin input_data) = Fails e ->
  is_TimeoutExpired e = false ->
  exists s',
    execute_c_code w code input_data execution_id mgr s
      = (Ret (id_of_call w execution_id s,
              {| output := "";
                 error := "Execution error: " +:+ exc_str e;
                 status_code := 1;
                 execution_time := measured w s |}), s')
    /\ statuses_for (id_of_call w execution_id s) (trace_since s s')
       = (if mgr then [starting; compiling; running; completed] else []).
Proof.
  intros Hgcc Hdir Hw Hc Hin Hr He.
  destruct execution_id as [i|]; cbn [id_of_call];
    enter_execute w; rewrite Hgcc, Hdir; cbn [negb];
    unfold try_body, write_text; rewrite Hw, Hc;
    cbn [subprocess_run returncode stderr stdout andb Z.eqb negb];
    rewrite (run_step_eq _ _ _ _ Hin), Hr; cbn [subprocess_run];
    rewrite He; observe w;
    (eexists; split; [reflexivity|]);
    settle_trace w s;
    rewrite !statuses_for_app, !statuses_for_notify,
      statuses_for_run_effects; by destruct mgr.
Qed.

(** X6. The input file cannot be written: the same inner handler, and the
    program is never started. *)
Theorem input_write_failure_recorded code t execution_id mgr s dir
    elapsed out err e :
  gcc_available s = true ->
  mkdtemp w (mkdtemp_calls s) = inr dir ->
  write_file w (os_path_join dir "program.c") code = None ->
  gcc w code = Exits elapsed out err 0 ->
  PyStr.truthy t = true ->
  write_file w (os_path_join dir "input.txt") t = Some e ->
  is_TimeoutExpired e = false ->
  exists s',
    execute_c_code w code (Some t) execution_id mgr s
      = (Ret (id_of_call w execution_id s,
              {| output := "";
                 error := "Execution error: " +:+ exc_str e;
                 status_code := 1;
                 execution_time := measured w s |}), s')
    /\ filter is_os_effect (trace_since s s')
       = [ FsMkdtemp dir;
           FsWrite (os_path_join dir "program.c") code;
           Spawn ["gcc"; "-o"; os_path_join dir "program";
                  os_path_join dir "program.c"] None None;
           FsRmtree dir ].
Proof.
  intros Hgcc Hdir Hw Hc Ht Hwin He.
  destruct execution_id as [i|]; cbn [id_of_call];
    enter_execute w; rewrite Hgcc, Hdir; cbn [negb];
    unfold try_body, run_step, write_text; rewrite Hw, Hc;
    cbn [subprocess_run returncode stderr stdout andb Z.eqb negb
         PyStr.truthy_opt];
    rewrite Ht, Hwin, He; observe w;
    (eexists; split; [reflexivity|]);
    settle_trace w s;
    rewrite !os_effects_app, !os_effects_notify; reflexivity.
Qed.

Lemma execution_results_prepared execution_id dir s :
  execution_results (prepared execution_id dir s) = execution_results s.
Proof. by destruct execution_id. Qed.

(** X7. Whenever [execute_c_code] returns from a machine with a compiler, the
    first thing it did to the file system was to make its directory and
    the last was to remove that directory: no path through the [try]
    leaves the workspace behind. *)
Theorem workspace_always_removed code input_data execution_id mgr s i
    record s' :
  gcc_available s = true ->
  execute_c_code w code input_data execution_id mgr s
    = (Ret (i, record), s') ->
  exists dir mid,
    mkdtemp w (mkdtemp_calls s) = inr dir
    /\ filter is_os_effect (trace_since s s')
       = FsMkdtemp dir :: mid ++ [FsRmtree dir].
Proof.
  intros Hgcc Hexec.
  destruct (mkdtemp w (mkdtemp_calls s)) as [e|dir] eqn:Hdir.
  { destruct (execute_mkdtemp_raises w code input_data execution_id mgr s e
                Hgcc Hdir) as (s1 & H1 & _). congruence. }
  destruct (try_body_frame w code input_data (id_of_call w execution_id s)
              mgr dir blank_record (prepared execution_id dir s))
    as (db & Hio & _).
  destruct (try_body w code input_data (id_of_call w execution_id s) mgr
              dir blank_record (prepared execution_id dir s))
    as [[exit result] s2] eqn:Hbody.
  cbn [snd] in Hio.
  assert (exit = Hang \/ exit <> Hang) as [->|Hexit]
    by (destruct exit; auto).
  - rewrite (execute_hangs w _ _ _ _ _ _ _ _ Hgcc Hdir Hbody) in Hexec.
    done.
  - destruct (execute_available w _ _ _ _ _ _ _ _ _ Hgcc Hdir Hbody Hexit)
      as (s1 & d & H1 & _ & _ & _ & _ & Htr & _ & Hos & _).
    rewrite H1 in Hexec. injection Hexec as _ _ <-.
    exists dir, (filter is_os_effect db). split; [done|].
    rewrite (trace_since_call _ _ _ _ _ _ _ Hio Htr).
    rewrite !os_effects_app, Hos. reflexivity.
Qed.

(** X8. [execute_c_code] writes [execution_results] at its own id only: the
    records stored under every other id are as before, however the call
    ends. *)
Theorem other_results_kept code input_data execution_id mgr s j :
  j <> id_of_call w execution_id s ->
  execution_results
    (snd (execute_c_code w code input_data execution_id mgr s)) !! j
  = execution_results s !! j.
Proof.
  intros Hj.
  destruct (gcc_available s) eqn:Hgcc.
  2: { destruct (execute_unavailable w code input_data execution_id mgr s
                   Hgcc) as (s' & d & Hex & _ & _ & Hres & _).
       rewrite Hex. cbn [snd]. by rewrite Hres, lookup_insert_ne. }
  destruct (mkdtemp w (mkdtemp_calls s)) as [e|dir] eqn:Hdir.
  { destruct (execute_mkdtemp_raises w code input_data execution_id mgr s e
                Hgcc Hdir) as (s' & Hex & _ & _ & Hres & _).
    rewrite Hex. cbn [snd]. by rewrite Hres. }
  destruct (try_body_frame w code input_data (id_of_call w execution_id s)
              mgr dir blank_record (prepared execution_id dir s))
    as (db & Hio & _).
  destruct (try_body w code input_data (id_of_call w execution_id s) mgr
              dir blank_record (prepared execution_id dir s))
    as [[exit result] s2] eqn:Hbody.
  cbn [snd] in Hio.
  apply io_only_fields in Hio as (_ & _ & Hres & _).
  rewrite execution_results_prepared in Hres.
  assert (exit = Hang \/ exit <> Hang) as [->|Hexit]
    by (destruct exit; auto).
  - rewrite (execute_hangs w _ _ _ _ _ _ _ _ Hgcc Hdir Hbody).
    cbn [snd]. by rewrite Hres.
  - destruct (execute_available w _ _ _ _ _ _ _ _ _ Hgcc Hdir Hbody Hexit)
      as (s1 & d & Hex & Hres1 & _).
    rewrite Hex. cbn [snd]. by rewrite Hres1, lookup_insert_ne, Hres.
Qed.

(** X9. [__init__] by the answer of [gcc --version]: exit code 0 makes the
    compiler available; a nonzero exit code, which [check=True] turns into
    [CalledProcessError], or a missing executable make it unavailable; any
    other exception leaves the constructor.  The executor starts with no
    stored record. *)
Theorem probe_decides_availability :
  (forall elapsed out err,
     gcc_version w = Exits elapsed out err 0 ->
     exists s, CodeExecutor_init w = Ret s /\ gcc_available s = true
               /\ execution_results s = ∅)
  /\ (forall elapsed out err rc,
        gcc_version w = Exits elapsed out err rc -> rc <> 0 ->
        exists s, CodeExecutor_init w = Ret s /\ gcc_available s = false
                  /\ execution_results s = ∅)
  /\ (forall e,
        gcc_version w = Fails e ->
        is_SubprocessError e || is_FileNotFoundError e = true ->
        exists s, CodeExecutor_init w = Ret s /\ gcc_available s = false
                  /\ execution_results s = ∅)
  /\ (forall e,
        gcc_version w = Fails e ->
        is_SubprocessError e || is_FileNotFoundError e = false ->
        CodeExecutor_init w = Raise e).
Proof.
  unfold CodeExecutor_init. repeat split.
  - intros elapsed out err ->. cbn. eauto.
  - intros elapsed out err rc -> Hrc. apply Z.eqb_neq in Hrc.
    cbn [subprocess_run andb]. rewrite Hrc. cbn. eauto.
  - intros e -> He. cbn [subprocess_run]. rewrite He. eauto.
  - intros e -> He. cbn [subprocess_run]. by rewrite He.
Qed.

End Engine.

(* ===================================================================== *)
(** * The steps of an execution and the manager *)
(* ===================================================================== *)

Ltac steps_done :=
  repeat first
    [ apply rtc_refl
    | eassumption
    | eapply rtc_r; [|first [ apply step_notify
                            | apply step_store
                            | apply step_uuid
                            | apply step_clock
                            | apply step_mkdtemp
                            | apply step_log; reflexivity ]] ].

Section Steps.

Variable w : World.

Lemma run_step_steps i mgr code input_data temp_dir exe s :
  rtc (engine_step w i mgr) s
    (snd (run_step w code input_data temp_dir exe s)).
Proof.
  unfold run_step, write_text.
  destruct (PyStr.truthy_opt input_data).
  - destruct (write_file w _ _); cbn [snd]; steps_done.
  - cbn [snd]. steps_done.
Qed.

Lemma try_body_steps code input_data i mgr temp_dir result s :
  rtc (engine_step w i mgr) s
    (snd (try_body w code input_data i mgr temp_dir result s)).
Proof.
  unfold try_body, write_text.
  destruct (write_file w _ code); cbn [snd]; [steps_done|].
  destruct (subprocess_run (gcc w code) None false) as [cp|e|];
    cbn [snd]; [|steps_done|steps_done].
  destruct (negb (returncode cp =? 0)); cbn [snd]; [steps_done|].
  match goal with
  | |- context [run_step w code input_data temp_dir ?exe ?st] =>
      pose proof (run_step_steps i mgr code input_data temp_dir exe st)
        as Hrun;
      destruct (run_step w code input_data temp_dir exe st) as [o sr]
  end.
  cbn [snd] in Hrun.
  assert (rtc (engine_step w i mgr) s sr) as Hs.
  { etrans; [|exact Hrun]. steps_done. }
  destruct o as [rp|e|]; [| |done]; [done|].
  by destruct (is_TimeoutExpired e).
Qed.

Lemma execute_steps code input_data execution_id mgr s :
  rtc (engine_step w (id_of_call w execution_id s) mgr) s
    (snd (execute_c_code w code input_data execution_id mgr s)).
Proof.
  unfold execute_c_code, tempfile_mkdtemp, draw_uuid4, read_time,
    shutil_rmtree.
  destruct execution_id as [i|]; cbn [id_of_call];
    cbn [gcc_available set_clock_reads set_uuid_draws mkdtemp_calls
         clock_reads uuid_draws fst snd].
  all: destruct (gcc_available s); cbn [negb snd]; [|steps_done].
  all: destruct (mkdtemp w (mkdtemp_calls s)) as [e|dir]; cbn [snd];
    [steps_done|].
  all: match goal with
    | |- context [try_body w ?c ?inp ?i ?m ?d ?r ?st] =>
        pose proof (try_body_steps c inp i m d r st) as Hb;
        destruct (try_body w c inp i m d r st) as [[exit result] s2]
    end; cbn [snd] in Hb.
  all: assert (rtc (engine_step w _ mgr) s s2) as Hs
    by (etrans; [|exact Hb]; steps_done).
  all: destruct exit as [[]|e|]; cbn [snd]; steps_done.
Qed.

Lemma broadcasts_for_app i tr1 tr2 :
  broadcasts_for i (tr1 ++ tr2) = broadcasts_for i tr1 ++ broadcasts_for i tr2.
Proof.
  induction tr1 as [|e tr1 IH]; simpl; [done|].
  destruct e; auto. destruct (String.eqb _ _); simpl; by rewrite IH.
Qed.

Lemma received_app ws tr1 tr2 :
  received ws (tr1 ++ tr2) = received ws tr1 ++ received ws tr2.
Proof.
  induction tr1 as [|e tr1 IH]; simpl; [done|].
  destruct e; auto. destruct (Nat.eqb _ _); simpl; by rewrite IH.
Qed.

Lemma statuses_of_broadcasts i tr :
  map message_status (broadcasts_for i tr) = statuses_for i tr.
Proof.
  induction tr as [|e tr IH]; simpl; [done|].
  destruct e; auto. destruct (String.eqb _ _); simpl; by rewrite IH.
Qed.

(** A channel that occurs once in a list receives one copy. *)
Lemma received_sends ws m cs :
  NoDup cs -> In ws cs ->
  received ws (map (fun c => SendText c m) cs) = [m].
Proof.
  induction cs as [|c cs IH]; intros Hnd Hin; [done|].
  apply NoDup_cons in Hnd as [Hc Hnd]. simpl.
  destruct (Nat.eqb c ws) eqn:Hcw.
  - apply Nat.eqb_eq in Hcw. subst c. f_equal.
    clear IH Hnd Hin. induction cs as [|c cs IH]; [done|].
    simpl. destruct (Nat.eqb c ws) eqn:Hcw.
    + apply Nat.eqb_eq in Hcw. subst c. exfalso. apply Hc. by left.
    + apply IH. intros H. apply Hc. by right.
  - apply Nat.eqb_neq in Hcw. destruct Hin as [->|Hin]; [done|]. by apply IH.
Qed.

Lemma tuned_in_filter ws (cs : list WebSocket) :
  NoDup cs -> In ws cs -> delivers w ws = true ->
  NoDup (filter (delivers w) cs) /\ In ws (filter (delivers w) cs).
Proof.
  intros Hnd Hin Hd. split; [by apply NoDup_filter|].
  apply list_elem_of_In, list_elem_of_filter. split; [by rewrite Hd|].
  by apply list_elem_of_In.
Qed.

(** What a notification is for a channel that is tuned in. *)
Lemma notify_tuned_in ws i mgr m s :
  tuned_in w ws i s ->
  tuned_in w ws i (notify w mgr m i s)
  /\ received ws (notify_trace w mgr m i s)
     = broadcasts_for i (notify_trace w mgr m i s).
Proof.
  intros (Hnd & Hin & Hd).
  destruct (tuned_in_filter ws _ Hnd Hin Hd) as [Hnd' Hin'].
  split.
  - unfold tuned_in. rewrite subscribers_notify. by destruct mgr.
  - unfold notify_trace. destruct mgr; [|done]. simpl.
    rewrite String.eqb_refl, received_sends by done. f_equal.
    clear. induction (filter (delivers w) (subscribers i s)); simpl; auto.
Qed.

(** Through the steps of an execution a channel that is tuned in stays so
    and receives what is broadcast, as it is broadcast. *)
Lemma steps_relay ws i mgr s s' :
  tuned_in w ws i s ->
  rtc (engine_step w i mgr) s s' ->
  tuned_in w ws i s'
  /\ exists d, trace s' = trace s ++ d
             /\ received ws d = broadcasts_for i d.
Proof.
  intros Hin Hsteps. revert s' Hsteps.
  apply rtc_ind_r; [|intros s1 s2 _ Hstep IH].
  { split; [done|]. exists []. by rewrite app_nil_r. }
  destruct IH as (Hin1 & d & Htr & Hrel).
  destruct Hstep as [m|e He|r|n|n|n].
  - destruct (notify_tuned_in ws i mgr m s1 Hin1) as [Hin2 Hm].
    split; [done|]. exists (d ++ notify_trace w mgr m i s1).
    rewrite trace_notify, Htr, <- app_assoc. split; [done|].
    by rewrite received_app, broadcasts_for_app, Hrel, Hm.
  - split; [done|]. exists (d ++ [e]). cbn [log trace set_trace].
    rewrite Htr, <- app_assoc. split; [done|].
    rewrite received_app, broadcasts_for_app, Hrel.
    by destruct e.
  - split; [done|]. by exists d.
  - split; [done|]. by exists d.
  - split; [done|]. by exists d.
  - split; [done|]. by exists d.
Qed.

(** The steps of an execution leave alone the sessions, the compiler flag,
    the records and the channels of the other ids; without manager they
    leave all channels alone. *)
Lemma steps_frame i mgr s s' :
  rtc (engine_step w i mgr) s s' ->
  sessions s' = sessions s
  /\ gcc_available s' = gcc_available s
  /\ (forall j, i <> j -> execution_results s' !! j = execution_results s !! j)
  /\ (forall j, i <> j -> subscribers j s' = subscribers j s)
  /\ (mgr = false -> active_connections s' = active_connections s).
Proof.
  intros Hsteps. revert s' Hsteps.
  apply rtc_ind_r; [|intros s1 s2 _ Hstep IH].
  { done. }
  destruct IH as (Hs & Hg & Hr & Hsub & Hac).
  destruct Hstep as [m|e He|r|n|n|n]; try done.
  - rewrite sessions_notify, gcc_available_notify, execution_results_notify.
    split; [done|]. split; [done|]. split; [done|].
    split.
    + intros j Hj. rewrite subscribers_notify_other by done. by apply Hsub.
    + intros ->. by rewrite <- Hac.
  - split; [done|]. split; [done|]. split; [|done].
    intros j Hj. cbn [store_result execution_results set_execution_results].
    rewrite lookup_insert_ne by done. by apply Hr.
Qed.

(** The steps of an execution register nobody, and keep the channels that
    deliver. *)
Lemma steps_subscribers i mgr s s' :
  rtc (engine_step w i mgr) s s' ->
  filter (delivers w) (subscribers i s') = filter (delivers w) (subscribers i s)
  /\ (subscribers i s' = subscribers i s
      \/ subscribers i s' = filter (delivers w) (subscribers i s)).
Proof.
  intros Hsteps. revert s' Hsteps.
  apply rtc_ind_r; [|intros s1 s2 _ Hstep IH].
  { auto. }
  destruct IH as (Hf & Hsub).
  destruct Hstep as [m|e He|r|n|n|n]; try done.
  rewrite subscribers_notify. destruct mgr; [|done].
  split.
  - by rewrite list_filter_filter_l, Hf by done.
  - right. destruct Hsub as [-> | ->]; [done|].
    by rewrite list_filter_filter_l.
Qed.

(** What one notification hands to the broadcaster for the id. *)
Lemma broadcasts_for_notify mgr m i s :
  broadcasts_for i (notify_trace w mgr m i s) = if mgr then [m] else [].
Proof.
  unfold notify_trace. destruct mgr; [|done].
  cbn [broadcasts_for]. rewrite String.eqb_refl. f_equal.
  induction (filter (delivers w) (subscribers i s)); simpl; auto.
Qed.

(** Through the steps of an execution the channels of its id are as they
    were as long as nothing is broadcast, and from the first broadcast on
    they are those of the start on which a send goes through. *)
Lemma steps_drop i mgr s s' :
  rtc (engine_step w i mgr) s s' ->
  exists d,
    trace s' = trace s ++ d
    /\ subscribers i s'
       = match broadcasts_for i d with
         | [] => subscribers i s
         | _ :: _ => filter (delivers w) (subscribers i s)
         end.
Proof.
  intros Hsteps. revert s' Hsteps.
  apply rtc_ind_r; [|intros s1 s2 _ Hstep IH].
  { exists []. by rewrite app_nil_r. }
  destruct IH as (d & Htr & Hsub).
  destruct Hstep as [m|e He|r|n|n|n]; try by exists d.
  - exists (d ++ notify_trace w mgr m i s1).
    rewrite trace_notify, Htr, <- app_assoc. split; [done|].
    rewrite subscribers_notify, broadcasts_for_app, broadcasts_for_notify.
    destruct mgr; [|by rewrite app_nil_r].
    rewrite Hsub.
    destruct (broadcasts_for i d) as [|m0 ms]; cbn [app]; [done|].
    by rewrite list_filter_filter_l.
  - exists (d ++ [e]). cbn [log trace set_trace].
    rewrite Htr, <- app_assoc. split; [done|].
    rewrite broadcasts_for_app.
    replace (broadcasts_for i [e]) with (@nil Message) by (by destruct e).
    by rewrite app_nil_r.
Qed.

End Steps.

Section ManagerMore.

Variable w : World.

Lemma no_empty_disconnect ws i s :
  no_empty_lists s -> no_empty_lists (disconnect ws i s).
Proof.
  intros Hne. unfold disconnect.
  destruct (active_connections s !! i) as [conns|] eqn:Hi; [|done].
  destruct (if ws_in ws conns then list_remove ws conns else conns)
    as [|c cs] eqn:Hnew; intros j l; cbn [active_connections
      set_active_connections].
  - intros Hj. apply lookup_delete_Some in Hj as [_ Hj]. by eapply Hne.
  - destruct (decide (i = j)) as [->|Hij].
    + rewrite lookup_insert_eq. by intros [= <-].
    + rewrite lookup_insert_ne by done. apply Hne.
Qed.

Lemma no_empty_disconnect_all i ds s :
  no_empty_lists s -> no_empty_lists (disconnect_all i ds s).
Proof.
  revert s. induction ds as [|d ds IH]; intros s Hne; [done|].
  unfold disconnect_all in *. simpl. by apply IH, no_empty_disconnect.
Qed.

Lemma no_empty_broadcast m i s :
  no_empty_lists s -> no_empty_lists (broadcast w m i s).
Proof.
  intros Hne. rewrite broadcast_unfold. by apply no_empty_disconnect_all.
Qed.

Lemma no_empty_connect ws i s :
  no_empty_lists s -> no_empty_lists (snd (connect w ws i s)).
Proof.
  intros Hne. unfold connect.
  destruct (accept_raises w ws); [done|]. cbn [snd].
  intros j l. cbn [active_connections set_active_connections log set_trace].
  destruct (decide (i = j)) as [->|Hij].
  - rewrite lookup_insert_eq. intros [= <-]. by destruct (_ !! j) as [[|]|].
  - rewrite lookup_insert_ne by done. apply Hne.
Qed.

Lemma no_empty_steps i mgr s s' :
  rtc (engine_step w i mgr) s s' -> no_empty_lists s -> no_empty_lists s'.
Proof.
  intros Hsteps Hne. revert s' Hsteps.
  apply rtc_ind_r; [done|intros s1 s2 _ Hstep IH].
  destruct Hstep as [m|e He|r|n|n|n]; try done.
  unfold notify. destruct mgr; [by apply no_empty_broadcast|done].
Qed.

(** X10. No operation of the manager, no subscription and no execution ever
    leaves an id bound to an empty list of channels. *)
Theorem no_empty_subscriber_list s :
  no_empty_lists s ->
  (forall ws i, no_empty_lists (snd (connect w ws i s)))
  /\ (forall ws i, no_empty_lists (disconnect ws i s))
  /\ (forall m i, no_empty_lists (broadcast w m i s))
  /\ (forall ws i, no_empty_lists (snd (websocket_endpoint w ws i s)))
  /\ (forall code input_data execution_id mgr,
        no_empty_lists
          (snd (execute_c_code w code input_data execution_id mgr s))).
Proof.
  intros Hne.
  split; [intros; by apply no_empty_connect|].
  split; [intros; by apply no_empty_disconnect|].
  split; [intros; by apply no_empty_broadcast|].
  split.
  - intros ws i. unfold websocket_endpoint.
    pose proof (no_empty_connect ws i s Hne) as Hc.
    destruct (connect w ws i s) as [[[]|e|] s1]; cbn [snd] in *; try done.
    destruct (execution_results s1 !! i); [|done].
    unfold send_text. destruct (send_text_raises w ws); cbn [snd].
    + by apply no_empty_disconnect.
    + done.
  - intros. eapply no_empty_steps; [apply execute_steps|done].
Qed.

(** Subscribing and then leaving, on the registrations. *)
Lemma connect_then_disconnect ws i s s1 :
  no_empty_lists s ->
  ~ In ws (subscribers i s) ->
  connect w ws i s = (Ret tt, s1) ->
  subscribers i s1 = subscribers i s ++ [ws]
  /\ active_connections (disconnect ws i s1) = active_connections s.
Proof.
  intros Hne Hfresh Hc. unfold connect in Hc.
  destruct (accept_raises w ws); [done|]. injection Hc as <-.
  assert (forall l, ~ In ws l -> ws_in ws (l ++ [ws]) = true
                     /\ list_remove ws (l ++ [ws]) = l) as Hrm.
  { induction l as [|c l IH]; intros Hl; simpl.
    - by rewrite Nat.eqb_refl.
    - destruct (Nat.eqb ws c) eqn:Hwc.
      + apply Nat.eqb_eq in Hwc. subst c. exfalso. apply Hl. by left.
      + destruct IH as [-> ->]; [|done]. intros H. apply Hl. by right. }
  unfold subscribers in *. unfold disconnect.
  cbn [active_connections set_active_connections log set_trace].
  rewrite !lookup_insert_eq.
  destruct (active_connections s !! i) as [conns|] eqn:Hi.
  - destruct (Hrm conns Hfresh) as [-> ->]. split; [done|].
    destruct conns as [|c cs]; [by eapply Hne in Hi|].
    cbn [active_connections set_active_connections].
    by rewrite insert_insert_eq, insert_id.
  - destruct (Hrm [] Hfresh) as [-> ->]. split; [done|].
    cbn [active_connections set_active_connections].
    by rewrite delete_insert_eq, delete_id.
Qed.

(** X11. A channel that subscribes and leaves: the registrations are as they
    were before, entry for entry. *)
Theorem connect_disconnect_round_trip ws i s s1 :
  no_empty_lists s ->
  ~ In ws (subscribers i s) ->
  connect w ws i s = (Ret tt, s1) ->
  subscribers i s1 = subscribers i s ++ [ws]
  /\ active_connections (disconnect ws i s1) = active_connections s.
Proof. apply connect_then_disconnect. Qed.

End ManagerMore.

Section Relay.

Variable w : World.

Lemma execute_final_state code input_data execution_id mgr s dir
    exit result s2 :
  gcc_available s = true ->
  mkdtemp w (mkdtemp_calls s) = inr dir ->
  try_body w code input_data (id_of_call w execution_id s) mgr dir
    blank_record (prepared execution_id dir s) = (exit, result, s2) ->
  exit <> Hang ->
  let i := id_of_call w execution_id s in
  let record :=
    set_execution_time (measured w s) (after_handler exit result) in
  let s3 := handled w mgr i exit s2 in
  execute_c_code w code input_data execution_id mgr s
  = (Ret (i, record),
     notify w mgr (MsgResult record) i
       (store_result i record
          (set_clock_reads (S (clock_reads s3)) (log (FsRmtree dir) s3)))).
Proof.
  intros Hgcc Hdir Hbody Hexit i record s3.
  destruct (try_body_frame w code input_data (id_of_call w execution_id s)
              mgr dir blank_record (prepared execution_id dir s))
    as (db & Hio & _).
  rewrite Hbody in Hio. cbn [snd] in Hio.
  apply io_only_fields in Hio as (_ & _ & _ & _ & Hclock & _).
  assert (clock_reads s3 = S (clock_reads s)) as Hclock'.
  { unfold s3, handled. destruct exit; rewrite ?clock_reads_notify, Hclock;
      by destruct execution_id. }
  clear Hclock. subst i record.
  unfold execute_c_code, tempfile_mkdtemp, draw_uuid4, read_time, measured.
  unfold prepared, blank_record in Hbody.
  rewrite <- Hclock'. unfold s3, handled.
  destruct execution_id as [i|]; cbn [id_of_call] in *;
    cbn [gcc_available set_clock_reads set_uuid_draws mkdtemp_calls
         clock_reads uuid_draws];
    rewrite Hgcc, Hdir; cbn [negb]; rewrite Hbody;
    (destruct exit as [[]|e|]; [| |done]); reflexivity.
Qed.

(** X12. Whatever becomes of an execution, a channel that is tuned in to its id
    receives each message handed to the broadcaster for that id, once and
    in the order of the broadcasts, and is still tuned in afterwards. *)
Theorem subscriber_receives_every_event code input_data execution_id mgr s
    ws :
  tuned_in w ws (id_of_call w execution_id s) s ->
  let s' := snd (execute_c_code w code input_data execution_id mgr s) in
  received ws (trace_since s s')
  = broadcasts_for (id_of_call w execution_id s) (trace_since s s')
  /\ map message_status (received ws (trace_since s s'))
     = statuses_for (id_of_call w execution_id s) (trace_since s s')
  /\ tuned_in w ws (id_of_call w execution_id s) s'.
Proof.
  intros Hin s'.
  destruct (steps_relay w ws _ mgr s s' Hin
              (execute_steps w code input_data execution_id mgr s))
    as (Hin' & d & Htr & Hrel).
  rewrite (trace_since_app _ _ _ Htr).
  split; [done|]. split; [|done].
  by rewrite Hrel, statuses_of_broadcasts.
Qed.

(** X13. With a compiler and the manager, the last message that a tuned-in
    channel receives from a call that returns is the [completed] message,
    and the record it carries is the record returned and stored. *)
Theorem subscriber_gets_the_record code input_data execution_id s ws i
    record s' :
  tuned_in w ws (id_of_call w execution_id s) s ->
  gcc_available s = true ->
  execute_c_code w code input_data execution_id true s
    = (Ret (i, record), s') ->
  exists earlier,
    received ws (trace_since s s') = earlier ++ [MsgResult record]
    /\ get_execution_results i s' = Some record.
Proof.
  intros Hin Hgcc Hexec.
  destruct (mkdtemp w (mkdtemp_calls s)) as [e|dir] eqn:Hdir.
  { destruct (execute_mkdtemp_raises w code input_data execution_id true s e
                Hgcc Hdir) as (s1 & H1 & _). congruence. }
  pose proof (try_body_steps w code input_data (id_of_call w execution_id s)
                true dir blank_record (prepared execution_id dir s)) as Hb.
  destruct (try_body w code input_data (id_of_call w execution_id s) true
              dir blank_record (prepared execution_id dir s))
    as [[exit result] s2] eqn:Hbody.
  cbn [snd] in Hb.
  assert (exit = Hang \/ exit <> Hang) as [->|Hexit]
    by (destruct exit; auto).
  { rewrite (execute_hangs w _ _ _ _ _ _ _ _ Hgcc Hdir Hbody) in Hexec.
    done. }
  rewrite (execute_final_state _ _ _ _ _ _ _ _ _ Hgcc Hdir Hbody Hexit)
    in Hexec.
  injection Hexec as <- <- <-.
  set (i := id_of_call w execution_id s) in *.
  set (record :=
         set_execution_time (measured w s) (after_handler exit result)).
  set (before :=
         store_result i record
           (set_clock_reads (S (clock_reads (handled w true i exit s2)))
              (log (FsRmtree dir) (handled w true i exit s2)))).
  assert (rtc (engine_step w i true) s before) as Hsteps.
  { assert (rtc (engine_step w i true) s s2) as Hs2.
    { etrans; [|exact Hb]. unfold prepared.
      destruct execution_id; steps_done. }
    unfold before, handled. destruct exit; steps_done. }
  destruct (steps_relay w ws i true s before Hin Hsteps)
    as (Hin' & d & Htr & Hrel).
  destruct (notify_tuned_in w ws i true (MsgResult record) before Hin')
    as [_ Hlast].
  change (broadcast w (MsgResult record) i before)
    with (notify w true (MsgResult record) i before).
  exists (received ws d). split.
  - rewrite (trace_since_app s
               (notify w true (MsgResult record) i before)
               (d ++ notify_trace w true (MsgResult record) i before))
      by (by rewrite trace_notify, Htr, <- app_assoc).
    rewrite received_app, Hlast. unfold notify_trace. simpl.
    rewrite String.eqb_refl. f_equal. f_equal.
    clear. induction (filter (delivers w) (subscribers i before)); auto.
  - unfold get_execution_results.
    rewrite execution_results_notify. unfold before.
    cbn [store_result execution_results set_execution_results].
    apply lookup_insert_eq.
Qed.

End Relay.

Section Subscriptions.

Variable w : World.

Lemma ws_in_In ws conns : ws_in ws conns = true <-> In ws conns.
Proof.
  unfold ws_in. rewrite existsb_exists. split.
  - intros (c & Hc & Heq). apply Nat.eqb_eq in Heq. by subst c.
  - intros Hin. exists ws. by rewrite Nat.eqb_refl.
Qed.

(** Disconnecting a channel that is not registered under the id changes
    nothing. *)
Lemma disconnect_stranger ws i s :
  no_empty_lists s ->
  ~ In ws (subscribers i s) ->
  disconnect ws i s = s.
Proof.
  intros Hne Hfresh. unfold disconnect, subscribers in *.
  destruct (active_connections s !! i) as [conns|] eqn:Hi; [|done].
  destruct (ws_in ws conns) eqn:Hin.
  { by apply ws_in_In in Hin. }
  destruct conns as [|c cs]; [by eapply Hne in Hi|].
  rewrite insert_id by done. by destruct s.
Qed.

(** X14. The three ways in which a subscription can go otherwise than with a
    replay: the handshake fails and the endpoint raises with nothing
    changed; there is no record yet and the channel is registered without
    being sent anything; the replay cannot be sent and the channel is taken
    off again, the registrations being as before. *)
Theorem subscription_outcomes ws i s :
  (forall e, accept_raises w ws = Some e ->
     websocket_endpoint w ws i s = (Raise e, s))
  /\ (accept_raises w ws = None ->
      execution_results s !! i = None ->
      exists s',
        websocket_endpoint w ws i s = (Ret Listening, s')
        /\ trace_since s s' = [Accepted ws]
        /\ subscribers i s' = subscribers i s ++ [ws])
  /\ (forall record e,
        accept_raises w ws = None ->
        execution_results s !! i = Some record ->
        send_text_raises w ws = Some e ->
        no_empty_lists s ->
        ~ In ws (subscribers i s) ->
        exists s',
          websocket_endpoint w ws i s = (Ret Closed, s')
          /\ active_connections s' = active_connections s
          /\ received ws (trace_since s s') = []).
Proof.
  split; [|split].
  - intros e Ha. unfold websocket_endpoint, connect. by rewrite Ha.
  - intros Ha Hnone. unfold websocket_endpoint.
    destruct (connect_registers_last w ws i s Ha)
      as (s1 & -> & Hsub & Htr & Hr).
    rewrite Hr, Hnone. exists s1. split; [done|].
    by rewrite (trace_since_app _ _ _ Htr).
  - intros record e Ha Hrec Hsend Hne Hfresh. unfold websocket_endpoint.
    destruct (connect_registers_last w ws i s Ha)
      as (s1 & Hc & Hsub & Htr & Hr).
    rewrite Hc, Hr, Hrec. unfold send_text. rewrite Hsend.
    destruct (connect_then_disconnect w ws i s s1 Hne Hfresh Hc)
      as [_ Hac].
    eexists. split; [reflexivity|]. split; [done|].
    destruct (disconnect_frame ws i s1) as [ac ->].
    rewrite (trace_since_app s _ [Accepted ws]) by done.
    done.
Qed.

(** A call with the manager that returns has broadcast something. *)
Lemma returns_broadcasts code input_data execution_id s :
  returns (fst (execute_c_code w code input_data execution_id true s))
    = true ->
  statuses_for (id_of_call w execution_id s)
    (trace_since s
       (snd (execute_c_code w code input_data execution_id true s)))
  <> [].
Proof.
  intros Hret.
  destruct (gcc_available s) eqn:Hgcc.
  2: { destruct (execute_unavailable w code input_data execution_id true s
                   Hgcc) as (s' & d & Hex & _ & _ & _ & _ & Htr & Hd & _).
       rewrite Hex. cbn [snd]. rewrite (trace_since_app _ _ _ Htr).
       destruct Hd as [-> _]. done. }
  destruct (mkdtemp w (mkdtemp_calls s)) as [e|dir] eqn:Hdir.
  { destruct (execute_mkdtemp_raises w code input_data execution_id true s e
                Hgcc Hdir) as (s' & Hex & _).
    by rewrite Hex in Hret. }
  destruct (try_body_frame w code input_data (id_of_call w execution_id s)
              true dir blank_record (prepared execution_id dir s))
    as (db & Hio & _).
  destruct (try_body w code input_data (id_of_call w execution_id s) true
              dir blank_record (prepared execution_id dir s))
    as [[exit result] s2] eqn:Hbody.
  cbn [snd] in Hio.
  assert (exit = Hang \/ exit <> Hang) as [->|Hexit]
    by (destruct exit; auto).
  { by rewrite (execute_hangs w _ _ _ _ _ _ _ _ Hgcc Hdir Hbody) in Hret. }
  destruct (execute_available w _ _ _ _ _ _ _ _ _ Hgcc Hdir Hbody Hexit)
    as (s' & d & Hex & _ & _ & _ & _ & Htr & Hd & _).
  rewrite Hex. cbn [snd].
  rewrite (trace_since_call _ _ _ _ _ _ _ Hio Htr).
  rewrite !statuses_for_app, Hd.
  intros H. apply app_eq_nil in H as [_ H]. apply app_eq_nil in H as [_ H].
  by destruct exit.
Qed.

(** X15. An execution and the registrations: the channels of the other
    ids are never touched; without manager none is; under its own id the
    channels stay as they were as long as nothing is broadcast, and once
    something is broadcast they are those of the start on which a send
    goes through, in their order: nobody is added, and the channels on
    which a send fails, and only those, are dropped.  A call with the
    manager that returns has broadcast something. *)
Theorem execution_and_subscribers code input_data execution_id mgr s :
  let i := id_of_call w execution_id s in
  let r := execute_c_code w code input_data execution_id mgr s in
  (forall j, i <> j -> subscribers j (snd r) = subscribers j s)
  /\ (mgr = false -> active_connections (snd r) = active_connections s)
  /\ (broadcasts_for i (trace_since s (snd r)) = [] ->
      subscribers i (snd r) = subscribers i s)
  /\ (broadcasts_for i (trace_since s (snd r)) <> [] ->
      subscribers i (snd r) = filter (delivers w) (subscribers i s))
  /\ (mgr = true -> returns (fst r) = true ->
      subscribers i (snd r) = filter (delivers w) (subscribers i s)).
Proof.
  intros i r.
  pose proof (execute_steps w code input_data execution_id mgr s) as Hsteps.
  destruct (steps_frame w _ _ _ _ Hsteps) as (_ & _ & _ & Hsub & Hac).
  destruct (steps_drop w _ _ _ _ Hsteps) as (d & Htr & Hdrop).
  fold i r in Htr, Hdrop.
  rewrite (trace_since_app _ _ _ Htr).
  split; [exact Hsub|]. split; [exact Hac|].
  split; [by intros Hd; rewrite Hd in Hdrop|].
  assert (broadcasts_for i d <> [] ->
          subscribers i (snd r) = filter (delivers w) (subscribers i s))
    as Hsome.
  { intros Hd. by destruct (broadcasts_for i d). }
  split; [exact Hsome|].
  intros -> Hret. apply Hsome. intros Hnil.
  apply (returns_broadcasts code input_data execution_id s Hret).
  fold i r. rewrite (trace_since_app _ _ _ Htr).
  by rewrite <- statuses_of_broadcasts, Hnil.
Qed.

End Subscriptions.

(* ===================================================================== *)
(** * More on the chat handler *)
(* ===================================================================== *)

Section ChatMore.

Variable w : World.

Lemma run_code_keeps code lang input_data refusal s :
  let r := run_code w code lang input_data refusal s in
  sessions (snd r) = sessions s
  /\ active_connections (snd r) = active_connections s
  /\ gcc_available (snd r) = gcc_available s
  /\ (forall j, uuid4 w (uuid_draws s) <> j ->
        execution_results (snd r) !! j = execution_results s !! j).
Proof.
  unfold run_code, draw_uuid4.
  destruct (PyStr.mem (PyStr.lower lang) ["c"; ""]); [|done].
  pose proof (execute_steps w code input_data
                (Some (uuid4 w (uuid_draws s))) false
                (set_uuid_draws (S (uuid_draws s)) s)) as Hsteps.
  apply steps_frame in Hsteps as (Hs & Hg & Hr & _ & Hac).
  cbn [id_of_call] in *.
  destruct (execute_c_code w code input_data _ false _)
    as [[[execution_id result]|e|] s']; cbn [fst snd] in *;
    rewrite Hs, Hg, Hac by done; auto.
Qed.

(** The session steps and the other sessions. *)
Lemma update_session_other sid sid' f s :
  sid <> sid' ->
  sessions (update_session sid f s) !! sid' = sessions s !! sid'.
Proof.
  intros Hne. unfold update_session. cbn [sessions set_sessions].
  by rewrite lookup_insert_ne.
Qed.

Lemma entered_other sid sid' message s :
  sid <> sid' ->
  sessions (entered sid message s) !! sid' = sessions s !! sid'.
Proof.
  intros Hne. rewrite entered_as_update. by apply update_session_other.
Qed.

(** What [process_message] leaves alone, branch by branch. *)
Lemma process_message_frame_full message input_data sid s :
  let s' := snd (process_message w message input_data sid s) in
  (forall sid', sid <> sid' -> sessions s' !! sid' = sessions s !! sid')
  /\ active_connections s' = active_connections s
  /\ gcc_available s' = gcc_available s
  /\ (forall j, uuid4 w (uuid_draws s) <> j ->
        execution_results s' !! j = execution_results s !! j).
Proof.
  assert (forall code lang refusal s1,
            (forall sid', sid <> sid' ->
               sessions s1 !! sid' = sessions s !! sid') ->
            active_connections s1 = active_connections s ->
            gcc_available s1 = gcc_available s ->
            execution_results s1 = execution_results s ->
            uuid_draws s1 = uuid_draws s ->
            let s' := snd (run_code w code lang input_data refusal s1) in
            (forall sid', sid <> sid' ->
               sessions s' !! sid' = sessions s !! sid')
            /\ active_connections s' = active_connections s
            /\ gcc_available s' = gcc_available s
            /\ (forall j, uuid4 w (uuid_draws s) <> j ->
                  execution_results s' !! j = execution_results s !! j))
    as Hrun.
  { intros code lang refusal s1 Hs Hac Hg Hr Hu.
    destruct (run_code_keeps code lang input_data refusal s1)
      as (Hs' & Hac' & Hg' & Hr').
    cbv zeta. rewrite Hs', Hac', Hg'. rewrite Hu in Hr'.
    split; [done|]. split; [done|]. split; [done|].
    intros j Hj. by rewrite Hr', Hr. }
  pose proof (entered_frame sid message s) as (Hg & Hr & Hac & Hu & _).
  rewrite process_message_entered. cbv zeta.
  destruct (_is_run_previous_code_request message && _).
  { apply Hrun; try done.
    intros sid' Hne. unfold history_append.
    by rewrite update_session_other, entered_other. }
  destruct (_extract_code message) as [[lang code]|].
  { apply Hrun; try done.
    intros sid' Hne. unfold history_append, remember_code.
    by rewrite !update_session_other, entered_other. }
  destruct (match classify_request w message with
            | inr b => b | inl _ => false end).
  - destruct (generate_code w message); cbn [snd].
    + rewrite Hg, Hr, Hac. split; [|done].
      intros sid' Hne. by apply entered_other.
    + split; [|by rewrite <- Hg, <- Hr, <- Hac].
      intros sid' Hne. unfold history_append, remember_code.
      by rewrite !update_session_other, entered_other.
  - destruct (generate_chat_response w _); cbn [snd].
    + rewrite Hg, Hr, Hac. split; [|done].
      intros sid' Hne. by apply entered_other.
    + split; [|by rewrite <- Hg, <- Hr, <- Hac].
      intros sid' Hne. unfold history_append.
      by rewrite update_session_other, entered_other.
Qed.

(** Branch 1 of [process_message] as one step on the session followed by
    the execution. *)
Lemma run_previous_eq message input_data sid s code :
  _is_run_previous_code_request message = true ->
  last_generated_code (session_of sid s) = Some code ->
  PyStr.truthy code = true ->
  PyStr.mem (PyStr.lower (language (session_of sid s))) ["c"; ""] = true ->
  let s1 := update_session sid (reran message) s in
  let run :=
    execute_c_code w code input_data (Some (uuid4 w (uuid_draws s))) false
      (set_uuid_draws (S (uuid_draws s)) s1) in
  process_message w message input_data sid s
    = (execution_outcome code (fst run), snd run)
  /\ sessions (snd run) !! sid = Some (reran message (session_of sid s)).
Proof.
  intros Hrun Hcode Htruthy Hlang s1 run.
  rewrite process_message_entered. cbv zeta.
  rewrite session_of_entered. cbn [last_generated_code language].
  rewrite Hrun, Hcode. cbn [PyStr.truthy_opt andb]. rewrite Htruthy.
  unfold history_append.
  rewrite entered_as_update, update_session_twice.
  cbn [history last_generated_code language].
  assert (update_session sid
            (fun session =>
               {| last_generated_code := last_generated_code session;
                  language := language session;
                  history :=
                    (history session
                     ++ [{| role := user; content := message |}])
                    ++ [{| role := assistant;
                           content :=
                             "Executing previously generated code." |}] |})
            s = s1) as ->.
  { unfold s1, update_session, reran. by rewrite <- app_assoc. }
  unfold run_code, draw_uuid4. rewrite Hlang.
  change (uuid_draws s1) with (uuid_draws s). fold run.
  split; [by destruct run as [[[execution_id result]|e|] s']|].
  destruct (execute_c_code_frame w code input_data
              (Some (uuid4 w (uuid_draws s))) false
              (set_uuid_draws (S (uuid_draws s)) s1))
    as (d & Hs & _).
  fold run in Hs. rewrite Hs. apply lookup_update.
Qed.

(** X16. A message without fenced block, in a session without code or without
    run phrase: nothing is executed, no record is stored, no id is drawn,
    and the call returns a text or the generated code even when every call
    of the generation service raises. *)
Theorem no_code_nothing_run message input_data sid s :
  _is_run_previous_code_request message
    && PyStr.truthy_opt (last_generated_code (session_of sid s)) = false ->
  _extract_code message = None ->
  let r := process_message w message input_data sid s in
  ((exists reply, fst r = Ret (text reply))
   \/ (exists code note, fst r = Ret (code_generation code note)))
  /\ trace (snd r) = trace s
  /\ execution_results (snd r) = execution_results s
  /\ uuid_draws (snd r) = uuid_draws s.
Proof.
  intros Hfirst Hnone.
  pose proof (entered_frame sid message s) as (_ & Hr & _ & Hu & _ & _ & Ht).
  rewrite process_message_entered. cbv zeta.
  rewrite session_of_entered. cbn [last_generated_code].
  rewrite Hfirst, Hnone.
  destruct (match classify_request w message with
            | inr b => b | inl _ => false end).
  - destruct (generate_code w message); cbn [fst snd]; eauto 10.
  - destruct (generate_chat_response w _); cbn [fst snd]; eauto 10.
Qed.

Lemma execute_returns_stored code input_data id mgr s i record s' :
  execute_c_code w code input_data (Some id) mgr s = (Ret (i, record), s') ->
  i = id /\ execution_results s' !! i = Some record.
Proof.
  intros Hexec.
  destruct (gcc_available s) eqn:Hgcc.
  2: { destruct (execute_unavailable w code input_data (Some id) mgr s Hgcc)
         as (s1 & d & H1 & _ & _ & Hres & _).
       rewrite H1 in Hexec. injection Hexec as <- <- <-.
       split; [done|]. rewrite Hres. apply lookup_insert_eq. }
  destruct (mkdtemp w (mkdtemp_calls s)) as [e|dir] eqn:Hdir.
  { destruct (execute_mkdtemp_raises w code input_data (Some id) mgr s e
                Hgcc Hdir) as (s1 & H1 & _). congruence. }
  destruct (try_body w code input_data (id_of_call w (Some id) s) mgr
              dir blank_record (prepared (Some id) dir s))
    as [[exit result] s2] eqn:Hbody.
  assert (exit = Hang \/ exit <> Hang) as [->|Hexit]
    by (destruct exit; auto).
  - rewrite (execute_hangs w _ _ _ _ _ _ _ _ Hgcc Hdir Hbody) in Hexec.
    done.
  - destruct (execute_available w _ _ _ _ _ _ _ _ _ Hgcc Hdir Hbody Hexit)
      as (s1 & d & H1 & Hres & _).
    rewrite H1 in Hexec. injection Hexec as <- <- <-.
    split; [done|]. rewrite Hres. apply lookup_insert_eq.
Qed.

(** X17. An answer of type [code_execution] is built from a record that is
    stored: the id it gives is the id drawn for the run, the look-up by
    that id finds the record, and content, status and time of the answer
    are those of the record. *)
Theorem response_matches_record message input_data sid s content code
    status t i :
  fst (process_message w message input_data sid s)
    = Ret (code_execution content code status t i) ->
  exists record,
    get_execution_results i (snd (process_message w message input_data sid s))
      = Some record
    /\ i = uuid4 w (uuid_draws s)
    /\ code_execution content code status t i
       = execution_response code i record.
Proof.
  assert (forall c lang refusal s1,
            uuid_draws s1 = uuid_draws s ->
            fst (run_code w c lang input_data refusal s1)
              = Ret (code_execution content code status t i) ->
            exists record,
              get_execution_results i
                (snd (run_code w c lang input_data refusal s1)) = Some record
              /\ i = uuid4 w (uuid_draws s)
              /\ code_execution content code status t i
                 = execution_response code i record) as Hrun.
  { intros c lang refusal s1 Hu. unfold run_code, draw_uuid4.
    destruct (PyStr.mem (PyStr.lower lang) ["c"; ""]); [|done].
    destruct (execute_c_code w c input_data _ false _)
      as [[[execution_id result]|e|] s'] eqn:Hexec; cbn [fst snd]; try done.
    intros [= Hc <- Hst Ht <-].
    apply execute_returns_stored in Hexec as [-> Hres].
    exists result. rewrite Hu in *. split; [done|]. split; [done|].
    unfold execution_response. by rewrite Hc, Hst, Ht. }
  pose proof (entered_frame sid message s) as (_ & _ & _ & Hu & _).
  rewrite process_message_entered. cbv zeta.
  destruct (_is_run_previous_code_request message && _); [by apply Hrun|].
  destruct (_extract_code message) as [[lang c]|]; [by apply Hrun|].
  destruct (match classify_request w message with
            | inr b => b | inl _ => false end).
  - by destruct (generate_code w message).
  - by destruct (generate_chat_response w _).
Qed.

(** X18. The language of every session is and stays ["c"]: the two refusals of
    [process_message] for code in another language are never given. *)
Theorem sessions_stay_c message input_data sid s :
  all_sessions_c s ->
  all_sessions_c (snd (process_message w message input_data sid s)).
Proof.
  intros Hc sid' session.
  destruct (decide (sid = sid')) as [<-|Hne].
  2: { destruct (process_message_frame_full message input_data sid s)
         as (Hother & _).
       rewrite Hother by done. apply Hc. }
  assert (language (session_of sid s) = "c") as Hlang.
  { unfold session_of. destruct (sessions s !! sid) eqn:Hs; [|done].
    by eapply Hc. }
  assert (forall s1, language (session_of sid s1) = "c" ->
            sessions s1 !! sid = Some session -> language session = "c")
    as Hget.
  { intros s1 Hl Hs1. unfold session_of in Hl. by rewrite Hs1 in Hl. }
  assert (forall code lang refusal s1,
            language (session_of sid s1) = "c" ->
            sessions (snd (run_code w code lang input_data refusal s1)) !! sid
              = Some session -> language session = "c") as Hrun.
  { intros code lang refusal s1 Hl.
    destruct (run_code_keeps code lang input_data refusal s1) as (Hs' & _).
    rewrite Hs'. by apply Hget. }
  rewrite process_message_entered. cbv zeta.
  destruct (_is_run_previous_code_request message && _).
  { apply Hrun. unfold history_append.
    by rewrite session_of_update, session_of_entered. }
  destruct (_extract_code message) as [[lang code]|] eqn:Hex.
  { apply Hrun. unfold history_append, remember_code.
    rewrite !session_of_update. cbn [language].
    by eapply extract_code_language. }
  destruct (match classify_request w message with
            | inr b => b | inl _ => false end).
  - destruct (generate_code w message); cbn [snd]; apply Hget.
    + by rewrite session_of_entered.
    + unfold history_append, remember_code. by rewrite !session_of_update.
  - destruct (generate_chat_response w _); cbn [snd]; apply Hget.
    + by rewrite session_of_entered.
    + unfold history_append.
      by rewrite session_of_update, session_of_entered.
Qed.

Lemma generate_branch_eq message input_data sid s code :
  _is_run_previous_code_request message
    && PyStr.truthy_opt (last_generated_code (session_of sid s)) = false ->
  _extract_code message = None ->
  classify_request w message = inr true ->
  generate_code w message = inr code ->
  process_message w message input_data sid s
  = (Ret (code_generation code
            "Here's the generated C code based on your request:"),
     update_session sid (generated message code) s).
Proof.
  intros Hfirst Hnone Hclass Hgen.
  rewrite process_message_entered. cbv zeta.
  rewrite session_of_entered. cbn [last_generated_code].
  rewrite Hfirst, Hnone, Hclass, Hgen.
  unfold history_append, remember_code.
  rewrite entered_as_update, !update_session_twice.
  cbn [history last_generated_code language].
  f_equal. unfold update_session, generated. by rewrite <- app_assoc.
Qed.

(** X19. Code that was generated is what a following run phrase runs: the
    generating message stores the code without executing anything, and the
    next message of the session with a run phrase executes that code. *)
Theorem generated_code_is_run message1 input1 message2 input2 sid s code :
  _is_run_previous_code_request message1
    && PyStr.truthy_opt (last_generated_code (session_of sid s)) = false ->
  _extract_code message1 = None ->
  classify_request w message1 = inr true ->
  generate_code w message1 = inr code ->
  PyStr.truthy code = true ->
  _is_run_previous_code_request message2 = true ->
  let r1 := process_message w message1 input1 sid s in
  let run :=
    execute_c_code w code input2 (Some (uuid4 w (uuid_draws s))) false
      (set_uuid_draws (S (uuid_draws s))
         (update_session sid (reran message2) (snd r1))) in
  trace (snd r1) = trace s
  /\ last_generated_code (session_of sid (snd r1)) = Some code
  /\ process_message w message2 input2 sid (snd r1)
     = (execution_outcome code (fst run), snd run).
Proof.
  intros Hfirst Hnone Hclass Hgen Htruthy Hrun2 r1 run.
  subst r1 run.
  rewrite (generate_branch_eq _ input1 _ _ _ Hfirst Hnone Hclass Hgen).
  cbn [snd]. split; [done|].
  rewrite session_of_update. split; [done|].
  apply (run_previous_eq message2 input2 sid
           (update_session sid (generated message1 code) s) code); try done.
  - by rewrite session_of_update.
  - by rewrite session_of_update.
Qed.

(** X20. A run phrase, in a session that holds code in C: branch 1 runs the
    stored code, block or no block in the message, under a fresh id and
    without manager; the session gains the two turns and keeps its code. *)
Theorem run_previous_reruns_stored message input_data sid s code :
  _is_run_previous_code_request message = true ->
  last_generated_code (session_of sid s) = Some code ->
  PyStr.truthy code = true ->
  PyStr.mem (PyStr.lower (language (session_of sid s))) ["c"; ""] = true ->
  let s1 := update_session sid (reran message) s in
  let run :=
    execute_c_code w code input_data (Some (uuid4 w (uuid_draws s))) false
      (set_uuid_draws (S (uuid_draws s)) s1) in
  process_message w message input_data sid s
    = (execution_outcome code (fst run), snd run)
  /\ sessions (snd run) !! sid = Some (reran message (session_of sid s)).
Proof. apply run_previous_eq. Qed.

(** X21. [process_message] works on the session of its id alone, never changes
    a registration nor the compiler flag, and stores at most one record,
    under the id it draws. *)
Theorem process_message_keeps message input_data sid s :
  let s' := snd (process_message w message input_data sid s) in
  (forall sid', sid <> sid' -> sessions s' !! sid' = sessions s !! sid')
  /\ active_connections s' = active_connections s
  /\ gcc_available s' = gcc_available s
  /\ (forall j, uuid4 w (uuid_draws s) <> j ->
        execution_results s' !! j = execution_results s !! j).
Proof. apply process_message_frame_full. Qed.

End ChatMore.

(* ===================================================================== *)
(** * More on the fenced-block pattern *)
(* ===================================================================== *)

Section Pattern.

Import PyStr Fence.

Local Arguments String.append !_ _ : simpl nomatch.

Lemma app_assoc_s (a b c : string) : (a +:+ b) +:+ c = a +:+ b +:+ c.
Proof. induction a; simpl; [done|]. by rewrite IHa. Qed.

Lemma app_nil_s (a : string) : a +:+ "" = a.
Proof. induction a; simpl; [done|]. by rewrite IHa. Qed.

Lemma drop_prefix_Some p s r : drop_prefix p s = Some r -> s = p +:+ r.
Proof.
  revert s. induction p as [|a p IH]; intros s; simpl.
  - by intros [= ->].
  - destruct s as [|b s]; [done|].
    destruct (Ascii.eqb a b) eqn:Hab; [|done].
    apply Ascii.eqb_eq in Hab. subst b. intros H. by rewrite (IH _ H).
Qed.

Lemma drop_prefix_app p r : drop_prefix p (p +:+ r) = Some r.
Proof.
  induction p as [|a p IH]; simpl; [done|]. by rewrite Ascii.eqb_refl.
Qed.

Lemma lazy_group_Some s g rest :
  lazy_group s = Some (g, rest) -> s = g +:+ closing +:+ rest.
Proof.
  revert g rest. induction s as [|a s IH]; intros g rest.
  - cbn. done.
  - cbn [lazy_group].
    destruct (drop_prefix closing (String a s)) as [r|] eqn:Hd.
    + intros [= <- <-]. by apply drop_prefix_Some in Hd.
    + destruct (lazy_group s) as [[g' rest']|]; [|done].
      intros [= <- <-]. simpl. f_equal. by apply IH.
Qed.

Lemma group_then_closing_Some s g rest :
  group_then_closing s = Some (g, rest) ->
  s = g +:+ closing +:+ rest /\ g <> "".
Proof.
  unfold group_then_closing. destruct s as [|a s]; [done|].
  destruct (lazy_group s) as [[g' rest']|] eqn:Hl; [|done].
  intros [= <- <-]. apply lazy_group_Some in Hl. simpl. by rewrite Hl.
Qed.

Lemma spaces_then_group_Some s g rest :
  spaces_then_group s = Some (g, rest) ->
  exists ws,
    s = ws +:+ nl +:+ g +:+ closing +:+ rest
    /\ all_space ws = true /\ g <> "".
Proof.
  revert g rest. induction s as [|a s IH]; intros g rest; [done|].
  cbn [spaces_then_group].
  destruct (if isspace a then spaces_then_group s else None)
    as [[g' rest']|] eqn:Hgreedy.
  - intros [= <- <-]. destruct (isspace a) eqn:Ha; [|done].
    destruct (IH _ _ Hgreedy) as (ws & -> & Hws & Hg).
    exists (String a ws). simpl. by rewrite Ha.
  - destruct (Ascii.eqb a LF) eqn:Hlf; [|done].
    apply Ascii.eqb_eq in Hlf. subst a. intros Hg.
    apply group_then_closing_Some in Hg as [-> Hg]. by exists "".
Qed.

Lemma match_here_Some s g rest :
  match_here s = Some (g, rest) ->
  exists tag ws,
    s = fence +:+ String tag (ws +:+ nl +:+ g +:+ closing +:+ rest)
    /\ is_c tag = true /\ all_space ws = true /\ g <> "".
Proof.
  unfold match_here.
  destruct (drop_prefix fence s) as [[|a s']|] eqn:Hd; try done.
  destruct (is_c a) eqn:Ha; [|done]. intros Hg.
  apply drop_prefix_Some in Hd.
  apply spaces_then_group_Some in Hg as (ws & -> & Hws & Hg).
  by exists a, ws.
Qed.

Lemma findall_fuel_head fuel s g gs :
  findall_fuel fuel s = g :: gs ->
  exists pre rest,
    s = pre +:+ rest /\ exists after, match_here rest = Some (g, after).
Proof.
  revert s. induction fuel as [|fuel IH]; intros s; [done|].
  cbn [findall_fuel].
  destruct (match_here s) as [[g' rest]|] eqn:Hm.
  - intros [= <- _]. exists "", s. eauto.
  - destruct s as [|a s]; [done|]. intros H.
    destruct (IH _ H) as (pre & rest & -> & Hrest).
    by exists (String a pre), rest.
Qed.

(** X22. What [_extract_code] returns was in the message between fences: after
    a fence, the tag [c] or [C], blanks and a line break, and before a
    line break and a fence; it is not empty before stripping; the language
    is ["c"]. *)
Theorem extracted_code_was_fenced message lang code :
  _extract_code message = Some (lang, code) ->
  lang = "c"
  /\ exists pre tag ws group post,
       message
       = pre +:+ fence
         +:+ String tag (ws +:+ nl +:+ group +:+ closing +:+ post)
       /\ is_c tag = true
       /\ all_space ws = true
       /\ group <> ""
       /\ code = strip group.
Proof.
  unfold _extract_code, findall.
  destruct (findall_fuel _ message) as [|g gs] eqn:Hall; [done|].
  intros [= <- <-]. split; [done|].
  destruct (findall_fuel_head _ _ _ _ Hall)
    as (pre & rest & -> & after & Hm).
  apply match_here_Some in Hm as (tag & ws & -> & Htag & Hws & Hg).
  by exists pre, tag, ws, g, after.
Qed.

Lemma prefix_drop p s :
  String.prefix p s = true <-> exists r, drop_prefix p s = Some r.
Proof.
  revert s. induction p as [|a p IH]; intros s.
  - destruct s; simpl; split; eauto.
  - destruct s as [|b s]; simpl.
    + split; [done|]. by intros [r H].
    + destruct (ascii_dec a b) as [->|Hne].
      * rewrite Ascii.eqb_refl. apply IH.
      * apply Ascii.eqb_neq in Hne. rewrite Hne. split; [done|].
        by intros [r H].
Qed.

Lemma prefix_app_s p r : String.prefix p (p +:+ r) = true.
Proof. apply prefix_drop. exists r. apply drop_prefix_app. Qed.

Lemma match_here_prefix s g after :
  match_here s = Some (g, after) -> String.prefix fence s = true.
Proof.
  intros H. apply match_here_Some in H as (tag & ws & -> & _).
  apply prefix_app_s.
Qed.

Lemma findall_fuel_none fuel s :
  contains fence s = false -> findall_fuel fuel s = [].
Proof.
  revert s. induction fuel as [|fuel IH]; intros s Hs; [done|].
  cbn [findall_fuel].
  destruct (match_here s) as [[g after]|] eqn:Hm.
  - apply match_here_prefix in Hm. destruct s as [|a s]; [done|].
    cbn [contains] in Hs. by rewrite Hm in Hs.
  - destruct s as [|a s]; [done|]. apply IH.
    cbn [contains] in Hs. by apply orb_false_iff in Hs as [_ Hs].
Qed.

(** X23. A message without three backticks in a row holds no code. *)
Theorem no_fence_no_code message :
  contains fence message = false -> _extract_code message = None.
Proof.
  intros H. unfold _extract_code, findall. by rewrite findall_fuel_none.
Qed.

Lemma closing_straddle t post r :
  t <> "" ->
  drop_prefix closing (t +:+ closing +:+ post) = Some r ->
  String.prefix closing t = true.
Proof.
  intros Ht H. apply prefix_drop.
  assert (Ascii.eqb backtick LF = false) as Hbl by reflexivity.
  destruct t as [|a1 [|a2 [|a3 [|a4 t]]]]; [done|..];
    unfold closing, fence in *; cbn [drop_prefix String.append] in H |- *.
  - destruct (Ascii.eqb LF a1); [|done]. by rewrite Hbl in H.
  - destruct (Ascii.eqb LF a1); [|done].
    destruct (Ascii.eqb backtick a2); [|done]. by rewrite Hbl in H.
  - destruct (Ascii.eqb LF a1); [|done].
    destruct (Ascii.eqb backtick a2); [|done].
    destruct (Ascii.eqb backtick a3); [|done]. by rewrite Hbl in H.
  - destruct (Ascii.eqb LF a1); [|done].
    destruct (Ascii.eqb backtick a2); [|done].
    destruct (Ascii.eqb backtick a3); [|done].
    destruct (Ascii.eqb backtick a4); [|done]. eauto.
Qed.

Lemma lazy_group_body t post :
  contains closing t = false ->
  lazy_group (t +:+ closing +:+ post) = Some (t, post).
Proof.
  induction t as [|a t IH]; intros Ht.
  - reflexivity.
  - change (String a t +:+ closing +:+ post)
      with (String a (t +:+ closing +:+ post)).
    cbn [lazy_group].
    destruct (drop_prefix closing (String a (t +:+ closing +:+ post)))
      as [r|] eqn:Hd.
    + apply (closing_straddle (String a t)) in Hd; [|done].
      cbn [contains] in Ht. apply orb_false_iff in Ht as [Ht _]. congruence.
    + rewrite IH; [done|].
      cbn [contains] in Ht. by apply orb_false_iff in Ht as [_ Ht].
Qed.

Lemma spaces_then_group_blanks ws x r :
  all_space ws = true ->
  spaces_then_group x = Some r ->
  spaces_then_group (ws +:+ x) = Some r.
Proof.
  induction ws as [|a ws IH]; intros Hws Hx; [done|].
  simpl in Hws. apply andb_true_iff in Hws as [Ha Hws].
  change (String a ws +:+ x) with (String a (ws +:+ x)).
  cbn [spaces_then_group]. by rewrite Ha, IH.
Qed.

Lemma spaces_then_group_body a body post :
  isspace a = false ->
  contains closing (String a body) = false ->
  spaces_then_group (nl +:+ String a body +:+ closing +:+ post)
  = Some (String a body, post).
Proof.
  intros Ha Hbody.
  assert (Ascii.eqb a LF = false) as Hlf.
  { destruct (Ascii.eqb a LF) eqn:H; [|done].
    apply Ascii.eqb_eq in H. subst a. done. }
  change (nl +:+ String a body +:+ closing +:+ post)
    with (String LF (String a (body +:+ closing +:+ post))).
  cbn [spaces_then_group]. rewrite Ha, Hlf.
  change (isspace LF) with true. change (Ascii.eqb LF LF) with true.
  cbv iota. unfold group_then_closing.
  rewrite lazy_group_body; [done|].
  cbn [contains] in Hbody. by apply orb_false_iff in Hbody as [_ Hbody].
Qed.

Lemma match_here_backtick a s :
  Ascii.eqb a backtick = false -> match_here (String a s) = None.
Proof.
  intros Ha. unfold match_here, fence. cbn [drop_prefix].
  rewrite Ascii.eqb_sym, Ha. done.
Qed.

Lemma length_app_s (a b : string) :
  String.length (a +:+ b) = (String.length a + String.length b)%nat.
Proof. induction a; simpl; [done|]. by rewrite IHa. Qed.

Lemma findall_fuel_skip fuel pre m g after :
  no_backtick pre = true ->
  (String.length pre < fuel)%nat ->
  match_here m = Some (g, after) ->
  exists gs, findall_fuel fuel (pre +:+ m) = g :: gs.
Proof.
  revert fuel. induction pre as [|a pre IH]; intros fuel Hpre Hfuel Hm.
  - destruct fuel as [|fuel]; [simpl in Hfuel; lia|].
    simpl. rewrite Hm. eauto.
  - destruct fuel as [|fuel]; [simpl in Hfuel; lia|].
    simpl in Hpre. apply andb_true_iff in Hpre as [Ha Hpre].
    apply negb_true_iff in Ha.
    change (String a pre +:+ m) with (String a (pre +:+ m)).
    cbn [findall_fuel]. rewrite match_here_backtick by done.
    apply IH; [done| |done]. simpl in Hfuel. lia.
Qed.

(** X24. A message that holds, after text without backtick, a block opened by a
    fence, [c] or [C], blanks and a line break, whose body starts with a
    character that is not blank and has no line break followed by a fence,
    and that is closed by a line break and a fence: the code extracted is
    that body, stripped, whatever follows the block. *)
Theorem well_formed_block_extracted pre tag ws a body post :
  no_backtick pre = true ->
  is_c tag = true ->
  all_space ws = true ->
  isspace a = false ->
  contains closing (String a body) = false ->
  _extract_code
    (pre +:+ fence
     +:+ String tag (ws +:+ nl +:+ String a body +:+ closing +:+ post))
  = Some ("c", strip (String a body)).
Proof.
  intros Hpre Htag Hws Ha Hbody.
  assert (match_here
            (fence
             +:+ String tag
                   (ws +:+ nl +:+ String a body +:+ closing +:+ post))
          = Some (String a body, post)) as Hm.
  { unfold match_here. rewrite drop_prefix_app, Htag.
    apply spaces_then_group_blanks; [done|].
    by apply spaces_then_group_body. }
  unfold _extract_code, findall.
  destruct (findall_fuel_skip
              (S (String.length
                    (pre +:+ fence
                     +:+ String tag
                           (ws +:+ nl +:+ String a body +:+ closing
                            +:+ post))))
              pre _ _ _ Hpre ltac:(rewrite length_app_s; lia) Hm)
    as [gs ->].
  done.
Qed.

End Pattern.

(* ===================================================================== *)
(** * The provide-and-run branch and the blocks of a message *)
(* ===================================================================== *)

Section FirstBlock.

Import PyStr Fence.
Local Arguments String.append !_ _ : simpl nomatch.

Variable w : World.












End FirstBlock.



(* ===================================================================== *)
(** * The code generator *)
(* ===================================================================== *)

Section Generator.
Import PyStr Fence CodeGenerator.
Local Arguments String.append !_ _ : simpl nomatch.

Lemma split_nl_nonempty s : split_nl s <> [].
Proof.
  destruct s as [|a s]; [done|]. cbn [split_nl].
  destruct (Ascii.eqb a LF); [done|]. by destruct (split_nl s).
Qed.

Lemma join_nl_cons_char a line rest :
  join_nl (String a line :: rest) = String a (join_nl (line :: rest)).
Proof. by destruct rest. Qed.

(** Splitting at the line breaks and joining with line breaks gives the
    string back. *)
Lemma join_split s : join_nl (split_nl s) = s.
Proof.
  induction s as [|a s IH]; [done|]. cbn [split_nl].
  destruct (Ascii.eqb a LF) eqn:Ha.
  - apply Ascii.eqb_eq in Ha. subst a.
    pose proof (split_nl_nonempty s) as Hne.
    destruct (split_nl s) as [|line rest]; [done|].
    cbn [join_nl] in *. by rewrite IH.
  - pose proof (split_nl_nonempty s) as Hne.
    destruct (split_nl s) as [|line rest]; [done|].
    by rewrite join_nl_cons_char, IH.
Qed.

Lemma split_nl_one_line s : one_line s = true -> split_nl s = [s].
Proof.
  induction s as [|a s IH]; [done|]. cbn [one_line split_nl].
  intros [Ha Hs]%andb_true_iff. apply negb_true_iff in Ha.
  by rewrite Ha, IH.
Qed.

Lemma split_nl_first header rest :
  one_line header = true ->
  split_nl (header +:+ nl +:+ rest) = header :: split_nl rest.
Proof.
  induction header as [|a header IH]; [done|].
  cbn [one_line]. intros [Ha Hs]%andb_true_iff. apply negb_true_iff in Ha.
  change (String a header +:+ nl +:+ rest)
    with (String a (header +:+ nl +:+ rest)).
  cbn [split_nl]. by rewrite Ha, IH.
Qed.

Lemma split_nl_last body footer :
  one_line footer = true ->
  split_nl (body +:+ nl +:+ footer) = split_nl body ++ [footer].
Proof.
  intros Hf. induction body as [|a body IH].
  - change ("" +:+ nl +:+ footer) with (String LF footer).
    cbn [split_nl]. change (Ascii.eqb LF LF) with true. cbv iota.
    by rewrite split_nl_one_line.
  - change (String a body +:+ nl +:+ footer)
      with (String a (body +:+ nl +:+ footer)).
    cbn [split_nl]. rewrite IH.
    destruct (Ascii.eqb a LF); [done|].
    pose proof (split_nl_nonempty body) as Hne.
    by destruct (split_nl body).
Qed.

Lemma strip_fences_unfenced generated_code :
  contains fence (hd "" (split_nl generated_code)) = false ->
  contains fence (List.last (split_nl generated_code) "") = false ->
  strip_fences generated_code = generated_code.
Proof.
  intros Hfirst Hlast. unfold strip_fences.
  pose proof (split_nl_nonempty generated_code) as Hne.
  pose proof (join_split generated_code) as Hjoin.
  destruct (split_nl generated_code) as [|first rest]; [done|].
  cbn [hd] in Hfirst. rewrite Hfirst, Hlast. done.
Qed.

Lemma strip_fences_fenced header body footer :
  one_line header = true -> contains fence header = true ->
  one_line footer = true -> contains fence footer = true ->
  strip_fences (header +:+ nl +:+ body +:+ nl +:+ footer) = body.
Proof.
  intros Hh Hhf Hf Hff. unfold strip_fences.
  rewrite split_nl_first, split_nl_last by done. rewrite Hhf.
  pose proof (split_nl_nonempty body) as Hne.
  destruct (split_nl body ++ [footer]) as [|l ls] eqn:Hl.
  { by destruct (split_nl body). }
  rewrite <- Hl, List.last_last, Hff, List.removelast_last. apply join_split.
Qed.

Lemma strip_fences_one_line generated_code :
  one_line generated_code = true ->
  contains fence generated_code = true ->
  strip_fences generated_code = "".
Proof.
  intros H1 Hf. unfold strip_fences.
  rewrite split_nl_one_line by done. by rewrite Hf.
Qed.


Lemma lstrip_app_space ws s :
  all_space ws = true -> lstrip (ws +:+ s) = lstrip s.
Proof.
  induction ws as [|a ws IH]; [done|]. cbn [all_space].
  intros [Ha Hws]%andb_true_iff.
  change (String a ws +:+ s) with (String a (ws +:+ s)).
  cbn [lstrip]. rewrite Ha. by apply IH.
Qed.

Lemma lstrip_decomp s :
  exists ws, s = ws +:+ lstrip s /\ all_space ws = true.
Proof.
  induction s as [|a s (ws & Hs & Hws)]; [by exists ""|].
  cbn [lstrip]. destruct (isspace a) eqn:Ha; [|by exists ""].
  exists (String a ws). cbn [all_space]. rewrite Ha, Hws. split; [|done].
  change (String a ws +:+ lstrip s) with (String a (ws +:+ lstrip s)).
  by rewrite <- Hs.
Qed.

Lemma rstrip_all_space ws : all_space ws = true -> rstrip ws = "".
Proof.
  induction ws as [|a ws IH]; [done|]. cbn [all_space rstrip].
  intros [Ha Hws]%andb_true_iff. by rewrite IH, Ha.
Qed.

Lemma rstrip_app_space s ws :
  all_space ws = true -> rstrip (s +:+ ws) = rstrip s.
Proof.
  intros Hws. induction s as [|a s IH]; [by apply rstrip_all_space|].
  change (String a s +:+ ws) with (String a (s +:+ ws)).
  cbn [rstrip]. by rewrite IH.
Qed.

Lemma rstrip_decomp s :
  exists ws, s = rstrip s +:+ ws /\ all_space ws = true.
Proof.
  induction s as [|a s (ws & Hs & Hws)]; [by exists ""|].
  cbn [rstrip]. destruct (rstrip s) as [|b r] eqn:Hr.
  - destruct (isspace a) eqn:Ha.
    + exists (String a s). cbn [all_space]. rewrite Ha.
      split; [done|]. rewrite Hs. done.
    + exists ws. split; [|done]. rewrite Hs at 1. done.
  - exists ws. split; [|done]. rewrite Hs at 1. done.
Qed.

(** The blank characters are no letters: [str.lower] maps them to blank
    characters. *)
Lemma isspace_lower_char a :
  isspace a = true -> isspace (lower_char a) = true.
Proof.
  destruct a as [[] [] [] [] [] [] [] []]; vm_compute; congruence.
Qed.

(** A string that [str.lower] maps to ["yes"] has three characters, the
    first and the last not blank. *)
Lemma lower_yes core :
  lower core = "yes" ->
  exists a b c,
    core = String a (String b (String c "")) /\
    isspace a = false /\ isspace c = false.
Proof.
  destruct core as [|a [|b [|c [|d core]]]]; try done.
  cbn [lower]. intros [= Ha Hb Hc].
  exists a, b, c. split; [done|].
  split.
  - destruct (isspace a) eqn:H; [|done].
    apply isspace_lower_char in H. by rewrite Ha in H.
  - destruct (isspace c) eqn:H; [|done].
    apply isspace_lower_char in H. by rewrite Hc in H.
Qed.

Lemma strip_yes ws1 core ws2 :
  all_space ws1 = true -> all_space ws2 = true -> lower core = "yes" ->
  strip (ws1 +:+ core +:+ ws2) = core.
Proof.
  intros H1 H2 (a & b & c & -> & Ha & Hc)%lower_yes.
  unfold strip. rewrite lstrip_app_space by done.
  change (String a (String b (String c "")) +:+ ws2)
    with (String a (String b (String c ws2))).
  cbn [lstrip]. rewrite Ha.
  change (String a (String b (String c ws2)))
    with (String a (String b (String c "")) +:+ ws2).
  rewrite rstrip_app_space by done.
  cbn [rstrip]. by rewrite Hc.
Qed.

Lemma classify_yes_answer content :
  String.eqb (lower (strip content)) "yes" = true <->
  exists ws1 core ws2,
    content = ws1 +:+ core +:+ ws2
    /\ all_space ws1 = true /\ all_space ws2 = true
    /\ lower core = "yes".
Proof.
  split.
  - intros H%String.eqb_eq.
    destruct (lstrip_decomp content) as (ws1 & H1 & Hws1).
    destruct (rstrip_decomp (lstrip content)) as (ws2 & H2 & Hws2).
    exists ws1, (strip content), ws2. unfold strip at 1.
    by rewrite <- H2, <- H1.
  - intros (ws1 & core & ws2 & -> & H1 & H2 & Hc).
    rewrite strip_yes by done. rewrite Hc. done.
Qed.

End Generator.

Section GeneratorClient.
Import PyStr Fence CodeGenerator.

Variable client : Client.

(** X25. A reply of the model whose first line and last line hold no fence is
    returned as it is, line breaks and all: fences further inside the
    reply are kept. *)
Theorem unfenced_reply_kept prompt language model generated_code :
  create client model (generate_messages prompt language)
    = inr generated_code ->
  contains fence (hd "" (split_nl generated_code)) = false ->
  contains fence (List.last (split_nl generated_code) "") = false ->
  CodeGenerator.generate_code client prompt language model
    = inr generated_code.
Proof.
  intros Hc Hfirst Hlast. unfold CodeGenerator.generate_code.
  by rewrite Hc, strip_fences_unfenced.
Qed.

(** X26. A reply of one line that holds a fence, such as a block written on
    one line, is dropped whole: the code returned is empty. *)
Theorem one_line_fenced_reply_emptied prompt language model generated_code :
  create client model (generate_messages prompt language)
    = inr generated_code ->
  one_line generated_code = true ->
  contains fence generated_code = true ->
  CodeGenerator.generate_code client prompt language model = inr "".
Proof.
  intros Hc H1 Hf. unfold CodeGenerator.generate_code.
  by rewrite Hc, strip_fences_one_line.
Qed.

(** X27. The classifier says yes exactly when the reply of the model is the
    word yes, in any letter case, between blanks: a reply that goes on
    after the word, or ends with a full stop, counts as no. *)
Theorem classify_yes_iff message model content :
  create client model (classify_messages message) = inr content ->
  CodeGenerator.classify_request client message model = inr true <->
  exists ws1 core ws2,
    content = ws1 +:+ core +:+ ws2
    /\ all_space ws1 = true /\ all_space ws2 = true
    /\ lower core = "yes".
Proof.
  intros Hc. unfold CodeGenerator.classify_request. rewrite Hc.
  rewrite <- classify_yes_answer. split; [by intros [= ->]|by intros ->].
Qed.

End GeneratorClient.

Section GeneratorInChat.
Import PyStr Fence.

Variable client : CodeGenerator.Client.

(** X28. The chat handler over the generator: a request that the model
    classifies with yes and answers with a block between two fence lines
    is answered with the body of the block, and that body is what the
    session keeps as its code. *)
Theorem generated_block_stored_unwrapped w message input_data sid s
    answer header body footer :
  _is_run_previous_code_request message
    && truthy_opt (last_generated_code (session_of sid s)) = false ->
  _extract_code message = None ->
  CodeGenerator.create client "gpt-4o"
    (CodeGenerator.classify_messages message) = inr answer ->
  lower (strip answer) = "yes" ->
  CodeGenerator.create client "gpt-4o"
    (CodeGenerator.generate_messages message "c")
    = inr (header +:+ nl +:+ body +:+ nl +:+ footer) ->
  one_line header = true -> contains fence header = true ->
  one_line footer = true -> contains fence footer = true ->
  process_message (with_generator client w) message input_data sid s
  = (Ret (code_generation body
            "Here's the generated C code based on your request:"),
     update_session sid (generated message body) s).
Proof.
  intros Hfirst Hnone Hclass Hyes Hgen Hh Hhf Hf Hff.
  apply generate_branch_eq; try done.
  - cbn [classify_request with_generator].
    unfold CodeGenerator.classify_request. by rewrite Hclass, Hyes.
  - cbn [generate_code with_generator].
    unfold CodeGenerator.generate_code.
    by rewrite Hgen, strip_fences_fenced.
Qed.

End GeneratorInChat.

(* ===================================================================== *)
(** * The chat endpoint *)
(* ===================================================================== *)

Section Endpoints.

Variable w : World.

(** Branch 2 of [process_message] as one step on the session followed by
    the execution. *)
Lemma provide_branch_eq message input_data sid s code :
  _extract_code message = Some ("c", code) ->
  _is_run_previous_code_request message
    && PyStr.truthy_opt (last_generated_code (session_of sid s)) = false ->
  let s1 := update_session sid (provided message code) s in
  let run :=
    execute_c_code w code input_data (Some (uuid4 w (uuid_draws s))) false
      (set_uuid_draws (S (uuid_draws s)) s1) in
  process_message w message input_data sid s
    = (execution_outcome code (fst run), snd run)
  /\ sessions (snd run) = sessions s1.
Proof.
  intros Hcode Hfirst s1 run.
  rewrite process_message_entered. cbv zeta.
  rewrite session_of_entered. cbn [last_generated_code].
  rewrite Hfirst, Hcode.
  unfold history_append, remember_code.
  rewrite entered_as_update, !update_session_twice.
  cbn [history last_generated_code language].
  assert (update_session sid
            (fun session =>
               {| last_generated_code := Some code;
                  language := "c";
                  history :=
                    (history session
                     ++ [{| role := user; content := message |}])
                    ++ [{| role := assistant;
                           content := "Received code to execute." |}] |})
            s = s1) as ->.
  { unfold s1, update_session, provided. by rewrite <- app_assoc. }
  rewrite run_code_c.
  change (uuid_draws s1) with (uuid_draws s). fold run.
  split; [done|].
  destruct (execute_c_code_frame w code input_data
              (Some (uuid4 w (uuid_draws s))) false
              (set_uuid_draws (S (uuid_draws s)) s1))
    as (d & Hs & _).
  fold run in Hs. by rewrite Hs.
Qed.

Lemma process_chat_message_eq message input_data client_host s :
  process_chat_message w message input_data client_host s
  = (answer_or_500
       (fst (process_message w message input_data
               (session_id_or_default client_host) s)),
     snd (process_message w message input_data
            (session_id_or_default client_host) s)).
Proof.
  unfold process_chat_message.
  by destruct (process_message w message input_data _ s).
Qed.

(** X29. The directory for the program cannot be made: the chat endpoint
    answers with status 500 and the text of the exception; the session has
    taken the code and the two turns all the same, and no record is
    stored. *)
Theorem chat_tempdir_failure_is_500 message input_data client_host s code e :
  _extract_code message = Some ("c", code) ->
  _is_run_previous_code_request message
    && PyStr.truthy_opt
         (last_generated_code
            (session_of (session_id_or_default client_host) s)) = false ->
  gcc_available s = true ->
  mkdtemp w (mkdtemp_calls s) = inl e ->
  exists s',
    process_chat_message w message input_data client_host s
      = (Ret (HTTPException 500 (exc_str e)), s')
    /\ sessions s' !! session_id_or_default client_host
       = Some (provided message code
                 (session_of (session_id_or_default client_host) s))
    /\ execution_results s' = execution_results s
    /\ trace s' = trace s.
Proof.
  set (sid := session_id_or_default client_host).
  intros Hcode Hfirst Hgcc Hdir.
  destruct (provide_branch_eq message input_data sid s code Hcode Hfirst)
    as [Hpm Hsess].
  rewrite process_chat_message_eq. fold sid. rewrite Hpm. cbn [fst snd].
  destruct (execute_mkdtemp_raises w code input_data
              (Some (uuid4 w (uuid_draws s))) false
              (set_uuid_draws (S (uuid_draws s))
                 (update_session sid (provided message code) s)) e)
    as (s' & Hex & _ & _ & Hres & Htr); [done..|].
  rewrite Hex in *. cbn [fst snd execution_outcome answer_or_500] in *.
  exists s'. split; [done|]. rewrite Hsess, Hres, Htr.
  split; [apply lookup_update|done].
Qed.

(** X30. Requests that give no client host, or an empty one, share the session
    ["default"]: code sent by one such request is what a run phrase of
    another executes. *)
Theorem anonymous_requests_share_session message1 input1 host1
    message2 input2 host2 s code :
  PyStr.truthy_opt host1 = false ->
  PyStr.truthy_opt host2 = false ->
  _extract_code message1 = Some ("c", code) ->
  PyStr.truthy code = true ->
  _is_run_previous_code_request message1
    && PyStr.truthy_opt (last_generated_code (session_of "default" s))
    = false ->
  _is_run_previous_code_request message2 = true ->
  let r1 := process_chat_message w message1 input1 host1 s in
  let s1 := snd r1 in
  let run :=
    execute_c_code w code input2 (Some (uuid4 w (uuid_draws s1))) false
      (set_uuid_draws (S (uuid_draws s1))
         (update_session "default" (reran message2) s1)) in
  last_generated_code (session_of "default" s1) = Some code
  /\ process_chat_message w message2 input2 host2 s1
     = (answer_or_500 (execution_outcome code (fst run)), snd run).
Proof.
  intros Hh1 Hh2 Hcode Htruthy Hfirst Hrun2 r1 s1 run.
  assert (session_id_or_default host1 = "default") as Hs1.
  { destruct host1 as [h|]; [|done]. cbn in *. by rewrite Hh1. }
  assert (session_id_or_default host2 = "default") as Hs2.
  { destruct host2 as [h|]; [|done]. cbn in *. by rewrite Hh2. }
  destruct (provide_branch_eq message1 input1 "default" s code Hcode Hfirst)
    as [Hpm Hsess].
  assert (session_of "default" s1
          = provided message1 code (session_of "default" s)) as Hsession.
  { unfold s1, r1. rewrite process_chat_message_eq, Hs1, Hpm. cbn [snd].
    unfold session_of at 1. rewrite Hsess. by rewrite lookup_update. }
  split; [by rewrite Hsession|].
  rewrite process_chat_message_eq, Hs2.
  destruct (run_previous_eq w message2 input2 "default" s1 code)
    as [-> _]; try done.
  - by rewrite Hsession.
  - by rewrite Hsession.
Qed.

End Endpoints.

(* ===================================================================== *)
(** * The further properties on concrete runs *)
(* ===================================================================== *)

(** ** Failures of the engine *)

(** A source that does not compile. *)
Lemma compile_error_recorded_witness :
  gcc demo_world broken_c = Exits 1 "" "error: expected declaration" 1
  /\ exists s',
       execute_c_code demo_world broken_c None None true ready_state
         = (Ret ("id0",
                 {| output := ""; error := "error: expected declaration";
                    status_code := 1;
                    execution_time := measured demo_world ready_state |}),
            s')
       /\ filter is_os_effect (trace_since ready_state s')
          = [ FsMkdtemp "/tmp/tmp0";
              FsWrite "/tmp/tmp0/program.c" broken_c;
              Spawn ["gcc"; "-o"; "/tmp/tmp0/program"; "/tmp/tmp0/program.c"]
                None None;
              FsRmtree "/tmp/tmp0" ].
Proof.
  split; [reflexivity|].
  apply (compile_error_recorded demo_world broken_c None None true
           ready_state "/tmp/tmp0" 1 "" "error: expected declaration" 1);
    [reflexivity | reflexivity | reflexivity | reflexivity | discriminate].
Defined.

(** A disk on which nothing can be written. *)
Lemma source_write_failure_recorded_witness :
  write_file read_only_world "/tmp/tmp0/program.c" hello_c = Some disk_full
  /\ exists s',
       execute_c_code read_only_world hello_c None (Some "x") true
         ready_state
         = (Ret ("x",
                 {| output := "";
                    error := "Unexpected error: No space left on device";
                    status_code := 1;
                    execution_time := measured read_only_world ready_state |}),
            s')
       /\ filter is_os_effect (trace_since ready_state s')
          = [FsMkdtemp "/tmp/tmp0"; FsRmtree "/tmp/tmp0"]
       /\ statuses_for "x" (trace_since ready_state s')
          = [starting; error_status; completed].
Proof.
  split; [reflexivity|].
  apply (source_write_failure_recorded read_only_world hello_c None
           (Some "x") ready_state "/tmp/tmp0" disk_full);
    reflexivity.
Defined.

(** A compiler that has gone since the probe. *)
Lemma compiler_start_failure_recorded_witness :
  gcc gcc_gone_world hello_c = Fails gcc_gone
  /\ exists s',
       execute_c_code gcc_gone_world hello_c None (Some "x") true
         ready_state
         = (Ret ("x",
                 {| output := "";
                    error :=
                      "Unexpected error: No such file or directory: gcc";
                    status_code := 1;
                    execution_time := measured gcc_gone_world ready_state |}),
            s')
       /\ filter is_os_effect (trace_since ready_state s')
          = [ FsMkdtemp "/tmp/tmp0";
              FsWrite "/tmp/tmp0/program.c" hello_c;
              Spawn ["gcc"; "-o"; "/tmp/tmp0/program"; "/tmp/tmp0/program.c"]
                None None;
              FsRmtree "/tmp/tmp0" ]
       /\ statuses_for "x" (trace_since ready_state s')
          = [starting; compiling; error_status; completed].
Proof.
  split; [reflexivity|].
  apply (compiler_start_failure_recorded gcc_gone_world hello_c None
           (Some "x") ready_state "/tmp/tmp0" gcc_gone);
    reflexivity.
Defined.

(** A program run with input. *)
Lemma run_step_effects_witness :
  input_file_ok demo_world "/tmp/tmp0" (Some "42")
  /\ exists record s',
       execute_c_code demo_world hello_c (Some "42") (Some "x") true
         ready_state
         = (Ret ("x", record), s')
       /\ filter is_os_effect (trace_since ready_state s')
          = [ FsMkdtemp "/tmp/tmp0";
              FsWrite "/tmp/tmp0/program.c" hello_c;
              Spawn ["gcc"; "-o"; "/tmp/tmp0/program"; "/tmp/tmp0/program.c"]
                None None;
              FsWrite "/tmp/tmp0/input.txt" "42";
              Spawn ["/tmp/tmp0/program"] (Some "/tmp/tmp0/input.txt")
                (Some 10%Q);
              FsRmtree "/tmp/tmp0" ]
       /\ statuses_for "x" (trace_since ready_state s')
          = [starting; compiling; running; completed].
Proof.
  split; [reflexivity|].
  apply (run_step_effects demo_world hello_c (Some "42") (Some "x") true
           ready_state "/tmp/tmp0" 60 "" "");
    reflexivity.
Defined.

(** A directory whose files cannot be executed. *)
Lemma run_failure_recorded_witness :
  run_program noexec_world hello_c (program_stdin None)
    = Fails permission_denied
  /\ exists s',
       execute_c_code noexec_world hello_c None (Some "x") true ready_state
         = (Ret ("x",
                 {| output := "";
                    error := "Execution error: Permission denied";
                    status_code := 1;
                    execution_time := measured noexec_world ready_state |}),
            s')
       /\ statuses_for "x" (trace_since ready_state s')
          = [starting; compiling; running; completed].
Proof.
  split; [reflexivity|].
  apply (run_failure_recorded noexec_world hello_c None (Some "x") true
           ready_state "/tmp/tmp0" 60 "" "" permission_denied);
    first [reflexivity | exact I].
Defined.

(** Room for the source but not for the input. *)
Lemma input_write_failure_recorded_witness :
  write_file quota_world "/tmp/tmp0/input.txt" "42" = Some disk_full
  /\ exists s',
       execute_c_code quota_world hello_c (Some "42") (Some "x") true
         ready_state
         = (Ret ("x",
                 {| output := "";
                    error := "Execution error: No space left on device";
                    status_code := 1;
                    execution_time := measured quota_world ready_state |}),
            s')
       /\ filter is_os_effect (trace_since ready_state s')
          = [ FsMkdtemp "/tmp/tmp0";
              FsWrite "/tmp/tmp0/program.c" hello_c;
              Spawn ["gcc"; "-o"; "/tmp/tmp0/program"; "/tmp/tmp0/program.c"]
                None None;
              FsRmtree "/tmp/tmp0" ].
Proof.
  split; [reflexivity|].
  apply (input_write_failure_recorded quota_world hello_c "42" (Some "x")
           true ready_state "/tmp/tmp0" 60 "" "" disk_full);
    reflexivity.
Defined.

(** The directory of a program that times out is removed as well. *)
Lemma workspace_always_removed_witness :
  gcc_available ready_state = true
  /\ exists mid,
       filter is_os_effect
         (trace_since ready_state
            (snd (execute_c_code demo_world loop_c None None true
                    ready_state)))
       = FsMkdtemp "/tmp/tmp0" :: mid ++ [FsRmtree "/tmp/tmp0"].
Proof.
  split; [reflexivity|].
  destruct (execute_c_code demo_world loop_c None None true ready_state)
    as [[[i record]|e|] s'] eqn:Hexec;
    [|vm_compute in Hexec; discriminate..].
  destruct (workspace_always_removed demo_world loop_c None None true
              ready_state i record s' eq_refl Hexec)
    as (dir & mid & Hdir & Hos).
  injection Hdir as <-. by exists mid.
Defined.

(** Another execution leaves the record of a finished one alone. *)
Lemma other_results_kept_witness :
  "id0" <> id_of_call demo_world (Some "x") finished_state
  /\ get_execution_results "id0"
       (snd (execute_c_code demo_world exit3_c None (Some "x") true
               finished_state))
     = Some hello_record.
Proof.
  split; [discriminate|].
  unfold get_execution_results.
  rewrite (other_results_kept demo_world exit3_c None (Some "x") true
             finished_state "id0"); [reflexivity | discriminate].
Defined.

(** A machine without gcc. *)
Lemma probe_decides_availability_witness :
  exists s, CodeExecutor_init no_gcc_world = Ret s
            /\ gcc_available s = false /\ execution_results s = ∅.
Proof.
  destruct (probe_decides_availability no_gcc_world) as (_ & _ & H & _).
  apply (H {| exc_class := FileNotFoundError;
              exc_str := "No such file or directory: gcc" |});
    reflexivity.
Defined.

(** ** Channels *)

Lemma crowded_no_empty : no_empty_lists crowded_state.
Proof.
  intros i conns. unfold crowded_state.
  cbn [active_connections set_active_connections].
  rewrite lookup_singleton_Some. by intros [_ <-].
Qed.

Lemma crowded_tuned_in : tuned_in demo_world 1%nat "id0" crowded_state.
Proof.
  split; [|split; [|reflexivity]].
  - change (subscribers "id0" crowded_state) with [1; 7; 2]%nat.
    apply (bool_decide_unpack _). vm_compute. exact I.
  - change (subscribers "id0" crowded_state) with [1; 7; 2]%nat.
    by left.
Qed.

(** Three channels, one of them broken: no clean-up leaves an empty
    entry. *)
Lemma no_empty_subscriber_list_witness :
  no_empty_lists crowded_state
  /\ no_empty_lists
       (broadcast demo_world (MsgStatus running) "id0" crowded_state)
  /\ no_empty_lists (disconnect 1%nat "id0" crowded_state).
Proof.
  destruct (no_empty_subscriber_list demo_world crowded_state
              crowded_no_empty) as (_ & Hd & Hb & _).
  split; [exact crowded_no_empty|]. split; [apply Hb|apply Hd].
Defined.

(** A fourth channel that comes and goes. *)
Lemma connect_disconnect_round_trip_witness :
  ~ In 5%nat (subscribers "id0" crowded_state)
  /\ subscribers "id0" (snd (connect demo_world 5%nat "id0" crowded_state))
     = subscribers "id0" crowded_state ++ [5%nat]
  /\ active_connections
       (disconnect 5%nat "id0"
          (snd (connect demo_world 5%nat "id0" crowded_state)))
     = active_connections crowded_state.
Proof.
  assert (~ In 5%nat (subscribers "id0" crowded_state)) as Hfresh.
  { change (subscribers "id0" crowded_state) with [1; 7; 2]%nat.
    intros Hin. repeat (destruct Hin as [Hin|Hin]; [discriminate|]).
    destruct Hin. }
  split; [exact Hfresh|].
  apply (connect_disconnect_round_trip demo_world 5%nat "id0" crowded_state
           (snd (connect demo_world 5%nat "id0" crowded_state))
           crowded_no_empty Hfresh).
  reflexivity.
Defined.

(** The first channel of three during a complete run. *)
Lemma subscriber_receives_every_event_witness :
  tuned_in demo_world 1%nat "id0" crowded_state
  /\ map message_status
       (received 1%nat
          (trace_since crowded_state
             (snd (execute_c_code demo_world hello_c None (Some "id0") true
                     crowded_state))))
     = statuses_for "id0"
         (trace_since crowded_state
            (snd (execute_c_code demo_world hello_c None (Some "id0") true
                    crowded_state))).
Proof.
  split; [exact crowded_tuned_in|].
  destruct (subscriber_receives_every_event demo_world hello_c None
              (Some "id0") true crowded_state 1%nat crowded_tuned_in)
    as (_ & H & _).
  exact H.
Defined.

Lemma subscriber_gets_the_record_witness :
  exists earlier record,
    received 1%nat
      (trace_since crowded_state
         (snd (execute_c_code demo_world hello_c None (Some "id0") true
                 crowded_state)))
    = earlier ++ [MsgResult record]
    /\ get_execution_results "id0"
         (snd (execute_c_code demo_world hello_c None (Some "id0") true
                 crowded_state))
       = Some record.
Proof.
  destruct (execute_c_code demo_world hello_c None (Some "id0") true
              crowded_state)
    as [[[i record]|e|] s'] eqn:Hexec;
    [|vm_compute in Hexec; discriminate..].
  assert (i = "id0") as -> by (vm_compute in Hexec; congruence).
  destruct (subscriber_gets_the_record demo_world hello_c None (Some "id0")
              crowded_state 1%nat "id0" record s' crowded_tuned_in eq_refl
              Hexec)
    as (earlier & H).
  by exists earlier, record.
Defined.

(** The broken channel joins an execution that is over: the replay fails
    and the channel is taken off again. *)
Lemma subscription_outcomes_witness :
  exists s',
    websocket_endpoint demo_world 7%nat "id0" finished_state
      = (Ret Closed, s')
    /\ active_connections s' = active_connections finished_state
    /\ received 7%nat (trace_since finished_state s') = [].
Proof.
  destruct (subscription_outcomes demo_world 7%nat "id0" finished_state)
    as (_ & _ & H).
  apply (H hello_record closed_socket); try reflexivity.
  - intros i conns Hi.
    change (active_connections finished_state)
      with (∅ : gmap string (list WebSocket)) in Hi.
    by rewrite lookup_empty in Hi.
  - intros [].
Defined.

(** The broken channel is the one that a run takes off. *)
Lemma execution_and_subscribers_witness :
  subscribers "id0" crowded_state = [1; 7; 2]%nat
  /\ subscribers "id0"
       (snd (execute_c_code demo_world hello_c None (Some "id0") true
               crowded_state))
     = [1; 2]%nat.
Proof.
  split; [reflexivity|].
  destruct (execution_and_subscribers demo_world hello_c None (Some "id0")
              true crowded_state) as (_ & _ & _ & _ & H).
  etrans; [apply H; [reflexivity|vm_compute; reflexivity]|reflexivity].
Defined.

(** ** The chat handler *)

(** Small talk on a fresh machine. *)
Lemma no_code_nothing_run_witness :
  _extract_code "thanks" = None
  /\ trace (snd (process_message demo_world "thanks" None "default"
                   ready_state))
     = trace ready_state
  /\ uuid_draws (snd (process_message demo_world "thanks" None "default"
                        ready_state))
     = uuid_draws ready_state.
Proof.
  split; [reflexivity|].
  destruct (no_code_nothing_run demo_world "thanks" None "default"
              ready_state) as (_ & Htr & _ & Hu); [reflexivity..|].
  split; [exact Htr|exact Hu].
Defined.

(** The answer to a block that prints [hi]. *)
Lemma response_matches_record_witness :
  exists record,
    get_execution_results "id0"
      (snd (process_message demo_world (fenced hello_c) None "default"
              ready_state))
    = Some record
    /\ code_execution "hi" hello_c "success" 2%Q "id0"
       = execution_response hello_c "id0" record.
Proof.
  destruct (response_matches_record demo_world (fenced hello_c) None
              "default" ready_state "hi" hello_c "success" 2%Q "id0")
    as (record & Hget & _ & Hresp); [vm_compute; reflexivity|].
  by exists record.
Defined.

Lemma stored_sessions_c : all_sessions_c stored_state.
Proof.
  intros sid session. unfold stored_state. cbn [sessions set_sessions].
  rewrite lookup_singleton_Some. by intros [_ <-].
Qed.

Lemma sessions_stay_c_witness :
  all_sessions_c stored_state
  /\ all_sessions_c
       (snd (process_message demo_world (fenced hello_c) None "default"
               stored_state)).
Proof.
  split; [exact stored_sessions_c|].
  apply (sessions_stay_c demo_world (fenced hello_c) None "default"
           stored_state stored_sessions_c).
Defined.

(** Generate, then run. *)
Lemma generated_code_is_run_witness :
  generate_code demo_world "write a program that greets" = inr hello_c
  /\ last_generated_code
       (session_of "default"
          (snd (process_message demo_world "write a program that greets"
                  None "default" ready_state)))
     = Some hello_c
  /\ fst (process_message demo_world "run it" None "default"
            (snd (process_message demo_world "write a program that greets"
                    None "default" ready_state)))
     = Ret (code_execution "hi" hello_c "success" 2%Q "id0").
Proof.
  split; [reflexivity|].
  destruct (generated_code_is_run demo_world "write a program that greets"
              None "run it" None "default" ready_state hello_c)
    as (_ & Hcode & Hrun); [reflexivity..|].
  split; [exact Hcode|]. rewrite Hrun. vm_compute. reflexivity.
Defined.

(** A run phrase in a session that holds code. *)
Lemma run_previous_reruns_stored_witness :
  last_generated_code (session_of "default" stored_state) = Some exit3_c
  /\ sessions
       (snd (execute_c_code demo_world exit3_c None (Some "id0") false
               (set_uuid_draws 1
                  (update_session "default" (reran "run it") stored_state))))
       !! "default"
     = Some (reran "run it" (session_of "default" stored_state)).
Proof.
  split; [reflexivity|].
  destruct (run_previous_reruns_stored demo_world "run it" None "default"
              stored_state exit3_c) as [_ H]; [reflexivity..|].
  exact H.
Defined.

(** Small talk in one session leaves the channels alone. *)
Lemma process_message_keeps_witness :
  active_connections
    (snd (process_message demo_world "thanks" None "default" crowded_state))
  = active_connections crowded_state.
Proof.
  destruct (process_message_keeps demo_world "thanks" None "default"
              crowded_state) as (_ & H & _).
  exact H.
Defined.

(** ** The pattern *)

Lemma extracted_code_was_fenced_witness :
  _extract_code (fenced hello_c) = Some ("c", hello_c)
  /\ exists pre tag ws group post,
       fenced hello_c
       = pre +:+ Fence.fence
         +:+ String tag
               (ws +:+ PyStr.nl +:+ group +:+ Fence.closing +:+ post)
       /\ Fence.is_c tag = true
       /\ all_space ws = true
       /\ group <> ""
       /\ hello_c = PyStr.strip group.
Proof.
  split; [reflexivity|].
  apply (extracted_code_was_fenced (fenced hello_c) "c" hello_c).
  reflexivity.
Defined.

Lemma no_fence_no_code_witness :
  PyStr.contains Fence.fence "run it" = false
  /\ _extract_code "run it" = None.
Proof.
  split; [reflexivity|].
  apply (no_fence_no_code "run it"). reflexivity.
Defined.

Lemma well_formed_block_extracted_witness :
  _extract_code framed_message = Some ("c", hello_c).
Proof.
  exact (well_formed_block_extracted "Try: " "C" "  " "i"
           "nt main(){puts(hi);return 0;}" " please"
           eq_refl eq_refl eq_refl eq_refl eq_refl).
Defined.

(** ** The generator *)

Lemma unfenced_reply_kept_witness :
  CodeGenerator.generate_code plain_client "greet" "c" "gpt-4o"
  = inr hello_c.
Proof.
  apply (unfenced_reply_kept plain_client "greet" "c" "gpt-4o" hello_c);
    reflexivity.
Defined.

Lemma one_line_fenced_reply_emptied_witness :
  CodeGenerator.generate_code inline_client "greet" "c" "gpt-4o" = inr "".
Proof.
  apply (one_line_fenced_reply_emptied inline_client "greet" "c" "gpt-4o"
           (Fence.fence +:+ "c " +:+ hello_c +:+ " " +:+ Fence.fence));
    reflexivity.
Defined.

Lemma classify_yes_iff_witness :
  CodeGenerator.classify_request demo_client "greet" "gpt-4o" = inr true.
Proof.
  apply (classify_yes_iff demo_client "greet" "gpt-4o"
           (" Yes" +:+ PyStr.nl)); [reflexivity|].
  exists " ", "Yes", PyStr.nl. repeat split; reflexivity.
Defined.

Lemma generated_block_stored_unwrapped_witness :
  process_message (with_generator demo_client demo_world)
    "write a program that greets" None "default" ready_state
  = (Ret (code_generation hello_c
            "Here's the generated C code based on your request:"),
     update_session "default"
       (generated "write a program that greets" hello_c) ready_state).
Proof.
  apply (generated_block_stored_unwrapped demo_client demo_world
           "write a program that greets" None "default" ready_state
           (" Yes" +:+ PyStr.nl) (Fence.fence +:+ "c") hello_c Fence.fence);
    reflexivity.
Defined.

(** ** The chat endpoint *)

Lemma chat_tempdir_failure_is_500_witness :
  mkdtemp full_disk_world (mkdtemp_calls ready_state) = inl disk_full
  /\ exists s',
       process_chat_message full_disk_world (fenced hello_c) None None
         ready_state
       = (Ret (HTTPException 500 "No space left on device"), s')
       /\ sessions s' !! "default"
          = Some (provided (fenced hello_c) hello_c
                    (session_of "default" ready_state))
       /\ execution_results s' = execution_results ready_state
       /\ trace s' = trace ready_state.
Proof.
  split; [reflexivity|].
  apply (chat_tempdir_failure_is_500 full_disk_world (fenced hello_c) None
           None ready_state hello_c disk_full);
    reflexivity.
Defined.

Lemma anonymous_requests_share_session_witness :
  last_generated_code
    (session_of "default"
       (snd (process_chat_message demo_world (fenced hello_c) None None
               ready_state)))
  = Some hello_c
  /\ fst (process_chat_message demo_world "run it" None (Some "")
            (snd (process_chat_message demo_world (fenced hello_c) None None
                    ready_state)))
     = Ret (Body (code_execution "hi" hello_c "success" 2%Q "id1")).
Proof.
  destruct (anonymous_requests_share_session demo_world (fenced hello_c)
              None None "run it" None (Some "") ready_state hello_c)
    as [Hcode Hrun]; [reflexivity..|].
  split; [exact Hcode|]. rewrite Hrun. vm_compute. reflexivity.
Defined.
